(** * annual_engine.py: annual-leave suggestion, daily wage and unused-leave payout

    A shallow embedding of [annual-leave-calculator/annual_engine.py] and the
    properties its specification states about it.

    The program is dynamically typed Python over dictionaries, so the embedding
    starts with the fragment of Python it runs on (module [Py]): values,
    exceptions, the arithmetic and comparison operators with their coercions
    between [int] and [float], and the builtins [int], [float], [round], [min],
    [max], [str.strip], [str.split] and [in].  Python's [float] is IEEE-754
    binary64, which is Rocq's primitive [float]; Python's [int] is [Z]; a [str]
    is kept as its UTF-8 bytes (a Rocq [string]), on which substring search,
    splitting and comparison agree with the same operations on code points. *)

From Stdlib Require Import ZArith Lia Bool String Ascii List Floats DecimalString.
From Stdlib Require Uint63.
From stdpp Require Import base option list strings gmap.

Local Open Scope string_scope.
Local Open Scope Z_scope.

(** ** Exceptions and the two monads the code runs in *)

Inductive exn : Set :=
| TypeError | ValueError | OverflowError | ZeroDivisionError | IndexError | KeyError.

Inductive result (A : Type) : Type :=
| Ok (a : A)
| Raise (e : exn).
Arguments Ok {A} a.
Arguments Raise {A} e.

#[global] Instance result_ret : MRet result := @Ok.
#[global] Instance result_bind : MBind result :=
  fun A B (f : A -> result B) (m : result A) =>
    match m with Ok a => f a | Raise e => Raise e end.
#[global] Instance result_fmap : FMap result :=
  fun A B (f : A -> B) (m : result A) =>
    match m with Ok a => Ok (f a) | Raise e => Raise e end.

(** [try: body / except Exception: handler]. *)
Definition try_except {A} (body handler : result A) : result A :=
  match body with Ok a => Ok a | Raise _ => handler end.

Definition returns {A} (m : result A) : Prop := exists a, m = Ok a.

(** Statements that assign to local variables: the assignments made before an
    exception is raised are kept, which is what a [try] block that ends in
    [pass] relies on. *)
Definition proc (S A : Type) : Type := S -> S * result A.

Definition pure {S A} (a : A) : proc S A := fun s => (s, Ok a).
Definition lift {S A} (m : result A) : proc S A := fun s => (s, m).
Definition read {S A} (f : S -> A) : proc S A := fun s => (s, Ok (f s)).
Definition assign {S} (f : S -> S) : proc S unit := fun s => (f s, Ok tt).
Definition seq {S A B} (m : proc S A) (k : A -> proc S B) : proc S B :=
  fun s => match m s with
           | (s', Ok a) => k a s'
           | (s', Raise e) => (s', Raise e)
           end.
(** [try: body / except Exception: pass]. *)
Definition try_pass {S} (body : proc S unit) : proc S unit :=
  fun s => (fst (body s), Ok tt).
Definition when {S} (c : bool) (body : proc S unit) : proc S unit :=
  if c then body else pure tt.

Declare Scope proc_scope.
Delimit Scope proc_scope with proc.
Notation "x <~ m ;; k" := (seq m (fun x => k))
  (at level 100, m at next level, right associativity) : proc_scope.
Notation "m ;;; k" := (seq m (fun _ => k))
  (at level 100, right associativity) : proc_scope.

(** ** The Python fragment *)

(** The values that reach the engine: [None], integers, floats and strings.
    A [bool] is not among them: it computes as 0 and 1 but prints as [True] and
    [False], and no statement below speaks of a call that is given one. *)
Inductive value : Type :=
| VNone
| VInt (z : Z)
| VFloat (f : float)
| VStr (s : string).

Abbreviation dict := (gmap string value).

Module Py.

(** [d.get(key, default)]. *)
Definition get (d : dict) (key : string) (dflt : value) : value :=
  default dflt (d !! key).

(** *** Binary64 helpers *)

Definition is_nan (f : float) : bool := PrimFloat.is_nan f.

Definition float_zero (neg : bool) : float := if neg then neg_zero else zero.

(** [math.isfinite]: neither an infinity nor a NaN. *)
Definition is_finite (f : float) : bool :=
  match Prim2SF f with
  | S754_zero _ | S754_finite _ _ _ => true
  | _ => false
  end.

(** The exact order between a float and an integer; [None] for NaN. *)
Definition SF_compare_Z (x : spec_float) (z : Z) : option comparison :=
  match x with
  | S754_nan => None
  | S754_infinity false => Some Gt
  | S754_infinity true => Some Lt
  | S754_zero _ => Some (0 ?= z)
  | S754_finite s m e =>
      let n := cond_Zopp s (Zpos m) in
      Some (if 0 <=? e then n * 2 ^ e ?= z else n ?= z * 2 ^ (- e))
  end.

Definition float_compare (x y : float) : option comparison :=
  match PrimFloat.compare x y with
  | FEq => Some Eq
  | FLt => Some Lt
  | FGt => Some Gt
  | FNotComparable => None
  end.

(** [float(n)] for an integer [n]: the nearest double, ties to even;
    [OverflowError] when [n] is beyond the largest double. *)
Definition float_of_Z (n : Z) : result float :=
  match binary_normalize prec emax n 0 false with
  | S754_infinity _ => Raise OverflowError
  | x => Ok (SF2Prim x)
  end.

(** [int(x)] for a float [x]: truncation toward zero. *)
Definition Z_of_float (x : float) : result Z :=
  match Prim2SF x with
  | S754_nan => Raise ValueError
  | S754_infinity _ => Raise OverflowError
  | S754_zero _ => Ok 0
  | S754_finite s m e =>
      Ok (cond_Zopp s (if 0 <=? e then Zpos m * 2 ^ e else Zpos m / 2 ^ (- e)))
  end.

(** Rounding of the non-negative rational [n / d] to an integer, halves to
    even. *)
Definition round_half_even (n d : Z) : Z :=
  let q := n / d in
  let r := n mod d in
  match 2 * r ?= d with
  | Lt => q
  | Gt => q + 1
  | Eq => if Z.even q then q else q + 1
  end.

(** [round(x)]: the nearest integer, halves to even. *)
Definition round_float (x : float) : result Z :=
  match Prim2SF x with
  | S754_nan => Raise ValueError
  | S754_infinity _ => Raise OverflowError
  | S754_zero _ => Ok 0
  | S754_finite s m e =>
      Ok (cond_Zopp s (if 0 <=? e then Zpos m * 2 ^ e
                       else round_half_even (Zpos m) (2 ^ (- e))))
  end.

(** The correctly rounded quotient of two integers, [d > 0], with the sign
    [neg]; an infinite result is kept. *)
Definition SF_quot (neg : bool) (n d : Z) : spec_float :=
  match n, d with
  | Zpos pn, Zpos pd =>
      SFdiv prec emax (S754_finite neg pn 0) (S754_finite false pd 0)
  | _, _ => S754_zero neg
  end.

(** [round(x, 1)]: the decimal with one fractional digit nearest to [x]
    (halves to even), read back as a double. *)
Definition round1_float (x : float) : float :=
  match Prim2SF x with
  | S754_finite s m e =>
      let n := if 0 <=? e then Zpos m * 2 ^ e * 10
               else round_half_even (Zpos m * 10) (2 ^ (- e)) in
      SF2Prim (SF_quot s n 10)
  | _ => x
  end.

(** C's [floor]. *)
Definition float_floor (x : float) : float :=
  match Prim2SF x with
  | S754_finite s m e =>
      if 0 <=? e then x
      else
        let q := Zpos m / 2 ^ (- e) in
        let r := Zpos m mod 2 ^ (- e) in
        let n := if s then q + (if r =? 0 then 0 else 1) else q in
        if n =? 0 then float_zero s
        else SF2Prim (binary_normalize prec emax (cond_Zopp s n) 0 false)
  | _ => x
  end.

(** C's [fmod]: the exact remainder of [x / y], with the sign of [x]. *)
Definition float_fmod (x y : float) : float :=
  match Prim2SF x, Prim2SF y with
  | S754_nan, _ => nan
  | _, S754_nan => nan
  | S754_infinity _, _ => nan
  | _, S754_zero _ => nan
  | _, S754_infinity _ => x
  | S754_zero _, _ => x
  | S754_finite sx mx ex, S754_finite _ my ey =>
      let e := Z.min ex ey in
      let r := (Zpos mx * 2 ^ (ex - e)) mod (Zpos my * 2 ^ (ey - e)) in
      if r =? 0 then float_zero sx
      else SF2Prim (binary_normalize prec emax (cond_Zopp sx r) e false)
  end.

(** [vx // wx] on floats, as CPython's [_float_div_mod] computes it. *)
Definition float_floordiv (vx wx : float) : result float :=
  if (wx =? 0)%float then Raise ZeroDivisionError
  else
    let md := float_fmod vx wx in
    let div := ((vx - md) / wx)%float in
    let div :=
      if negb (md =? 0)%float && xorb (wx <? 0)%float (md <? 0)%float
      then (div - 1)%float else div in
    if negb (div =? 0)%float then
      let fl := float_floor div in
      Ok (if (0.5 <? div - fl)%float then (fl + 1)%float else fl)
    else Ok (float_zero (get_sign (vx / wx)%float)).

(** [a / b] on integers: the correctly rounded quotient. *)
Definition Z_truediv (a b : Z) : result float :=
  if b =? 0 then Raise ZeroDivisionError
  else
    match SF_quot (xorb (a <? 0) (b <? 0)) (Z.abs a) (Z.abs b) with
    | S754_infinity _ => Raise OverflowError
    | x => Ok (SF2Prim x)
    end.

(** *** Strings *)

Definition byte_of (c : ascii) : Z := Z.of_N (N_of_ascii c).

Definition is_digit (c : ascii) : bool := (48 <=? byte_of c) && (byte_of c <=? 57).

Definition digit_val (c : ascii) : Z := byte_of c - 48.

(** The rest of [s] after one leading white-space character, if it has one.
    The characters are the ones [str.isspace] accepts: U+0009..U+000D,
    U+001C..U+001F, U+0020, U+0085, U+00A0, U+1680, U+2000..U+200A, U+2028,
    U+2029, U+202F, U+205F and U+3000, in UTF-8.  [sep] says whether the four
    separators U+001C..U+001F count: they do for [str.strip], they do not for
    the numeric parsers, which test ASCII characters with C's [isspace]. *)
Definition space_prefix (sep : bool) (s : string) : option string :=
  match s with
  | String c1 r1 =>
      let b1 := byte_of c1 in
      if (9 <=? b1) && (b1 <=? 13) || (b1 =? 32)
         || sep && (28 <=? b1) && (b1 <=? 31)
      then Some r1
      else
        match r1 with
        | String c2 r2 =>
            let b2 := byte_of c2 in
            if (b1 =? 194) && ((b2 =? 133) || (b2 =? 160)) then Some r2
            else
              match r2 with
              | String c3 r3 =>
                  let b3 := byte_of c3 in
                  if (b1 =? 225) && (b2 =? 154) && (b3 =? 128)
                     || (b1 =? 226) && (b2 =? 128)
                        && ((128 <=? b3) && (b3 <=? 138)
                            || (b3 =? 168) || (b3 =? 169) || (b3 =? 175))
                     || (b1 =? 226) && (b2 =? 129) && (b3 =? 159)
                     || (b1 =? 227) && (b2 =? 128) && (b3 =? 128)
                  then Some r3
                  else None
              | _ => None
              end
        | _ => None
        end
  | _ => None
  end.

Fixpoint lstrip_fuel (sep : bool) (n : nat) (s : string) : string :=
  match n with
  | O => s
  | S n' =>
      match space_prefix sep s with
      | Some r => lstrip_fuel sep n' r
      | None => s
      end
  end.

Definition lstrip (sep : bool) (s : string) : string :=
  lstrip_fuel sep (String.length s) s.

Fixpoint rstrip (sep : bool) (s : string) : string :=
  match s with
  | "" => ""
  | String c r =>
      if String.eqb (lstrip sep s) "" then "" else String c (rstrip sep r)
  end.

(** [s.strip()]. *)
Definition strip (s : string) : string := rstrip true (lstrip true s).

(** [sub in s]. *)
Fixpoint contains (sub s : string) : bool :=
  String.prefix sub s
  || match s with
     | "" => false
     | String _ r => contains sub r
     end.

(** [s.split(sep)] for a non-empty [sep]: [skip] counts the bytes of a matched
    separator still to pass, [piece] is the piece being read. *)
Fixpoint split_from (sep : string) (skip : nat) (piece s : string) : list string :=
  match s with
  | "" => [piece]
  | String c r =>
      match skip with
      | S k => split_from sep k piece r
      | O =>
          if String.prefix sep s
          then piece :: split_from sep (String.length sep - 1) "" r
          else split_from sep 0 (piece ++ String c "") r
      end
  end.

Definition split (s sep : string) : list string := split_from sep 0 "" s.

(** [l[i]]. *)
Definition item {A} (l : list A) (i : nat) : result A :=
  match l !! i with
  | Some a => Ok a
  | None => Raise IndexError
  end.

Fixpoint str_repeat (n : nat) (s : string) : string :=
  match n with
  | O => ""
  | S n' => s ++ str_repeat n' s
  end.

(** [len(s)], the number of code points of a text in UTF-8: the bytes that
    do not continue a character. *)
Fixpoint code_points (s : string) : Z :=
  match s with
  | "" => 0
  | String c r =>
      (if (128 <=? byte_of c) && (byte_of c <? 192) then 0 else 1) + code_points r
  end.

(** [sys.maxsize], on a 64-bit build. *)
Definition maxsize : Z := 2 ^ 63 - 1.

(** [s * n] and [n * s] for a text: [OverflowError] for a count that is not
    an index or a result longer than [sys.maxsize].  (A result that does fit
    an index but not the memory is a [MemoryError] of the machine, which is
    not modelled.) *)
Definition repeat (s : string) (n : Z) : result string :=
  if (n <? - maxsize - 1) || (maxsize <? n) then Raise OverflowError
  else if n <? 1 then Ok ""
  else if maxsize / n <? code_points s then Raise OverflowError
  else Ok (str_repeat (Z.to_nat n) s).

(** [sys.int_info.default_max_str_digits]: the most decimal digits an integer
    may have when it is read from a text or written as one. *)
Definition max_str_digits : nat := 4300.

(** The least magnitude that has more digits, [10 ^ 4300]. *)
Definition str_limit : Z := Eval vm_compute in 10 ^ 4300.

(** The decimal digits of an integer, without the limit [str] puts on it. *)
Definition str_of_Z (n : Z) : string := NilZero.string_of_int (Z.to_int n).

Definition lower (c : ascii) : ascii :=
  if (65 <=? byte_of c) && (byte_of c <=? 90)
  then ascii_of_N (N_of_ascii c + 32) else c.

Fixpoint lower_str (s : string) : string :=
  match s with
  | "" => ""
  | String c r => String (lower c) (lower_str r)
  end.

(** *** Numeric literals, as [float] and [int] read them *)

(** An underscore may only stand between two digits; the text without its
    underscores, or [None] when one is misplaced. *)
Fixpoint remove_underscores (prev : option ascii) (s : string) : option string :=
  match s with
  | "" =>
      match prev with
      | Some "_"%char => None
      | _ => Some ""
      end
  | String c r =>
      if Ascii.eqb c "_" then
        match prev with
        | Some p => if is_digit p then remove_underscores (Some c) r else None
        | None => None
        end
      else
        match prev with
        | Some "_"%char =>
            if is_digit c then String c <$> remove_underscores (Some c) r
            else None
        | _ => String c <$> remove_underscores (Some c) r
        end
  end.

(** The longest prefix of digits of [s]: with [acc] the number read so far,
    the number, how many digits were read, and the rest. *)
Fixpoint take_digits (s : string) (acc : Z) (cnt : nat) : Z * nat * string :=
  match s with
  | String c r =>
      if is_digit c then take_digits r (10 * acc + digit_val c) (S cnt)
      else (acc, cnt, s)
  | "" => (acc, cnt, s)
  end.

Definition parse_sign (s : string) : bool * string :=
  match s with
  | String "-" r => (true, r)
  | String "+" r => (false, r)
  | _ => (false, s)
  end.

(** The optional exponent part, which must be all that is left. *)
Definition parse_exponent (s : string) : option Z :=
  match s with
  | "" => Some 0
  | String c r =>
      if Ascii.eqb (lower c) "e" then
        let (neg, r1) := parse_sign r in
        let '(v, n, rest) := take_digits r1 0 0 in
        if (0 <? n)%nat && String.eqb rest "" then Some (if neg then - v else v)
        else None
      else None
  end.

(** An unsigned decimal literal as [(m, e)], standing for [m * 10 ^ e]. *)
Definition parse_decimal (s : string) : option (Z * Z) :=
  let '(i, ni, r) := take_digits s 0 0 in
  let '(m, nf, r') :=
    match r with
    | String "." r1 => take_digits r1 i 0
    | _ => (i, O, r)
    end in
  if (ni + nf =? 0)%nat then None
  else (fun e => (m, e - Z.of_nat nf)) <$> parse_exponent r'.

(** The double nearest to [(-1)^neg * m * 10 ^ e], [m >= 0]. *)
Definition float_of_decimal (neg : bool) (m e : Z) : float :=
  if 0 <=? e
  then SF2Prim (binary_normalize prec emax (cond_Zopp neg (m * 10 ^ e)) 0 neg)
  else SF2Prim (SF_quot neg m (10 ^ (- e))).

(** [float(s)] for a string: [ValueError] unless [s], stripped, is a decimal
    literal, [inf], [infinity] or [nan] with an optional sign.  (The decimal
    digits of other scripts, which CPython also reads, are not: a text with
    one is taken as malformed.) *)
Definition float_of_string (s : string) : result float :=
  match remove_underscores None (rstrip false (lstrip false s)) with
  | None => Raise ValueError
  | Some u =>
      let (neg, r) := parse_sign u in
      let l := lower_str r in
      if String.eqb l "inf" || String.eqb l "infinity"
      then Ok (if neg then neg_infinity else infinity)
      else if String.eqb l "nan" then Ok nan
      else
        match parse_decimal r with
        | Some (m, e) => Ok (float_of_decimal neg m e)
        | None => Raise ValueError
        end
  end.

(** [int(s)] for a string, in base 10: [ValueError] unless [s], stripped, is
    a run of at most [max_str_digits] digits with an optional sign.  (As for
    [float], the decimal digits of other scripts are not read.) *)
Definition int_of_string (s : string) : result Z :=
  match remove_underscores None (rstrip false (lstrip false s)) with
  | None => Raise ValueError
  | Some u =>
      let (neg, r) := parse_sign u in
      let '(v, n, rest) := take_digits r 0 0 in
      if (0 <? n)%nat && (n <=? max_str_digits)%nat && String.eqb rest ""
      then Ok (if neg then - v else v)
      else Raise ValueError
  end.

(** *** Operators *)

(** The three-way comparison behind [<], [<=], [>], [>=] and [==]: numbers
    compare by their exact values ([None] when a NaN is involved), strings by
    their code points; anything else is a [TypeError]. *)
Definition compare (a b : value) : result (option comparison) :=
  match a, b with
  | VInt x, VInt y => Ok (Some (x ?= y))
  | VInt x, VFloat y => Ok (CompOpp <$> SF_compare_Z (Prim2SF y) x)
  | VFloat x, VInt y => Ok (SF_compare_Z (Prim2SF x) y)
  | VFloat x, VFloat y => Ok (float_compare x y)
  | VStr s, VStr t => Ok (Some (String.compare s t))
  | _, _ => Raise TypeError
  end.

Definition is_lt (c : option comparison) : bool :=
  match c with Some Lt => true | _ => false end.
Definition is_gt (c : option comparison) : bool :=
  match c with Some Gt => true | _ => false end.
Definition is_eq (c : option comparison) : bool :=
  match c with Some Eq => true | _ => false end.

Definition lt (a b : value) : result bool := is_lt <$> compare a b.
Definition gt (a b : value) : result bool := is_gt <$> compare a b.
Definition le (a b : value) : result bool :=
  (fun c => is_lt c || is_eq c) <$> compare a b.
Definition ge (a b : value) : result bool :=
  (fun c => is_gt c || is_eq c) <$> compare a b.

(** [a == b]: never raises; values of unrelated types are unequal. *)
Definition eq (a b : value) : bool :=
  match a, b with
  | VNone, VNone => true
  | _, _ =>
      match compare a b with
      | Ok c => is_eq c
      | Raise _ => false
      end
  end.

(** An arithmetic operator on numbers: integers stay integers, and an integer
    met with a float is converted first. *)
Definition arith (fz : Z -> Z -> result value) (ff : float -> float -> result value)
    (a b : value) : result value :=
  match a, b with
  | VInt x, VInt y => fz x y
  | VInt x, VFloat y => x' ← float_of_Z x; ff x' y
  | VFloat x, VInt y => y' ← float_of_Z y; ff x y'
  | VFloat x, VFloat y => ff x y
  | _, _ => Raise TypeError
  end.

Definition add (a b : value) : result value :=
  match a, b with
  | VStr s, VStr t => Ok (VStr (s ++ t))
  | _, _ => arith (fun x y => Ok (VInt (x + y)))
                  (fun x y => Ok (VFloat (x + y))) a b
  end.

Definition sub (a b : value) : result value :=
  arith (fun x y => Ok (VInt (x - y))) (fun x y => Ok (VFloat (x - y))) a b.

Definition mul (a b : value) : result value :=
  match a, b with
  | VStr s, VInt n => VStr <$> repeat s n
  | VInt n, VStr s => VStr <$> repeat s n
  | _, _ => arith (fun x y => Ok (VInt (x * y)))
                  (fun x y => Ok (VFloat (x * y))) a b
  end.

Definition truediv (a b : value) : result value :=
  arith (fun x y => VFloat <$> Z_truediv x y)
        (fun x y => if (y =? 0)%float then Raise ZeroDivisionError
                    else Ok (VFloat (x / y)))
        a b.

Definition floordiv (a b : value) : result value :=
  arith (fun x y => if y =? 0 then Raise ZeroDivisionError else Ok (VInt (x / y)))
        (fun x y => VFloat <$> float_floordiv x y)
        a b.

(** [min(a, b)] and [max(a, b)]: the first argument unless the second is
    strictly smaller (larger). *)
Definition min (a b : value) : result value :=
  lt b a ≫= fun c : bool => Ok (if c then b else a).
Definition max (a b : value) : result value :=
  gt b a ≫= fun c : bool => Ok (if c then b else a).

(** [int(a)]. *)
Definition int (a : value) : result Z :=
  match a with
  | VInt z => Ok z
  | VFloat f => Z_of_float f
  | VStr s => int_of_string s
  | VNone => Raise TypeError
  end.

(** [float(a)]. *)
Definition float (a : value) : result PrimFloat.float :=
  match a with
  | VInt z => float_of_Z z
  | VFloat f => Ok f
  | VStr s => float_of_string s
  | VNone => Raise TypeError
  end.

(** [round(a)]. *)
Definition round (a : value) : result Z :=
  match a with
  | VInt z => Ok z
  | VFloat f => round_float f
  | _ => Raise TypeError
  end.

(** [round(a, 1)]. *)
Definition round1 (a : value) : result value :=
  match a with
  | VInt z => Ok (VInt z)
  | VFloat f => Ok (VFloat (round1_float f))
  | _ => Raise TypeError
  end.

End Py.

(** ** 0. Utilities *)

(** [drop_to_10won(amount)]: down to a multiple of 10 won. *)
Definition drop_to_10won (amount : value) : result value :=
  try_except
    (n ← Py.int amount;
     q ← Py.floordiv (VInt n) (VInt 10);
     Py.mul q (VInt 10))
    (Ok (VInt 0)).

(** ** 1. NEIS attendance records *)

Record NiceRecord : Type := {
  leave_type : string;
  duration_raw : string;
  hours_per_day : float
}.

(** The dictionary [parse_duration] returns. *)
Record ParsedDuration : Type := {
  days : value;
  hours : value;
  minutes : value
}.

(** The local variables of [parse_duration]. *)
Record locals : Type := {
  txt : string;
  dur : ParsedDuration
}.

Definition set_txt (t : string) (l : locals) : locals :=
  {| txt := t; dur := dur l |}.
Definition set_days (v : value) (l : locals) : locals :=
  {| txt := txt l;
     dur := {| days := v; hours := hours (dur l); minutes := minutes (dur l) |} |}.
Definition set_hours (v : value) (l : locals) : locals :=
  {| txt := txt l;
     dur := {| days := days (dur l); hours := v; minutes := minutes (dur l) |} |}.
Definition set_minutes (v : value) (l : locals) : locals :=
  {| txt := txt l;
     dur := {| days := days (dur l); hours := hours (dur l); minutes := v |} |}.

Definition no_duration : ParsedDuration :=
  {| days := VInt 0; hours := VInt 0; minutes := VInt 0 |}.

(** The statements of [parse_duration] after the test for an empty text. *)
Definition parse_duration_body (self : NiceRecord) : proc locals unit :=
  (t <~ read txt ;;
   when (Py.contains "일" t)
     (try_pass
        (val <~ lift (Py.item (Py.split t "일") 0) ;;
         x <~ lift (Py.float (VStr val)) ;;
         assign (set_days (VFloat x)) ;;;
         t' <~ lift (Py.item (Py.split t "일") 1) ;;
         assign (set_txt t'))) ;;;
   t <~ read txt ;;
   when (Py.contains "시간" t)
     (try_pass
        (val <~ lift (Py.item (Py.split t "시간") 0) ;;
         x <~ lift (Py.float (VStr val)) ;;
         assign (set_hours (VFloat x)) ;;;
         t' <~ lift (Py.item (Py.split t "시간") 1) ;;
         assign (set_txt t'))) ;;;
   t <~ read txt ;;
   when (Py.contains "분" t)
     (try_pass
        (val <~ lift (Py.item (Py.split t "분") 0) ;;
         x <~ lift (Py.float (VStr val)) ;;
         assign (set_minutes (VFloat x)))) ;;;
   d <~ read dur ;;
   when (Py.eq (days d) (VInt 0) && Py.eq (hours d) (VInt 0)
         && Py.eq (minutes d) (VInt 0))
     (try_pass
        (x <~ lift (Py.float (VStr (duration_raw self))) ;;
         assign (set_days (VFloat x)))))%proc.

(** [NiceRecord.parse_duration]. *)
Definition parse_duration (self : NiceRecord) : result ParsedDuration :=
  let t := Py.strip (duration_raw self) in
  if String.eqb t "" then Ok no_duration
  else
    let (l, r) := parse_duration_body self {| txt := t; dur := no_duration |} in
    _ ← r; Ok (dur l).

(** [NiceRecord.to_total_hours]. *)
Definition to_total_hours (self : NiceRecord) : result value :=
  d ← parse_duration self;
  total ← Py.mul (days d) (VFloat (hours_per_day self));
  total ← Py.add total (hours d);
  q ← Py.truediv (minutes d) (VFloat 60);
  Py.add total q.

(** ** 2. Aggregation of the attendance records *)

(** One entry of the list [summarize_nice_records] returns. *)
Record Summary : Type := {
  summary_leave_type : string;
  count : Z;
  sum_d_h_m : string;
  sum_hours_decimal : value;
  converted_days_hours : string
}.

(** The dictionary [grouped], in insertion order. *)
Abbreviation groups := (list (string * list NiceRecord)).

(** [grouped.setdefault(lt, []).append(r)]. *)
Fixpoint setdefault_append (grouped : groups) (lt : string) (r : NiceRecord) : groups :=
  match grouped with
  | [] => [(lt, [r])]
  | (k, recs) :: rest =>
      if String.eqb k lt then (k, (recs ++ [r])%list) :: rest
      else (k, recs) :: setdefault_append rest lt r
  end.

Definition group_records (records : list NiceRecord) : groups :=
  fold_left (fun grouped r => setdefault_append grouped (leave_type r) r) records [].

(** [for r in recs: total_hours += r.to_total_hours()]. *)
Fixpoint sum_total_hours (total_hours : value) (recs : list NiceRecord) : result value :=
  match recs with
  | [] => Ok total_hours
  | r :: rest =>
      h ← to_total_hours r;
      total ← Py.add total_hours h;
      sum_total_hours total rest
  end.

(** The total of a group turned back into days, hours and minutes:
    [(days, remain, hours, minutes)]. *)
Definition expand_hours (total_hours hpd : value) : result (Z * value * Z * Z) :=
  q ← Py.floordiv total_hours hpd;
  days ← Py.int q;
  p ← Py.mul (VInt days) hpd;
  remain ← Py.sub total_hours p;
  hours ← Py.int remain;
  frac ← Py.sub remain (VInt hours);
  m ← Py.mul frac (VInt 60);
  rounded ← Py.round m;
  minutes ← Py.int (VInt rounded);
  Ok (days, remain, hours, minutes).

Section Engine.

(** [repr] of a float, Python's shortest decimal that reads back as the same
    double.  The engine only pastes it into display texts, so it is left as a
    parameter. *)
Variable repr_float : float -> string.

(** [str(v)], the text an f-string puts in place of [{v}]: an integer of more
    than [Py.max_str_digits] decimal digits is refused with a [ValueError]. *)
Definition str (v : value) : result string :=
  match v with
  | VNone => Ok "None"
  | VInt z => if Z.abs z <? Py.str_limit then Ok (Py.str_of_Z z) else Raise ValueError
  | VFloat f => Ok (repr_float f)
  | VStr s => Ok s
  end.

(** The body of the loop over [grouped.items()]. *)
Definition summarize_group (lt : string) (recs : list NiceRecord) : result Summary :=
  total_hours ← sum_total_hours (VFloat 0) recs;
  first ← Py.item recs 0;
  let hpd := VFloat (hours_per_day first) in
  '(days, remain, hours, minutes) ← expand_hours total_hours hpd;
  s_days ← str (VInt days);
  s_hours ← str (VInt hours);
  s_minutes ← str (VInt minutes);
  let dhm_str := s_days ++ "일 " ++ s_hours ++ "시간 " ++ s_minutes ++ "분" in
  s_days' ← str (VInt days);
  remain1 ← Py.round1 remain;
  s_remain ← str remain1;
  let converted := s_days' ++ "일 " ++ s_remain ++ "시간" in
  total1 ← Py.round1 total_hours;
  Ok {| summary_leave_type := lt;
        count := Z.of_nat (length recs);
        sum_d_h_m := dhm_str;
        sum_hours_decimal := total1;
        converted_days_hours := converted |}.

Fixpoint summarize_groups (grouped : groups) : result (list Summary) :=
  match grouped with
  | [] => Ok []
  | (lt, recs) :: rest =>
      entry ← summarize_group lt recs;
      output ← summarize_groups rest;
      Ok (entry :: output)
  end.

(** [summarize_nice_records]. *)
Definition summarize_nice_records (records : list NiceRecord) : result (list Summary) :=
  match records with
  | [] => Ok []
  | _ => summarize_groups (group_records records)
  end.

(** ** 3. The rule profiles *)

Record RuleProfile : Type := {
  profile_id : string;
  profile_name : string;
  rounding_step : Z;
  rounding_mode : string;
  base_days : option dict
}.

Definition make_profile (id name : string) : RuleProfile :=
  {| profile_id := id; profile_name := name;
     rounding_step := 10; rounding_mode := "floor"; base_days := None |}.

Definition RULE_PROFILES : gmap string RuleProfile :=
  list_to_map
    [ ("law_basic", make_profile "law_basic" "법정 기본형");
      ("gw_school_cba", make_profile "gw_school_cba" "학교근무자 CBA (예시)");
      ("gw_institute_cba", make_profile "gw_institute_cba" "기관근무자 CBA (예시)");
      ("gw_wage_guideline", make_profile "gw_wage_guideline" "통상임금 지침형 (예시)");
      ("custom", make_profile "custom" "커스텀") ].

(** ** 4. The suggested number of leave days *)

Record Suggestion : Type := {
  suggested_days : value;
  description : string
}.

(** [suggest_annual_days]. *)
Definition suggest_annual_days (rule_id : string) (svc : dict) : result Suggestion :=
  let fy := Py.get svc "full_years" (VInt 0) in
  let rate := Py.get svc "attendance_rate" (VInt 0) in
  let fm := Py.get svc "full_months" (VInt 0) in
  if String.eqb rule_id "law_basic" then
    Py.lt fy (VInt 1) ≫= fun c : bool =>
    if c then
      days ← Py.min fm (VInt 11);
      s1 ← str fm;
      s2 ← str days;
      Ok {| suggested_days := days;
            description := "법정기본형: 1년 미만 → 월개근 " ++ s1 ++ "개월 → " ++ s2 ++ "일" |}
    else
      Py.lt rate (VInt 80) ≫= fun c : bool =>
      if c then
        let days := fm in
        s1 ← str rate;
        s2 ← str fm;
        s3 ← str days;
        Ok {| suggested_days := days;
              description := "법정기본형: 출근율 " ++ s1 ++ "% < 80 → 월개근 " ++ s2 ++ " → " ++ s3 ++ "일" |}
      else
        d ← Py.sub fy (VInt 1);
        q ← Py.floordiv d (VInt 2);
        m ← Py.min (VInt 10) q;
        extra ← Py.max (VInt 0) m;
        days ← Py.add (VInt 15) extra;
        s1 ← str fy;
        s2 ← str extra;
        s3 ← str days;
        Ok {| suggested_days := days;
              description := "법정기본형: 근속 " ++ s1 ++ "년 → 기본 15 + 가산 " ++ s2 ++ " = " ++ s3 ++ "일" |}
  else if String.eqb rule_id "gw_school_cba" then
    Py.lt fy (VInt 1) ≫= fun c : bool =>
    if c then
      days ← Py.min fm (VInt 11);
      s1 ← str fm;
      s2 ← str days;
      Ok {| suggested_days := days;
            description := "학교 CBA: 1년 미만 → " ++ s1 ++ "개월 → " ++ s2 ++ "일" |}
    else
      Py.ge rate (VInt 80) ≫= fun c : bool =>
      if c then
        let days := VInt 26 in
        s1 ← str rate;
        s2 ← str days;
        Ok {| suggested_days := days;
              description := "학교 CBA: 출근율 " ++ s1 ++ "% ≥80 → " ++ s2 ++ "일" |}
      else
        let days := fm in
        s1 ← str rate;
        s2 ← str days;
        Ok {| suggested_days := days;
              description := "학교 CBA: 출근율 " ++ s1 ++ "% <80 → " ++ s2 ++ "일" |}
  else if String.eqb rule_id "gw_institute_cba" then
    Py.lt fy (VInt 1) ≫= fun c : bool =>
    if c then
      days ← Py.min fm (VInt 11);
      s1 ← str fm;
      s2 ← str days;
      Ok {| suggested_days := days;
            description := "기관 CBA: 1년 미만 → " ++ s1 ++ "개월 → " ++ s2 ++ "일" |}
    else
      Py.ge rate (VInt 80) ≫= fun c : bool =>
      if c then
        let days := VInt 25 in
        s1 ← str rate;
        s2 ← str days;
        Ok {| suggested_days := days;
              description := "기관 CBA: 출근율 " ++ s1 ++ "% ≥80 → " ++ s2 ++ "일" |}
      else
        let days := fm in
        s1 ← str rate;
        s2 ← str days;
        Ok {| suggested_days := days;
              description := "기관 CBA: 출근율 " ++ s1 ++ "% <80 → " ++ s2 ++ "일" |}
  else if String.eqb rule_id "gw_wage_guideline" then
    Py.lt fy (VInt 1) ≫= fun c : bool =>
    if c then
      days ← Py.min fm (VInt 11);
      s1 ← str fm;
      s2 ← str days;
      Ok {| suggested_days := days;
            description := "지침형: 1년 미만 → " ++ s1 ++ " → " ++ s2 ++ "일" |}
    else
      let days := VInt 26 in
      s1 ← str fy;
      s2 ← str days;
      Ok {| suggested_days := days;
            description := "지침형: 근속 " ++ s1 ++ "년 → " ++ s2 ++ "일" |}
  else
    Ok {| suggested_days := VNone; description := "커스텀 모드: 직접 입력" |}.

(** ** 5. The ordinary daily wage *)

(** [calc_daily_wage]. *)
Definition calc_daily_wage (wage : dict) : result value :=
  let wtype := Py.get wage "wage_type" VNone in
  let amt := Py.get wage "wage_amount" (VInt 0) in
  let hpd := Py.get wage "hours_per_day" (VInt 8) in
  let mwd := Py.get wage "monthly_work_days" (VInt 20) in
  if Py.eq wtype (VStr "hourly") then Py.mul amt hpd
  else if Py.eq wtype (VStr "daily") then Ok amt
  else if Py.eq wtype (VStr "monthly") then
    Py.gt mwd (VInt 0) ≫= fun c : bool =>
    if c then Py.truediv amt mwd else Ok (VInt 0)
  else Ok (VInt 0).

(** ** 6. The whole pipeline *)

Record RuleInfo : Type := {
  rule_id : string;
  rule_name : string
}.

Record Payout : Type := {
  granted_days : value;
  used_days : value;
  unused_days : value;
  daily_wage_raw : value;
  payout_raw : value;
  daily_wage_rounded : value;
  payout_rounded : value
}.

Record PipelineResult : Type := {
  rule : RuleInfo;
  suggestion : Suggestion;
  payout : Payout
}.

(** [d[key]]. *)
Definition subscript {A} (d : gmap string A) (key : string) : result A :=
  match d !! key with
  | Some a => Ok a
  | None => Raise KeyError
  end.

(** [full_pipeline]. *)
Definition full_pipeline (rule_id : string) (svc wage : dict)
    (granted_days used_days : value) : result PipelineResult :=
  custom ← subscript RULE_PROFILES "custom";
  let profile := default custom (RULE_PROFILES !! rule_id) in
  suggestion ← suggest_annual_days rule_id svc;
  diff ← Py.sub granted_days used_days;
  unused ← Py.max diff (VInt 0);
  daily_raw ← calc_daily_wage wage;
  payout_raw ← Py.mul unused daily_raw;
  daily_cut ← drop_to_10won daily_raw;
  payout_cut ← drop_to_10won payout_raw;
  Ok {| rule := {| rule_id := profile_id profile; rule_name := profile_name profile |};
        suggestion := suggestion;
        payout := {| granted_days := granted_days;
                     used_days := used_days;
                     unused_days := unused;
                     daily_wage_raw := daily_raw;
                     payout_raw := payout_raw;
                     daily_wage_rounded := daily_cut;
                     payout_rounded := payout_cut |} |}.

End Engine.

(** * Properties *)

(** ** The error monad *)

Lemma bind_Ok {A B} (m : result A) (f : A -> result B) (b : B) :
  m ≫= f = Ok b <-> exists a, m = Ok a /\ f a = Ok b.
Proof.
  destruct m as [a|e]; simpl; split.
  - intros H. exists a. auto.
  - intros (a' & [= <-] & H). exact H.
  - discriminate.
  - intros (a' & [=] & _).
Qed.

Lemma bind_Ok_l {A B} (a : A) (f : A -> result B) : Ok a ≫= f = f a.
Proof. reflexivity. Qed.

Lemma fmap_Ok {A B} (m : result A) (f : A -> B) (b : B) :
  f <$> m = Ok b <-> exists a, m = Ok a /\ f a = b.
Proof.
  destruct m as [a|e]; simpl; split.
  - intros [= <-]. exists a. auto.
  - intros (a' & [= <-] & <-). reflexivity.
  - discriminate.
  - intros (a' & [=] & _).
Qed.

Lemma try_except_returns {A} (body : result A) (a : A) :
  returns (try_except body (Ok a)).
Proof. destruct body; simpl; eexists; reflexivity. Qed.

(** Splits a hypothesis [m ≫= f = Ok b] into the two steps it stands for. *)
Ltac inv_bind H :=
  let a := fresh "a" in
  let Ha := fresh "Ha" in
  apply bind_Ok in H; destruct H as (a & Ha & H).

(** ** Comparisons *)

Arguments Py.compare : simpl never.
Arguments Py.lt : simpl never.
Arguments Py.gt : simpl never.
Arguments Py.le : simpl never.
Arguments Py.ge : simpl never.
Arguments Py.min : simpl never.
Arguments Py.max : simpl never.
Arguments Py.add : simpl never.
Arguments Py.sub : simpl never.
Arguments Py.mul : simpl never.
Arguments Py.truediv : simpl never.
Arguments Py.floordiv : simpl never.
Arguments Py.float_of_Z : simpl never.
Arguments Py.Z_truediv : simpl never.

Definition number (v : value) : Prop :=
  match v with
  | VInt _ | VFloat _ => True
  | _ => False
  end.

Definition clamp (x lo hi : Z) : Z := Z.max lo (Z.min hi x).

Lemma compare_number (a b : value) :
  number a -> number b -> returns (Py.compare a b).
Proof.
  destruct a, b; simpl; try contradiction; intros _ _; eexists; reflexivity.
Qed.

Lemma lt_int (a b : Z) : Py.lt (VInt a) (VInt b) = Ok (a <? b).
Proof. unfold Py.lt, Py.compare, Z.ltb; simpl. destruct (a ?= b); reflexivity. Qed.

Lemma add_int (a b : Z) : Py.add (VInt a) (VInt b) = Ok (VInt (a + b)).
Proof. reflexivity. Qed.

Lemma sub_int (a b : Z) : Py.sub (VInt a) (VInt b) = Ok (VInt (a - b)).
Proof. reflexivity. Qed.

Lemma mul_int (a b : Z) : Py.mul (VInt a) (VInt b) = Ok (VInt (a * b)).
Proof. reflexivity. Qed.

Lemma floordiv_int (a b : Z) :
  b <> 0 -> Py.floordiv (VInt a) (VInt b) = Ok (VInt (a / b)).
Proof.
  intros Hb. unfold Py.floordiv; simpl.
  destruct (Z.eqb_spec b 0); [contradiction|reflexivity].
Qed.

Lemma ge_not_lt (a b : value) :
  Py.ge a b = Ok true -> Py.lt a b = Ok false.
Proof.
  unfold Py.ge, Py.lt. destruct (Py.compare a b) as [[[]|]|]; simpl; congruence.
Qed.

Lemma min_int (a b : Z) : Py.min (VInt a) (VInt b) = Ok (VInt (Z.min a b)).
Proof.
  unfold Py.min, Py.lt, Py.compare; simpl. unfold Z.min. rewrite (Z.compare_antisym a b).
  destruct (a ?= b); reflexivity.
Qed.

Lemma max_int (a b : Z) : Py.max (VInt a) (VInt b) = Ok (VInt (Z.max a b)).
Proof.
  unfold Py.max, Py.gt, Py.compare; simpl. unfold Z.max. rewrite (Z.compare_antisym a b).
  destruct (a ?= b); reflexivity.
Qed.

Lemma string_compare_refl (s : string) : String.compare s s = Eq.
Proof.
  pose proof (String.compare_antisym s s) as H.
  destruct (String.compare s s); simpl in H; congruence.
Qed.

Lemma eq_str (v : value) (s : string) : Py.eq v (VStr s) = true <-> v = VStr s.
Proof.
  destruct v as [| | |t]; unfold Py.eq, Py.compare; simpl;
    try (split; [discriminate|congruence]).
  split.
  - destruct (String.compare t s) eqn:E; try discriminate.
    intros _. f_equal. now apply String.compare_eq_iff.
  - intros [= ->]. rewrite string_compare_refl. reflexivity.
Qed.

(** The service summary of the specification's examples. *)
Definition service_summary (fy : Z) (rate : value) (fm : Z) : dict :=
  {[ "full_years" := VInt fy; "attendance_rate" := rate; "full_months" := VInt fm ]}.

(** ** Integers an f-string can print *)

(** [v] is printed by [str]: it is not an integer of more than
    [Py.max_str_digits] digits. *)
Definition printable (v : value) : Prop :=
  match v with
  | VInt z => Z.abs z < Py.str_limit
  | _ => True
  end.

Lemma str_limit_eq : Py.str_limit = 10 ^ 4300.
Proof. vm_compute. reflexivity. Qed.

Lemma str_limit_above : 4611686018427387904 < Py.str_limit.
Proof. reflexivity. Qed.

Lemma str_int (repr_float : float -> string) (z : Z) :
  Z.abs z < Py.str_limit -> str repr_float (VInt z) = Ok (Py.str_of_Z z).
Proof. intros H. unfold str. apply Z.ltb_lt in H. rewrite H. reflexivity. Qed.


Lemma str_small (repr_float : float -> string) (z : Z) :
  Z.abs z < 4611686018427387904 -> str repr_float (VInt z) = Ok (Py.str_of_Z z).
Proof. intros H. apply str_int. pose proof str_limit_above. lia. Qed.

Lemma str_too_long (repr_float : float -> string) (z : Z) :
  Py.str_limit <= Z.abs z -> str repr_float (VInt z) = Raise ValueError.
Proof. intros H. unfold str. apply Z.ltb_ge in H. rewrite H. reflexivity. Qed.

Lemma str_printable (repr_float : float -> string) (v : value) :
  printable v -> returns (str repr_float v).
Proof.
  destruct v as [|z|f|s]; simpl; intros H; try (eexists; reflexivity).
  exists (Py.str_of_Z z). exact (str_int repr_float z H).
Qed.

Lemma le_int (a b : Z) : Py.le (VInt a) (VInt b) = Ok (a <=? b).
Proof. unfold Py.le, Py.compare, Z.leb; simpl. destruct (a ?= b); reflexivity. Qed.

Lemma printable_percent (rate : value) :
  Py.le (VInt 0) rate = Ok true -> Py.le rate (VInt 100) = Ok true -> printable rate.
Proof.
  destruct rate as [|r|f|s]; try exact (fun _ _ => I).
  rewrite !le_int. intros [= H0] [= H100]. apply Z.leb_le in H0, H100.
  unfold printable. pose proof str_limit_above. lia.
Qed.

Arguments str : simpl never.

(** ** The suggested leave days *)

(** C1 as the code has it: under the rule [law_basic], for a service summary
    with [full_years >= 0], [full_months >= 0] and an attendance rate between 0
    and 100, the suggestion is [min(full_months, 11)] below one full year,
    [full_months] itself from one year on when the rate is below 80, and
    [15 + clamp((full_years-1)//2, 0, 10)] from one year on when the rate is at
    least 80, as long as the integers the description prints have at most
    4300 digits: [full_months] in the first two cases, [full_years] in the
    third; three years, no months and a rate of 95 give 16 days. *)
Theorem law_basic_suggested_days (repr_float : float -> string) :
  (forall (svc : dict) (fy fm : Z) (rate : value),
      Py.get svc "full_years" (VInt 0) = VInt fy ->
      Py.get svc "full_months" (VInt 0) = VInt fm ->
      Py.get svc "attendance_rate" (VInt 0) = rate ->
      0 <= fy -> 0 <= fm ->
      Py.le (VInt 0) rate = Ok true -> Py.le rate (VInt 100) = Ok true ->
      (fy < 1 -> fm < Py.str_limit ->
       suggested_days <$> suggest_annual_days repr_float "law_basic" svc
       = Ok (VInt (Z.min fm 11)))
      /\ (1 <= fy -> Py.lt rate (VInt 80) = Ok true -> fm < Py.str_limit ->
          suggested_days <$> suggest_annual_days repr_float "law_basic" svc
          = Ok (VInt fm))
      /\ (1 <= fy -> Py.ge rate (VInt 80) = Ok true -> fy < Py.str_limit ->
          suggested_days <$> suggest_annual_days repr_float "law_basic" svc
          = Ok (VInt (15 + clamp ((fy - 1) / 2) 0 10))))
  /\ suggested_days <$> suggest_annual_days repr_float "law_basic"
                          (service_summary 3 (VInt 95) 0) = Ok (VInt 16).
Proof.
  split; [|vm_compute; reflexivity].
  intros svc fy fm rate Hfy Hfm Hrate Hfy0 Hfm0 Hlo Hhi.
  pose proof str_limit_above as Hlim.
  destruct (str_printable repr_float rate (printable_percent rate Hlo Hhi)) as [sr Hsr].
  unfold suggest_annual_days. rewrite Hfy, Hfm, Hrate. simpl String.eqb. cbv iota.
  rewrite lt_int, bind_Ok_l.
  destruct (Z.ltb_spec fy 1) as [E|E]; (split; [|split]); try lia.
  - intros _ Hm. rewrite min_int, bind_Ok_l, !str_int, !bind_Ok_l by lia. reflexivity.
  - intros _ Hlt Hm. rewrite Hlt, bind_Ok_l, Hsr, bind_Ok_l, !str_int, !bind_Ok_l by lia.
    reflexivity.
  - intros _ Hge Hy. rewrite (ge_not_lt _ _ Hge), bind_Ok_l.
    rewrite sub_int, bind_Ok_l, floordiv_int, bind_Ok_l by lia.
    rewrite min_int, bind_Ok_l, max_int, bind_Ok_l, add_int, bind_Ok_l.
    rewrite (str_int _ fy), bind_Ok_l, !str_small, !bind_Ok_l by lia.
    unfold clamp. reflexivity.
Qed.

Lemma law_basic_suggested_days_witness :
  suggested_days <$> suggest_annual_days (fun _ => "") "law_basic"
                       (service_summary 0 (VFloat 90) 5)
  = Ok (VInt 5).
Proof.
  apply (proj1 (proj1 (law_basic_suggested_days (fun _ => ""))
                  (service_summary 0 (VFloat 90) 5) 0 5 (VFloat 90)
                  eq_refl eq_refl eq_refl ltac:(lia) ltac:(lia) eq_refl eq_refl));
    [lia|reflexivity].
Defined.

(** The claim as the specification states it fails: a [full_years] of 4301
    digits, [10 ^ 4300], meets its conditions, and the rule raises
    [ValueError] when the description prints it, where the claim has 25
    days. *)
Lemma law_basic_digit_limit :
  Py.str_limit = 10 ^ 4300
  /\ suggest_annual_days (fun _ => "") "law_basic"
       (service_summary Py.str_limit (VInt 95) 0)
     = Raise ValueError.
Proof. split; vm_compute; reflexivity. Qed.

(** ** The pipeline, step by step *)

Lemma full_pipeline_Ok (repr_float : float -> string) (rid : string) (svc wage : dict)
    (granted used : value) (res : PipelineResult) :
  full_pipeline repr_float rid svc wage granted used = Ok res <->
  exists sug diff unused daily praw dcut pcut,
    suggest_annual_days repr_float rid svc = Ok sug
    /\ Py.sub granted used = Ok diff
    /\ Py.max diff (VInt 0) = Ok unused
    /\ calc_daily_wage wage = Ok daily
    /\ Py.mul unused daily = Ok praw
    /\ drop_to_10won daily = Ok dcut
    /\ drop_to_10won praw = Ok pcut
    /\ res = {| rule := {| rule_id := profile_id (default (make_profile "custom" "커스텀")
                                                     (RULE_PROFILES !! rid));
                           rule_name := profile_name (default (make_profile "custom" "커스텀")
                                                        (RULE_PROFILES !! rid)) |};
                suggestion := sug;
                payout := {| granted_days := granted; used_days := used;
                             unused_days := unused; daily_wage_raw := daily;
                             payout_raw := praw; daily_wage_rounded := dcut;
                             payout_rounded := pcut |} |}.
Proof.
  unfold full_pipeline.
  change (subscript RULE_PROFILES "custom") with (Ok (make_profile "custom" "커스텀")).
  rewrite bind_Ok_l. split.
  - intros H. repeat inv_bind H. injection H as <-.
    repeat eexists; eassumption.
  - intros (sug & diff & unused & daily & praw & dcut & pcut
            & E1 & E2 & E3 & E4 & E5 & E6 & E7 & ->).
    rewrite E1, bind_Ok_l, E2, bind_Ok_l, E3, bind_Ok_l, E4, bind_Ok_l.
    rewrite E5, bind_Ok_l, E6, bind_Ok_l, E7, bind_Ok_l. reflexivity.
Qed.

Lemma custom_profile_lookup (rid : string) :
  rid <> "law_basic" -> rid <> "gw_school_cba" ->
  rid <> "gw_institute_cba" -> rid <> "gw_wage_guideline" ->
  default (make_profile "custom" "커스텀") (RULE_PROFILES !! rid)
  = make_profile "custom" "커스텀".
Proof.
  intros H1 H2 H3 H4. unfold RULE_PROFILES. simpl list_to_map.
  rewrite !lookup_insert_ne by congruence.
  destruct (decide ("custom" = rid)) as [<-|Hne].
  - rewrite lookup_insert_eq. reflexivity.
  - rewrite lookup_insert_ne, lookup_empty by exact Hne. reflexivity.
Qed.

Lemma drop_to_10won_returns (amount : value) : returns (drop_to_10won amount).
Proof. apply try_except_returns. Qed.

(** C7: a rule identifier outside the four rules with a formula (an unknown
    one, or [custom] itself) gets the suggestion [None] whatever the service
    summary is, without an error, and the pipeline reports the rule [custom]
    with that suggestion. *)
Theorem custom_suggests_nothing (repr_float : float -> string) (rid : string) :
  rid <> "law_basic" -> rid <> "gw_school_cba" ->
  rid <> "gw_institute_cba" -> rid <> "gw_wage_guideline" ->
  (forall svc : dict,
      suggest_annual_days repr_float rid svc
      = Ok {| suggested_days := VNone; description := "커스텀 모드: 직접 입력" |})
  /\ (forall (svc wage : dict) (granted used : value) (res : PipelineResult),
         full_pipeline repr_float rid svc wage granted used = Ok res ->
         rule_id (rule res) = "custom" /\ suggested_days (suggestion res) = VNone)
  /\ (forall (svc wage : dict) (granted used unused daily praw : value),
         Py.sub granted used ≫= (fun diff => Py.max diff (VInt 0)) = Ok unused ->
         calc_daily_wage wage = Ok daily ->
         Py.mul unused daily = Ok praw ->
         returns (full_pipeline repr_float rid svc wage granted used)).
Proof.
  intros H1 H2 H3 H4.
  assert (Hs : forall svc : dict,
             suggest_annual_days repr_float rid svc
             = Ok {| suggested_days := VNone; description := "커스텀 모드: 직접 입력" |}).
  { intros svc. unfold suggest_annual_days.
    rewrite (proj2 (String.eqb_neq rid "law_basic") H1).
    rewrite (proj2 (String.eqb_neq rid "gw_school_cba") H2).
    rewrite (proj2 (String.eqb_neq rid "gw_institute_cba") H3).
    rewrite (proj2 (String.eqb_neq rid "gw_wage_guideline") H4).
    reflexivity. }
  split; [exact Hs|]. split.
  - intros svc wage granted used res Hres.
    apply full_pipeline_Ok in Hres.
    destruct Hres as (sug & diff & unused & daily & praw & dcut & pcut
                      & Hsug & _ & _ & _ & _ & _ & _ & ->).
    rewrite custom_profile_lookup by assumption.
    rewrite Hs in Hsug. injection Hsug as <-. split; reflexivity.
  - intros svc wage granted used unused daily praw Hun Hd Hp.
    inv_bind Hun.
    destruct (drop_to_10won_returns daily) as [dcut Hdc].
    destruct (drop_to_10won_returns praw) as [pcut Hpc].
    eexists. apply full_pipeline_Ok.
    exists {| suggested_days := VNone; description := "커스텀 모드: 직접 입력" |}.
    repeat eexists; eauto.
Qed.

Lemma custom_suggests_nothing_witness :
  returns (full_pipeline (fun _ => "") "no_such_rule" ∅ ∅ (VFloat 15) (VFloat 4)).
Proof.
  refine (proj2 (proj2 (custom_suggests_nothing (fun _ => "") "no_such_rule" _ _ _ _))
            ∅ ∅ (VFloat 15) (VFloat 4) (VFloat 11) (VInt 0) (VFloat 0) _ _ _);
    first [discriminate | reflexivity].
Defined.

(** ** The daily wage *)

(** C5: the daily wage is [wage_amount * hours_per_day] for the type [hourly],
    [wage_amount] for [daily], [wage_amount / monthly_work_days] for [monthly]
    when [monthly_work_days > 0] and 0 otherwise, and 0 for every other wage
    type; a monthly wage of 2000000 over 20 work days gives 100000. *)
Theorem calc_daily_wage_cases (wage : dict) :
  let wtype := Py.get wage "wage_type" VNone in
  let amt := Py.get wage "wage_amount" (VInt 0) in
  let hpd := Py.get wage "hours_per_day" (VInt 8) in
  let mwd := Py.get wage "monthly_work_days" (VInt 20) in
  (wtype = VStr "hourly" -> calc_daily_wage wage = Py.mul amt hpd)
  /\ (wtype = VStr "daily" -> calc_daily_wage wage = Ok amt)
  /\ (wtype = VStr "monthly" -> Py.gt mwd (VInt 0) = Ok true ->
      calc_daily_wage wage = Py.truediv amt mwd)
  /\ (wtype = VStr "monthly" -> Py.gt mwd (VInt 0) = Ok false ->
      calc_daily_wage wage = Ok (VInt 0))
  /\ (wtype <> VStr "hourly" -> wtype <> VStr "daily" -> wtype <> VStr "monthly" ->
      calc_daily_wage wage = Ok (VInt 0))
  /\ calc_daily_wage {[ "wage_type" := VStr "monthly"; "wage_amount" := VInt 2000000;
                        "monthly_work_days" := VInt 20 ]} = Ok (VFloat 100000).
Proof.
  intros wtype amt hpd mwd. unfold calc_daily_wage.
  fold wtype amt hpd mwd.
  repeat split.
  - intros ->. reflexivity.
  - intros ->. reflexivity.
  - intros -> ->. reflexivity.
  - intros -> ->. reflexivity.
  - intros N1 N2 N3.
    destruct (Py.eq wtype (VStr "hourly")) eqn:E1; [apply eq_str in E1; contradiction|].
    destruct (Py.eq wtype (VStr "daily")) eqn:E2; [apply eq_str in E2; contradiction|].
    destruct (Py.eq wtype (VStr "monthly")) eqn:E3; [apply eq_str in E3; contradiction|].
    reflexivity.
Qed.

Lemma calc_daily_wage_cases_witness :
  calc_daily_wage {[ "wage_type" := VStr "hourly"; "wage_amount" := VFloat 9860;
                     "hours_per_day" := VInt 8 ]} = Ok (VFloat 78880)
  /\ calc_daily_wage {[ "wage_type" := VStr "daily"; "wage_amount" := VInt 80000 ]}
     = Ok (VInt 80000)
  /\ calc_daily_wage {[ "wage_type" := VStr "monthly"; "wage_amount" := VInt 2000000;
                        "monthly_work_days" := VInt 0 ]} = Ok (VInt 0)
  /\ calc_daily_wage {[ "wage_type" := VStr "weekly"; "wage_amount" := VInt 5 ]}
     = Ok (VInt 0).
Proof.
  split; [|split; [|split]].
  - rewrite (proj1 (calc_daily_wage_cases _)); reflexivity.
  - rewrite (proj1 (proj2 (calc_daily_wage_cases _))); reflexivity.
  - rewrite (proj1 (proj2 (proj2 (proj2 (calc_daily_wage_cases _))))); reflexivity.
  - rewrite (proj1 (proj2 (proj2 (proj2 (proj2 (calc_daily_wage_cases _))))));
      first [reflexivity | discriminate].
Defined.

(** ** Truncation of a float *)

Arguments Py.int : simpl never.

(** [int(f)] of a finite float that is not negative is the greatest integer
    not above it. *)
Lemma Z_of_float_floor (f : float) :
  Py.is_finite f = true -> Py.le (VInt 0) (VFloat f) = Ok true ->
  exists t, Py.Z_of_float f = Ok t /\ 0 <= t
    /\ (forall z, z <= t -> Py.le (VInt z) (VFloat f) = Ok true)
    /\ (forall z, t < z -> Py.lt (VFloat f) (VInt z) = Ok true).
Proof.
  unfold Py.is_finite, Py.Z_of_float, Py.le, Py.lt, Py.compare, Py.SF_compare_Z.
  destruct (Prim2SF f) as [s|s| |s m e]; try discriminate; intros _ H0.
  - exists 0. repeat split; [lia| |]; intros z Hz;
      destruct (Z.compare_spec 0 z); simpl; first [reflexivity | lia].
  - assert (s = false) as ->.
    { destruct s; [|reflexivity]. exfalso.
      assert (Hc : (if 0 <=? e then - Z.pos m * 2 ^ e ?= 0
                    else - Z.pos m ?= 0 * 2 ^ (- e)) = Lt).
      { destruct (Z.leb_spec 0 e); apply Z.compare_lt_iff; [|lia].
        pose proof (Z.pow_pos_nonneg 2 e). nia. }
      cbv zeta in H0. simpl cond_Zopp in H0. rewrite Hc in H0. discriminate. }
    cbv zeta. simpl cond_Zopp. clear H0.
    destruct (Z.leb_spec 0 e) as [He|He].
    + exists (Z.pos m * 2 ^ e). pose proof (Z.pow_pos_nonneg 2 e).
      repeat split; [nia| |]; intros z Hz;
        destruct (Z.compare_spec (Z.pos m * 2 ^ e) z); simpl; first [reflexivity | lia].
    + assert (Hd : 0 < 2 ^ (- e)) by (apply Z.pow_pos_nonneg; lia).
      exists (Z.pos m / 2 ^ (- e)).
      pose proof (Z.mul_div_le (Z.pos m) _ Hd).
      pose proof (Z.mul_succ_div_gt (Z.pos m) _ Hd).
      repeat split; [apply Z.div_pos; lia| |]; intros z Hz;
        destruct (Z.compare_spec (Z.pos m) (z * 2 ^ (- e))); simpl;
        first [reflexivity | nia].
Qed.

(** ** Rounding down to 10 won *)

Definition finite_number (v : value) : Prop :=
  match v with
  | VInt _ => True
  | VFloat f => Py.is_finite f = true
  | _ => False
  end.

(** C3: [drop_to_10won] always gives an integer multiple of 10, and for an
    amount that is not negative the greatest multiple of 10 not above it
    (truncation, not rounding): 11111 gives 11110, 14567 gives 14560 and 0
    gives 0. *)
Theorem drop_to_10won_truncates :
  (forall amount : value, exists k, drop_to_10won amount = Ok (VInt (10 * k)))
  /\ (forall amount : value,
         finite_number amount -> Py.le (VInt 0) amount = Ok true ->
         exists k, drop_to_10won amount = Ok (VInt (10 * k))
           /\ Py.le (VInt (10 * k)) amount = Ok true
           /\ Py.lt amount (VInt (10 * k + 10)) = Ok true)
  /\ drop_to_10won (VInt 11111) = Ok (VInt 11110)
  /\ drop_to_10won (VInt 14567) = Ok (VInt 14560)
  /\ drop_to_10won (VInt 0) = Ok (VInt 0).
Proof.
  assert (Hint : forall amount n, Py.int amount = Ok n ->
                   drop_to_10won amount = Ok (VInt (10 * (n / 10)))).
  { intros amount n Hn. unfold drop_to_10won. rewrite Hn, bind_Ok_l.
    rewrite floordiv_int, bind_Ok_l, mul_int by lia. simpl.
    rewrite Z.mul_comm. reflexivity. }
  split; [|split; [|repeat split]].
  - intros amount. destruct (Py.int amount) as [n|e] eqn:E.
    + exists (n / 10). apply Hint, E.
    + exists 0. unfold drop_to_10won. rewrite E. reflexivity.
  - intros [|n|f|s] Hfin H0; try contradiction.
    + exists (n / 10). rewrite (Hint (VInt n) n eq_refl). split; [reflexivity|].
      pose proof (Z.mul_div_le n 10). pose proof (Z.mul_succ_div_gt n 10).
      unfold Py.le, Py.lt, Py.compare; simpl.
      destruct (Z.compare_spec (10 * (n / 10)) n);
        destruct (Z.compare_spec n (10 * (n / 10) + 10)); simpl;
        first [split; reflexivity | lia].
    + destruct (Z_of_float_floor f Hfin H0) as (t & Ht & Ht0 & Hle & Hlt).
      exists (t / 10). rewrite (Hint (VFloat f) t Ht). split; [reflexivity|].
      pose proof (Z.mul_div_le t 10). pose proof (Z.mul_succ_div_gt t 10).
      split; [apply Hle | apply Hlt]; lia.
Qed.

Lemma drop_to_10won_truncates_witness :
  exists k, drop_to_10won (VFloat 14567.5) = Ok (VInt (10 * k))
    /\ Py.le (VInt (10 * k)) (VFloat 14567.5) = Ok true
    /\ Py.lt (VFloat 14567.5) (VInt (10 * k + 10)) = Ok true.
Proof.
  apply (proj1 (proj2 drop_to_10won_truncates) (VFloat 14567.5)); reflexivity.
Defined.

(** ** The duration parser, block by block *)

Lemma seq_read {S A B} (f : S -> A) (k : A -> proc S B) (l : S) :
  seq (read f) k l = k (f l) l.
Proof. reflexivity. Qed.

Lemma seq_when_try {S B} (c : bool) (b : proc S unit) (k : unit -> proc S B) (l : S) :
  seq (when c (try_pass b)) k l = k tt (if c then fst (b l) else l).
Proof. destruct c; reflexivity. Qed.

(** The local variables after one of the three blocks [if marker in txt:
    try: ... except: pass]; [rest] says whether the block goes on to cut the
    text after the marker. *)
Definition after_block (marker : string) (set : value -> locals -> locals)
    (rest : bool) (l : locals) : locals :=
  if Py.contains marker (txt l) then
    match Py.item (Py.split (txt l) marker) 0 with
    | Ok val =>
        match Py.float (VStr val) with
        | Ok x =>
            if rest then
              match Py.item (Py.split (txt l) marker) 1 with
              | Ok t' => set_txt t' (set (VFloat x) l)
              | Raise _ => set (VFloat x) l
              end
            else set (VFloat x) l
        | Raise _ => l
        end
    | Raise _ => l
    end
  else l.

(** The local variables after the last block, which reads a bare number. *)
Definition after_bare_number (self : NiceRecord) (l : locals) : locals :=
  if Py.eq (days (dur l)) (VInt 0) && Py.eq (hours (dur l)) (VInt 0)
     && Py.eq (minutes (dur l)) (VInt 0)
  then
    match Py.float (VStr (duration_raw self)) with
    | Ok x => set_days (VFloat x) l
    | Raise _ => l
    end
  else l.

Lemma parse_duration_body_eq (self : NiceRecord) (l : locals) :
  parse_duration_body self l
  = (after_bare_number self
       (after_block "분" set_minutes false
          (after_block "시간" set_hours true
             (after_block "일" set_days true l))),
     Ok tt).
Proof.
  unfold parse_duration_body.
  rewrite seq_read, seq_when_try.
  set (l1 := if Py.contains "일" (txt l) then _ else l).
  assert (E1 : l1 = after_block "일" set_days true l).
  { unfold l1, after_block, seq, lift, assign.
    destruct (Py.contains "일" (txt l)); [|reflexivity].
    destruct (Py.item (Py.split (txt l) "일") 0); [|reflexivity].
    destruct (Py.float (VStr a)); [|reflexivity].
    simpl. destruct (Py.item (Py.split (txt l) "일") 1); reflexivity. }
  rewrite E1. clear l1 E1.
  set (l1 := after_block "일" set_days true l).
  rewrite seq_read, seq_when_try.
  set (l2 := if Py.contains "시간" (txt l1) then _ else l1).
  assert (E2 : l2 = after_block "시간" set_hours true l1).
  { unfold l2, after_block, seq, lift, assign.
    destruct (Py.contains "시간" (txt l1)); [|reflexivity].
    destruct (Py.item (Py.split (txt l1) "시간") 0); [|reflexivity].
    destruct (Py.float (VStr a)); [|reflexivity].
    simpl. destruct (Py.item (Py.split (txt l1) "시간") 1); reflexivity. }
  rewrite E2. clear l2 E2.
  set (l2 := after_block "시간" set_hours true l1).
  rewrite seq_read, seq_when_try.
  set (l3 := if Py.contains "분" (txt l2) then _ else l2).
  assert (E3 : l3 = after_block "분" set_minutes false l2).
  { unfold l3, after_block, seq, lift, assign.
    destruct (Py.contains "분" (txt l2)); [|reflexivity].
    destruct (Py.item (Py.split (txt l2) "분") 0); [|reflexivity].
    destruct (Py.float (VStr a)); reflexivity. }
  rewrite E3. clear l3 E3.
  set (l3 := after_block "분" set_minutes false l2).
  rewrite seq_read.
  unfold when, after_bare_number, try_pass, seq, lift, assign, pure.
  destruct (Py.eq (days (dur l3)) (VInt 0) && Py.eq (hours (dur l3)) (VInt 0)
            && Py.eq (minutes (dur l3)) (VInt 0)); [|reflexivity].
  destruct (Py.float (VStr (duration_raw self))); reflexivity.
Qed.

(** What [parse_duration] returns, in one equation. *)
Lemma parse_duration_eq (self : NiceRecord) :
  parse_duration self
  = Ok (if String.eqb (Py.strip (duration_raw self)) "" then no_duration
        else dur (after_bare_number self
                    (after_block "분" set_minutes false
                       (after_block "시간" set_hours true
                          (after_block "일" set_days true
                             {| txt := Py.strip (duration_raw self);
                                dur := no_duration |}))))).
Proof.
  unfold parse_duration.
  destruct (String.eqb (Py.strip (duration_raw self)) ""); [reflexivity|].
  rewrite parse_duration_body_eq. reflexivity.
Qed.

(** An invariant of the parser: a property [Q] of the text still to read and
    a property [P] of the three components, when every piece of a text with
    [Q] has [Q] and every float read from a text with [Q] has [P]. *)
Section ParserInvariant.

Variable Q : string -> Prop.
Variable P : value -> Prop.

Hypothesis Q_strip : forall s, Q s -> Q (Py.strip s).
Hypothesis Q_split :
  forall s sep i piece, Q s -> Py.split s sep !! i = Some piece -> Q piece.
Hypothesis P_zero : P (VInt 0).
Hypothesis P_float : forall s x, Q s -> Py.float (VStr s) = Ok x -> P (VFloat x).

Definition parsed_ok (d : ParsedDuration) : Prop :=
  P (days d) /\ P (hours d) /\ P (minutes d).

Definition locals_ok (l : locals) : Prop := Q (txt l) /\ parsed_ok (dur l).

Lemma item_Ok {A} (l : list A) (i : nat) (a : A) :
  Py.item l i = Ok a -> l !! i = Some a.
Proof. unfold Py.item. destruct (l !! i); congruence. Qed.

Lemma after_block_ok (marker : string) (set : value -> locals -> locals)
    (rest : bool) (l : locals) :
  (forall v l', P v -> locals_ok l' -> locals_ok (set v l')) ->
  locals_ok l -> locals_ok (after_block marker set rest l).
Proof.
  intros Hset Hl. unfold after_block.
  destruct (Py.contains marker (txt l)); [|exact Hl].
  destruct (Py.item (Py.split (txt l) marker) 0) as [val|] eqn:E0; [|exact Hl].
  destruct (Py.float (VStr val)) as [x|] eqn:Ex; [|exact Hl].
  assert (Hx : P (VFloat x)).
  { apply (P_float val); [|exact Ex].
    apply (Q_split (txt l) marker 0%nat); [apply Hl | apply item_Ok, E0]. }
  pose proof (Hset _ _ Hx Hl) as Hl1.
  destruct rest; [|exact Hl1].
  destruct (Py.item (Py.split (txt l) marker) 1) as [t'|] eqn:E1; [|exact Hl1].
  split; [|apply Hl1]. simpl.
  apply (Q_split (txt l) marker 1%nat); [apply Hl | apply item_Ok, E1].
Qed.

Lemma set_days_ok (v : value) (l : locals) :
  P v -> locals_ok l -> locals_ok (set_days v l).
Proof. intros Hv (Ht & Hd & Hh & Hm). repeat split; assumption. Qed.

Lemma set_hours_ok (v : value) (l : locals) :
  P v -> locals_ok l -> locals_ok (set_hours v l).
Proof. intros Hv (Ht & Hd & Hh & Hm). repeat split; assumption. Qed.

Lemma set_minutes_ok (v : value) (l : locals) :
  P v -> locals_ok l -> locals_ok (set_minutes v l).
Proof. intros Hv (Ht & Hd & Hh & Hm). repeat split; assumption. Qed.

Lemma parse_duration_ok (self : NiceRecord) :
  Q (duration_raw self) ->
  exists d, parse_duration self = Ok d /\ parsed_ok d.
Proof.
  intros Hraw. rewrite parse_duration_eq. eexists; split; [reflexivity|].
  destruct (String.eqb (Py.strip (duration_raw self)) "").
  { repeat split; exact P_zero. }
  set (l0 := {| txt := Py.strip (duration_raw self); dur := no_duration |}).
  assert (H0 : locals_ok l0).
  { split; [apply Q_strip, Hraw|]. repeat split; exact P_zero. }
  pose proof (after_block_ok "일" set_days true l0 set_days_ok H0) as H1.
  pose proof (after_block_ok "시간" set_hours true _ set_hours_ok H1) as H2.
  pose proof (after_block_ok "분" set_minutes false _ set_minutes_ok H2) as H3.
  unfold after_bare_number.
  match goal with |- context [if ?c then _ else _] => destruct c end; [|apply H3].
  destruct (Py.float (VStr (duration_raw self))) as [x|] eqn:Ex; [|apply H3].
  apply set_days_ok; [|exact H3]. apply (P_float (duration_raw self)); assumption.
Qed.

End ParserInvariant.

(** Each component of a parsed duration is the integer 0 or a float. *)
Definition zero_or_float (v : value) : Prop :=
  v = VInt 0 \/ exists x, v = VFloat x.

Lemma parse_duration_returns (self : NiceRecord) :
  exists d, parse_duration self = Ok d
    /\ zero_or_float (days d) /\ zero_or_float (hours d) /\ zero_or_float (minutes d).
Proof.
  apply (parse_duration_ok (fun _ => True) zero_or_float); auto.
  - left. reflexivity.
  - intros s x _ _. right. eexists. reflexivity.
Qed.

(** ** The decimal hours of a record *)

(** A component of a parsed duration as a float: the integer 0 it starts as
    counts as [0.0]. *)
Definition as_float (v : value) : float :=
  match v with
  | VFloat x => x
  | _ => 0%float
  end.

Lemma float_of_Z_0 : Py.float_of_Z 0 = Ok 0%float.
Proof. reflexivity. Qed.

Lemma mul_component (v : value) (h : float) :
  zero_or_float v -> Py.mul v (VFloat h) = Ok (VFloat (as_float v * h)).
Proof. intros [->|[x ->]]; reflexivity. Qed.

Lemma add_component (t : float) (v : value) :
  zero_or_float v -> Py.add (VFloat t) v = Ok (VFloat (t + as_float v)).
Proof. intros [->|[x ->]]; reflexivity. Qed.

Lemma div_component (v : value) :
  zero_or_float v -> Py.truediv v (VFloat 60) = Ok (VFloat (as_float v / 60)).
Proof. intros [->|[x ->]]; reflexivity. Qed.

(** C4: the decimal hours of a record are [days * hours_per_day + hours +
    minutes / 60] over the parsed triple, in float arithmetic; [1일5시간] at
    8 hours a day is 13 hours and the bare number [2.5] is 20 hours. *)
Theorem to_total_hours_formula :
  (forall self : NiceRecord,
      exists d, parse_duration self = Ok d
        /\ to_total_hours self
           = Ok (VFloat (as_float (days d) * hours_per_day self
                         + as_float (hours d) + as_float (minutes d) / 60)))
  /\ to_total_hours {| leave_type := "연가"; duration_raw := "1일5시간";
                       hours_per_day := 8 |} = Ok (VFloat 13)
  /\ to_total_hours {| leave_type := "연가"; duration_raw := "2.5";
                       hours_per_day := 8 |} = Ok (VFloat 20).
Proof.
  split; [|split; vm_compute; reflexivity].
  intros self.
  destruct (parse_duration_returns self) as (d & Hd & Hdays & Hhours & Hminutes).
  exists d. split; [exact Hd|].
  unfold to_total_hours. rewrite Hd, bind_Ok_l.
  rewrite (mul_component _ _ Hdays), bind_Ok_l.
  rewrite (add_component _ _ Hhours), bind_Ok_l.
  rewrite (div_component _ Hminutes), bind_Ok_l.
  reflexivity.
Qed.

(** ** Signs of rounded results *)

(** [x] is a NaN or carries the sign [s]. *)
Definition SF_sign_is (s : bool) (x : spec_float) : Prop :=
  match x with
  | S754_zero s' | S754_infinity s' | S754_finite s' _ _ => s' = s
  | S754_nan => True
  end.

(** [x] is a NaN, a zero, or positive. *)
Definition SF_nonneg (x : spec_float) : Prop :=
  match x with
  | S754_finite true _ _ | S754_infinity true => False
  | _ => True
  end.

(** [x] is a NaN, a zero, or negative. *)
Definition SF_nonpos (x : spec_float) : Prop :=
  match x with
  | S754_finite false _ _ | S754_infinity false => False
  | _ => True
  end.

Lemma sign_false_nonneg (x : spec_float) : SF_sign_is false x -> SF_nonneg x.
Proof. destruct x as [[]|[]| |[] m e]; simpl; intros; first [exact I | congruence]. Qed.

Lemma sign_true_nonpos (x : spec_float) : SF_sign_is true x -> SF_nonpos x.
Proof. destruct x as [[]|[]| |[] m e]; simpl; intros; first [exact I | congruence]. Qed.

Lemma binary_round_aux_sign (sx : bool) (mx ex : Z) (lx : location) :
  SF_sign_is sx (binary_round_aux prec emax sx mx ex lx).
Proof.
  unfold binary_round_aux.
  destruct (shr_fexp prec emax mx ex lx) as [mrs' e'].
  destruct (shr_fexp prec emax _ e' loc_Exact) as [mrs'' e''].
  destruct (shr_m mrs''); simpl; auto.
  destruct (e'' <=? emax - prec); reflexivity.
Qed.

Lemma binary_round_sign (sx : bool) (mx : positive) (ex : Z) :
  SF_sign_is sx (binary_round prec emax sx mx ex).
Proof.
  unfold binary_round. destruct (shl_align mx ex _) as [mz ez].
  apply binary_round_aux_sign.
Qed.

Lemma binary_normalize_nonneg (m e : Z) (szero : bool) :
  0 <= m -> SF_nonneg (binary_normalize prec emax m e szero).
Proof.
  intros Hm. destruct m as [|p|p]; simpl; [exact I| |lia].
  apply sign_false_nonneg, binary_round_sign.
Qed.

Lemma binary_normalize_nonpos (m e : Z) (szero : bool) :
  m <= 0 -> SF_nonpos (binary_normalize prec emax m e szero).
Proof.
  intros Hm. destruct m as [|p|p]; simpl; [exact I|lia|].
  apply sign_true_nonpos, binary_round_sign.
Qed.

Lemma SF_quot_nonneg (n d : Z) : SF_nonneg (Py.SF_quot false n d).
Proof.
  unfold Py.SF_quot. destruct n as [|pn|pn]; try exact I.
  destruct d as [|pd|pd]; try exact I.
  unfold SFdiv. destruct (SFdiv_core_binary _ _ _ _ _ _) as [[mz ez] lz].
  apply sign_false_nonneg. apply (binary_round_aux_sign false).
Qed.

(** The float a specification value stands for keeps its sign. *)
Lemma SF2Prim_nonneg (x : spec_float) :
  SF_nonneg x -> SF_nonneg (Prim2SF (SF2Prim x)).
Proof.
  destruct x as [[]|[]| |[] m e]; simpl; try contradiction; intros _;
    try (vm_compute; exact I).
  rewrite Z_ldexp_spec, of_uint63_spec. unfold SFldexp.
  match goal with
  | |- context [binary_normalize prec emax ?z 0 false] =>
      assert (Hm : 0 <= z) by apply Uint63.to_Z_bounded;
      pose proof (binary_normalize_nonneg z 0 false Hm) as Hn
  end.
  destruct (binary_normalize prec emax _ 0 false) as [s|s| |s m' e'];
    try exact Hn.
  destruct s; [contradiction|].
  apply sign_false_nonneg, binary_round_sign.
Qed.

Lemma is_nan_spec (f : float) : Prim2SF f = S754_nan -> Py.is_nan f = true.
Proof.
  intros H. unfold Py.is_nan, PrimFloat.is_nan. rewrite FloatAxioms.eqb_spec, H. reflexivity.
Qed.

(** A float is not negative: it is a NaN or compares [>= 0]. *)
Definition not_negative (v : value) : Prop :=
  match v with
  | VInt z => 0 <= z
  | VFloat f => Py.is_nan f = true \/ Py.ge (VFloat f) (VInt 0) = Ok true
  | _ => False
  end.

Lemma ge_zero_of_nonneg (f : float) :
  SF_nonneg (Prim2SF f) -> not_negative (VFloat f).
Proof.
  intros H. simpl. destruct (Prim2SF f) as [s|s| |s m e] eqn:E.
  - right. unfold Py.ge, Py.compare. rewrite E. reflexivity.
  - right. unfold Py.ge, Py.compare. rewrite E. destruct s; [contradiction|reflexivity].
  - left. apply is_nan_spec, E.
  - right. unfold Py.ge, Py.compare. rewrite E. destruct s; [contradiction|].
    simpl. destruct (0 <=? e); [|reflexivity].
    pose proof (Z.pow_nonneg 2 e).
    destruct (Z.compare_spec (Z.pos m * 2 ^ e) 0); simpl; first [reflexivity | nia].
Qed.

(** ** The characters of the texts the parser reads *)

Fixpoint occurs (c : ascii) (s : string) : bool :=
  match s with
  | "" => false
  | String a r => Ascii.eqb a c || occurs c r
  end.

Lemma occurs_app (c : ascii) (s t : string) :
  occurs c (s ++ t) = occurs c s || occurs c t.
Proof.
  induction s as [|a s IH]; simpl; [reflexivity|].
  rewrite IH, orb_assoc. reflexivity.
Qed.

Lemma space_prefix_occurs (c : ascii) (sep : bool) (s r : string) :
  Py.space_prefix sep s = Some r -> occurs c r = true -> occurs c s = true.
Proof.
  unfold Py.space_prefix.
  destruct s as [|c1 [|c2 [|c3 r3]]]; simpl;
    repeat match goal with
      | |- context [if ?b then _ else _] => destruct b
      end;
    intros E H; try discriminate E; injection E as <-; simpl in *;
    rewrite ?H, ?orb_true_r; congruence.
Qed.

Lemma lstrip_fuel_occurs (c : ascii) (sep : bool) (n : nat) (s : string) :
  occurs c (Py.lstrip_fuel sep n s) = true -> occurs c s = true.
Proof.
  revert s. induction n as [|n IH]; intros s; simpl; [auto|].
  destruct (Py.space_prefix sep s) as [r|] eqn:E; [|auto].
  intros H. apply (space_prefix_occurs c sep s r E), IH, H.
Qed.

Lemma rstrip_occurs (c : ascii) (sep : bool) (s : string) :
  occurs c (Py.rstrip sep s) = true -> occurs c s = true.
Proof.
  induction s as [|a s IH]; simpl; [auto|].
  destruct (String.eqb (Py.lstrip sep (String a s)) ""); simpl; [discriminate|].
  destruct (Ascii.eqb a c); simpl; auto.
Qed.

Lemma strip_occurs (c : ascii) (s : string) :
  occurs c (Py.strip s) = true -> occurs c s = true.
Proof.
  unfold Py.strip, Py.lstrip. intros H.
  apply (lstrip_fuel_occurs c true (String.length s)), (rstrip_occurs c true), H.
Qed.

Lemma split_from_occurs (c : ascii) (sep : string) (s piece p : string) (skip : nat) :
  In p (Py.split_from sep skip piece s) -> occurs c p = true ->
  occurs c piece = true \/ occurs c s = true.
Proof.
  revert skip piece. induction s as [|a s IH]; intros skip piece; simpl.
  - intros [<-|[]] H. left. exact H.
  - destruct skip as [|k].
    + match goal with |- context [if ?b then _ else _] => destruct b end.
      * simpl. intros [<-|Hin] H; [left; exact H|].
        destruct (IH _ _ Hin H) as [H'|H']; [discriminate|].
        right. rewrite H'. apply orb_true_r.
      * intros Hin H. destruct (IH _ _ Hin H) as [H'|H'].
        -- rewrite occurs_app in H'. simpl in H'. rewrite orb_false_r in H'.
           apply orb_prop in H'. destruct H' as [H'|H']; [left; exact H'|].
           right. rewrite H'. reflexivity.
        -- right. rewrite H'. apply orb_true_r.
    + intros Hin H. destruct (IH _ _ Hin H) as [H'|H']; [left; exact H'|].
      right. rewrite H'. apply orb_true_r.
Qed.

Lemma split_occurs (c : ascii) (s sep piece : string) (i : nat) :
  occurs c s = false -> Py.split s sep !! i = Some piece -> occurs c piece = false.
Proof.
  intros Hs Hi. destruct (occurs c piece) eqn:E; [|reflexivity].
  apply list_elem_of_lookup_2, list_elem_of_In in Hi.
  destruct (split_from_occurs c sep s "" piece 0 Hi E); simpl in *; congruence.
Qed.

Lemma remove_underscores_occurs (c : ascii) (s u : string) (prev : option ascii) :
  Py.remove_underscores prev s = Some u -> occurs c u = true -> occurs c s = true.
Proof.
  revert prev u. induction s as [|a s IH]; intros prev u; simpl.
  - destruct prev as [p|]; [destruct (Ascii.eqb_spec p "_")|]; try discriminate;
      try (destruct p as [[] [] [] [] [] [] [] []]; try discriminate);
      intros [= <-]; simpl; discriminate.
  - assert (Hkeep : String a <$> Py.remove_underscores (Some a) s = Some u ->
                    occurs c u = true -> Ascii.eqb a c || occurs c s = true).
    { destruct (Py.remove_underscores (Some a) s) as [u'|] eqn:E; [|discriminate].
      intros [= <-] H. simpl in H. apply orb_prop in H. destruct H as [H|H].
      - rewrite H. reflexivity.
      - rewrite (IH _ _ E H). apply orb_true_r. }
    destruct (Ascii.eqb a "_").
    + destruct prev as [p|]; [|discriminate].
      destruct (Py.is_digit p); [|discriminate].
      intros E H. rewrite (IH _ _ E H). apply orb_true_r.
    + destruct prev as [p|]; [|exact Hkeep].
      destruct p as [[] [] [] [] [] [] [] []]; try exact Hkeep.
      destruct (Py.is_digit a); [exact Hkeep|discriminate].
Qed.

Lemma parse_sign_occurs (u r : string) :
  Py.parse_sign u = (true, r) -> occurs "-" u = true.
Proof.
  unfold Py.parse_sign. destruct u as [|a u]; [discriminate|].
  destruct a as [[] [] [] [] [] [] [] []]; try discriminate. reflexivity.
Qed.

Lemma take_digits_nonneg (s : string) (acc : Z) (cnt : nat) :
  0 <= acc -> 0 <= fst (fst (Py.take_digits s acc cnt)).
Proof.
  revert acc cnt. induction s as [|a s IH]; intros acc cnt Hacc; simpl; [exact Hacc|].
  destruct (Py.is_digit a) eqn:E; [|exact Hacc].
  apply IH. unfold Py.is_digit in E. unfold Py.digit_val.
  apply andb_prop in E. destruct E as [E _]. apply Z.leb_le in E. lia.
Qed.

Lemma parse_decimal_nonneg (s : string) (m e : Z) :
  Py.parse_decimal s = Some (m, e) -> 0 <= m.
Proof.
  unfold Py.parse_decimal.
  pose proof (take_digits_nonneg s 0 0 (Z.le_refl 0)) as Hi.
  destruct (Py.take_digits s 0 0) as [[i ni] r]. simpl in Hi.
  assert (Hm : forall m' nf r',
             match r with
             | String "." r1 => Py.take_digits r1 i 0
             | _ => (i, 0%nat, r)
             end = (m', nf, r') -> 0 <= m').
  { intros m' nf r' E. destruct r as [|a r1].
    - injection E as <- _ _. exact Hi.
    - destruct (Ascii.eqb_spec a ".") as [->|Hne].
      + pose proof (take_digits_nonneg r1 i 0 Hi) as H. rewrite E in H. exact H.
      + destruct a as [[] [] [] [] [] [] [] []];
          first [injection E as <- _ _; exact Hi | contradiction Hne; reflexivity]. }
  destruct (match r with String "." r1 => _ | _ => _ end) as [[m' nf] r'] eqn:E.
  specialize (Hm _ _ _ eq_refl).
  destruct (ni + nf =? 0)%nat; [discriminate|].
  destruct (Py.parse_exponent r'); [|discriminate].
  intros [= <- _]. exact Hm.
Qed.

(** ** Rounding a mantissa that is not negative never gives a NaN *)

Lemma shr_1_nonneg (mrs : shr_record) : 0 <= shr_m mrs -> 0 <= shr_m (shr_1 mrs).
Proof. destruct mrs as [[|[p|p|]|p] r s]; simpl; lia. Qed.

Lemma iter_shr_1_nonneg (p : positive) (mrs : shr_record) :
  0 <= shr_m mrs -> 0 <= shr_m (SpecFloat.iter_pos shr_1 p mrs).
Proof.
  revert mrs. induction p as [p IH|p IH|]; intros mrs H; simpl.
  - apply IH, IH, shr_1_nonneg, H.
  - apply IH, IH, H.
  - apply shr_1_nonneg, H.
Qed.

Lemma shr_fexp_nonneg (m e : Z) (l : location) :
  0 <= m -> 0 <= shr_m (fst (shr_fexp prec emax m e l)).
Proof.
  intros Hm. unfold shr_fexp, shr.
  assert (H0 : 0 <= shr_m (shr_record_of_loc m l)) by (destruct l as [|[]]; exact Hm).
  destruct (fexp prec emax (Zdigits2 m + e) - e); simpl; try exact H0.
  apply iter_shr_1_nonneg, H0.
Qed.

Lemma round_nearest_even_nonneg (mx : Z) (lx : location) :
  0 <= mx -> 0 <= round_nearest_even mx lx.
Proof.
  intros H. destruct lx as [|[]]; simpl; try lia. destruct (Z.even mx); lia.
Qed.

(** [x] is a zero, positive or plus infinity. *)
Definition SF_ge0 (x : spec_float) : Prop :=
  match x with
  | S754_zero _ | S754_finite false _ _ | S754_infinity false => True
  | _ => False
  end.

Lemma binary_round_aux_ge0 (mx ex : Z) (lx : location) :
  0 <= mx -> SF_ge0 (binary_round_aux prec emax false mx ex lx).
Proof.
  intros Hm. unfold binary_round_aux.
  pose proof (shr_fexp_nonneg mx ex lx Hm) as H1.
  destruct (shr_fexp prec emax mx ex lx) as [mrs' e']. simpl in H1.
  pose proof (shr_fexp_nonneg _ e' loc_Exact
                (round_nearest_even_nonneg _ (loc_of_shr_record mrs') H1)) as H2.
  destruct (shr_fexp prec emax _ e' loc_Exact) as [mrs'' e'']. simpl in H2.
  destruct (shr_m mrs''); simpl; [exact I| |lia].
  destruct (e'' <=? emax - prec); exact I.
Qed.

Lemma binary_round_ge0 (mx : positive) (ex : Z) :
  SF_ge0 (binary_round prec emax false mx ex).
Proof.
  unfold binary_round. destruct (shl_align mx ex _) as [mz ez].
  apply binary_round_aux_ge0. lia.
Qed.

Lemma binary_normalize_ge0 (m e : Z) (szero : bool) :
  0 <= m -> SF_ge0 (binary_normalize prec emax m e szero).
Proof.
  intros Hm. destruct m as [|p|p]; simpl; [exact I| |lia]. apply binary_round_ge0.
Qed.

Lemma SF_quot_ge0 (n d : Z) : SF_ge0 (Py.SF_quot false n d).
Proof.
  unfold Py.SF_quot. destruct n as [|pn|pn]; try exact I.
  destruct d as [|pd|pd]; try exact I.
  unfold SFdiv, SFdiv_core_binary.
  match goal with
  | |- context [Z.div_eucl ?a ?b] =>
      assert (Ha : 0 <= a);
      [| pose proof (Z.div_pos a b Ha eq_refl) as Hq;
         unfold Z.div in Hq; destruct (Z.div_eucl a b) as [q r] ]
  end.
  - match goal with |- 0 <= match ?s with _ => _ end => destruct s eqn:E end;
      try lia.
    rewrite Z.shiftl_mul_pow2 by lia. pose proof (Z.pow_nonneg 2 (Z.pos p)). nia.
  - apply (binary_round_aux_ge0 q). exact Hq.
Qed.

Lemma SF2Prim_ge0 (x : spec_float) : SF_ge0 x -> SF_ge0 (Prim2SF (SF2Prim x)).
Proof.
  destruct x as [[]|[]| |[] m e]; simpl; try contradiction; intros _;
    try (vm_compute; exact I).
  rewrite Z_ldexp_spec, of_uint63_spec. unfold SFldexp.
  match goal with
  | |- context [binary_normalize prec emax ?z 0 false] =>
      assert (Hm : 0 <= z) by apply Uint63.to_Z_bounded;
      pose proof (binary_normalize_ge0 z 0 false Hm) as Hn
  end.
  destruct (binary_normalize prec emax _ 0 false) as [s|s| |s m' e'];
    try exact Hn.
  destruct s; [contradiction|]. apply binary_round_ge0.
Qed.

Lemma ge_zero_of_ge0 (f : float) :
  SF_ge0 (Prim2SF f) -> Py.ge (VFloat f) (VInt 0) = Ok true.
Proof.
  intros H. unfold Py.ge, Py.compare. destruct (Prim2SF f) as [s|s| |s m e].
  - reflexivity.
  - destruct s; [contradiction|reflexivity].
  - contradiction.
  - destruct s; [contradiction|]. simpl. destruct (0 <=? e); [|reflexivity].
    pose proof (Z.pow_nonneg 2 e).
    destruct (Z.compare_spec (Z.pos m * 2 ^ e) 0); simpl; first [reflexivity | nia].
Qed.

Lemma float_of_decimal_ge0 (m e : Z) :
  0 <= m -> SF_ge0 (Prim2SF (Py.float_of_decimal false m e)).
Proof.
  intros Hm. unfold Py.float_of_decimal. destruct (Z.leb_spec 0 e).
  - apply SF2Prim_ge0, binary_normalize_ge0. simpl.
    pose proof (Z.pow_nonneg 10 e). nia.
  - apply SF2Prim_ge0, SF_quot_ge0.
Qed.

(** ** The sign of the floats the parser reads *)

Lemma parse_sign_suffix (c : ascii) (u r : string) (neg : bool) :
  Py.parse_sign u = (neg, r) -> occurs c r = true -> occurs c u = true.
Proof.
  unfold Py.parse_sign. destruct u as [|a u]; [intros [= _ <-]; auto|].
  destruct a as [[] [] [] [] [] [] [] []]; intros [= _ <-] H; simpl in *;
    rewrite ?H, ?orb_true_r; reflexivity.
Qed.

Lemma lower_n (c : ascii) : Py.lower c = "n"%char -> c = "n"%char \/ c = "N"%char.
Proof.
  destruct c as [[] [] [] [] [] [] [] []]; vm_compute; intros H;
    first [discriminate H | left; reflexivity | right; reflexivity].
Qed.

Lemma lower_nan_occurs (r : string) :
  Py.lower_str r = "nan" -> occurs "n" r = true \/ occurs "N" r = true.
Proof.
  destruct r as [|a r]; [discriminate|]. simpl. intros [= Ha _].
  destruct (lower_n a Ha) as [-> | ->]; [left|right]; reflexivity.
Qed.

Lemma float_text_occurs (c : ascii) (s u r : string) (neg : bool) :
  Py.remove_underscores None (Py.rstrip false (Py.lstrip false s)) = Some u ->
  Py.parse_sign u = (neg, r) ->
  occurs c r = true -> occurs c s = true.
Proof.
  intros Eu Es H.
  apply (lstrip_fuel_occurs c false (String.length s)), (rstrip_occurs c false).
  apply (remove_underscores_occurs c _ u None Eu).
  apply (parse_sign_suffix c u r neg Es), H.
Qed.

(** A float read from a text without a minus sign is a NaN, from a text that
    spells [nan], or compares [>= 0]. *)
Lemma float_of_string_sign (s : string) (x : float) :
  occurs "-" s = false -> Py.float_of_string s = Ok x ->
  (Py.is_nan x = true /\ (occurs "n" s = true \/ occurs "N" s = true))
  \/ Py.ge (VFloat x) (VInt 0) = Ok true.
Proof.
  intros Hs. unfold Py.float_of_string.
  destruct (Py.remove_underscores None _) as [u|] eqn:Eu; [|discriminate].
  destruct (Py.parse_sign u) as [neg r] eqn:Es.
  assert (neg = false) as ->.
  { destruct neg; [|reflexivity].
    pose proof (parse_sign_occurs u r Es) as H.
    apply (remove_underscores_occurs "-" _ u None Eu), (rstrip_occurs "-" false),
      (lstrip_fuel_occurs "-" false) in H.
    congruence. }
  destruct (String.eqb (Py.lower_str r) "inf" || String.eqb (Py.lower_str r) "infinity").
  { intros [= <-]. right. reflexivity. }
  destruct (String.eqb_spec (Py.lower_str r) "nan") as [En|_].
  { intros [= <-]. left. split; [reflexivity|].
    destruct (lower_nan_occurs r En) as [H|H]; [left|right];
      exact (float_text_occurs _ s u r false Eu Es H). }
  destruct (Py.parse_decimal r) as [[m e]|] eqn:Ed; [|discriminate].
  intros [= <-]. right.
  apply ge_zero_of_ge0, float_of_decimal_ge0, (parse_decimal_nonneg r m e Ed).
Qed.

(** ** The components of a parsed duration *)

(** The component [v] is the default 0, a float [>= 0], or a NaN. *)
Definition zero_or_more_or_nan (v : value) : Prop :=
  v = VInt 0
  \/ exists x, v = VFloat x
       /\ (Py.is_nan x = true \/ Py.ge (VFloat x) (VInt 0) = Ok true).

(** C9 as the code has it: for an input without a minus sign, the three
    components of the parsed duration are each the default 0, a float that is
    not negative, or a NaN; and when the input has no letter [n] or [N]
    either (so that it cannot spell [nan]), all three compare [>= 0]. *)
Theorem parse_duration_not_negative (self : NiceRecord) :
  occurs "-" (duration_raw self) = false ->
  exists d, parse_duration self = Ok d
    /\ (zero_or_more_or_nan (days d) /\ zero_or_more_or_nan (hours d)
        /\ zero_or_more_or_nan (minutes d))
    /\ (occurs "n" (duration_raw self) = false ->
        occurs "N" (duration_raw self) = false ->
        Py.ge (days d) (VInt 0) = Ok true /\ Py.ge (hours d) (VInt 0) = Ok true
        /\ Py.ge (minutes d) (VInt 0) = Ok true).
Proof.
  intros Hraw.
  destruct (parse_duration_ok (fun s => occurs "-" s = false) zero_or_more_or_nan)
    with (self := self) as (d & Hd & H1); try assumption.
  - intros s Hs. destruct (occurs "-" (Py.strip s)) eqn:E; [|reflexivity].
    apply strip_occurs in E. congruence.
  - intros s sep i piece. apply split_occurs.
  - left. reflexivity.
  - intros s x Hs Hx. right. exists x. split; [reflexivity|].
    destruct (float_of_string_sign s x Hs Hx) as [[H _]|H]; auto.
  - exists d. split; [exact Hd|]. split; [exact H1|]. intros Hn HN.
    destruct (parse_duration_ok
                (fun s => occurs "-" s = false /\ occurs "n" s = false
                          /\ occurs "N" s = false)
                (fun v => Py.ge v (VInt 0) = Ok true))
      with (self := self) as (d' & Hd' & H2); try auto.
    + intros s (Ha & Hb & Hc). repeat split.
      * destruct (occurs "-" (Py.strip s)) eqn:E; [|reflexivity].
        apply strip_occurs in E. congruence.
      * destruct (occurs "n" (Py.strip s)) eqn:E; [|reflexivity].
        apply strip_occurs in E. congruence.
      * destruct (occurs "N" (Py.strip s)) eqn:E; [|reflexivity].
        apply strip_occurs in E. congruence.
    + intros s sep i piece (Ha & Hb & Hc) Hi.
      repeat split; eapply split_occurs; eassumption.
    + intros s x (Ha & Hb & Hc) Hx.
      destruct (float_of_string_sign s x Ha Hx) as [[_ [H|H]]|H]; congruence.
    + rewrite Hd in Hd'. injection Hd' as <-. exact H2.
Qed.

Lemma parse_duration_not_negative_witness :
  exists d, parse_duration {| leave_type := "병가"; duration_raw := "3시간 30분";
                              hours_per_day := 8 |} = Ok d
    /\ Py.ge (days d) (VInt 0) = Ok true /\ Py.ge (hours d) (VInt 0) = Ok true
    /\ Py.ge (minutes d) (VInt 0) = Ok true.
Proof.
  destruct (parse_duration_not_negative
              {| leave_type := "병가"; duration_raw := "3시간 30분"; hours_per_day := 8 |}
              eq_refl) as (d & Hd & _ & H).
  exists d. split; [exact Hd|]. apply H; reflexivity.
Defined.

(** The claim as the specification states it fails: the days of [-1일] are
    [-1.0], which is negative. *)
Lemma parse_duration_negative_days :
  ~ (forall (self : NiceRecord) (d : ParsedDuration),
        parse_duration self = Ok d ->
        Py.ge (days d) (VInt 0) = Ok true /\ Py.ge (hours d) (VInt 0) = Ok true
        /\ Py.ge (minutes d) (VInt 0) = Ok true).
Proof.
  intros H.
  destruct (H {| leave_type := "병가"; duration_raw := "-1일"; hours_per_day := 8 |}
              {| days := VFloat (-1); hours := VInt 0; minutes := VInt 0 |})
    as (Hdays & _).
  - vm_compute. reflexivity.
  - vm_compute in Hdays. discriminate.
Qed.

(** ** The sign of a difference of floats *)

Lemma digits2_pos_bounds (m : positive) :
  2 ^ (Z.pos (digits2_pos m) - 1) <= Z.pos m < 2 ^ Z.pos (digits2_pos m).
Proof.
  induction m as [m IH|m IH|]; simpl digits2_pos;
    rewrite ?Pos2Z.inj_succ; [| |simpl; lia].
  - replace (Z.succ (Z.pos (digits2_pos m)) - 1) with (Z.succ (Z.pos (digits2_pos m) - 1))
      by lia.
    rewrite !Z.pow_succ_r by lia. lia.
  - replace (Z.succ (Z.pos (digits2_pos m)) - 1) with (Z.succ (Z.pos (digits2_pos m) - 1))
      by lia.
    rewrite !Z.pow_succ_r by lia. lia.
Qed.

Lemma iter_xO_value (m d : positive) :
  Z.pos (Pos.iter xO m d) = Z.pos m * 2 ^ Z.pos d.
Proof.
  induction d as [|d IH] using Pos.peano_ind.
  - simpl. lia.
  - rewrite Pos.iter_succ, Pos2Z.inj_succ, Z.pow_succ_r by lia.
    rewrite Pos2Z.inj_xO, IH. lia.
Qed.

Lemma shl_align_value (m : positive) (e e' : Z) :
  e' <= e -> Z.pos (fst (shl_align m e e')) = Z.pos m * 2 ^ (e - e').
Proof.
  intros He. unfold shl_align. destruct (e' - e) as [|d|d] eqn:E; simpl.
  - replace (e - e') with 0 by lia. lia.
  - lia.
  - rewrite iter_xO_value. f_equal. f_equal. lia.
Qed.

(** What a valid finite binary64 float says of its mantissa and exponent. *)
Lemma valid_binary_finite (s : bool) (m : positive) (e : Z) :
  valid_binary (S754_finite s m e) = true ->
  Z.pos m < 2 ^ 53 /\ -1074 <= e /\ (-1074 < e -> 2 ^ 52 <= Z.pos m).
Proof.
  simpl. unfold bounded, canonical_mantissa, fexp, SpecFloat.emin, prec, emax.
  intros H. apply andb_prop in H. destruct H as [H _]. apply Z.eqb_eq in H.
  pose proof (digits2_pos_bounds m) as [Hlo Hhi].
  set (d := Z.pos (digits2_pos m)) in *.
  assert (Hd : d <= 53) by lia.
  repeat split.
  - apply (Z.lt_le_trans _ _ _ Hhi). apply Z.pow_le_mono_r; lia.
  - lia.
  - intros He. assert (d = 53) as Hd53 by lia. rewrite Hd53 in Hlo. exact Hlo.
Qed.

(** The mantissas of two valid floats, brought to the smaller exponent,
    compare as the floats do. *)
Lemma aligned_le (m1 m2 : positive) (e1 e2 : Z) :
  valid_binary (S754_finite false m1 e1) = true ->
  valid_binary (S754_finite false m2 e2) = true ->
  match e1 ?= e2 with
  | Lt => True
  | Eq => Pos.compare_cont Eq m1 m2 <> Gt
  | Gt => False
  end ->
  Z.pos (fst (shl_align m1 e1 (Z.min e1 e2)))
  <= Z.pos (fst (shl_align m2 e2 (Z.min e1 e2))).
Proof.
  intros V1 V2 H.
  apply valid_binary_finite in V1. apply valid_binary_finite in V2.
  destruct V1 as (H1 & H1e & _). destruct V2 as (_ & _ & H2).
  rewrite !shl_align_value by lia.
  revert H. destruct (Z.compare_spec e1 e2) as [E|He|He]; intros H; [| |contradiction].
  - subst e2. rewrite Z.min_id, Z.sub_diag, Z.pow_0_r.
    change (Pos.compare_cont Eq m1 m2) with (m1 ?= m2)%positive in H.
    assert (Hle : (m1 <= m2)%positive) by exact H. lia.
  - rewrite Z.min_l, Z.sub_diag, Z.pow_0_r by lia.
    assert (2 ^ 1 <= 2 ^ (e2 - e1)) by (apply Z.pow_le_mono_r; lia).
    specialize (H2 ltac:(lia)). change (2 ^ 1) with 2 in *.
    change (2 ^ 53) with (2 * 2 ^ 52) in H1. nia.
Qed.

(** When [y >= x], the difference [x - y] is a NaN, a zero or negative. *)
Lemma SFsub_nonpos (x y : spec_float) :
  valid_binary x = true -> valid_binary y = true ->
  SFcompare y x = Some Gt \/ SFcompare y x = Some Eq ->
  SF_nonpos (SFsub prec emax x y).
Proof.
  intros Vx Vy Hc.
  destruct x as [sx|sx| |sx mx ex], y as [sy|sy| |sy my ey]; simpl in Hc |- *;
    try (destruct Hc; discriminate);
    try exact I;
    try (destruct sx, sy; simpl; first [exact I | destruct Hc; discriminate]);
    try (destruct sx; simpl; first [exact I | destruct Hc; discriminate]);
    try (destruct sy; simpl; first [exact I | destruct Hc; discriminate]).
  apply binary_normalize_nonpos.
  destruct sx, sy; simpl cond_Zopp.
  - (* both negative: |y| <= |x| *)
    assert (H : Z.pos (fst (shl_align my ey (Z.min ey ex)))
                <= Z.pos (fst (shl_align mx ex (Z.min ey ex)))).
    { apply aligned_le; try assumption.
      destruct (ey ?= ex); [|exact I|destruct Hc; discriminate].
      intros E. rewrite E in Hc. destruct Hc; discriminate. }
    rewrite Z.min_comm in H. lia.
  - lia.
  - destruct Hc; discriminate.
  - (* both positive: x <= y *)
    assert (H : Z.pos (fst (shl_align mx ex (Z.min ex ey)))
                <= Z.pos (fst (shl_align my ey (Z.min ex ey)))).
    { apply aligned_le; try assumption.
      rewrite (Z.compare_antisym ey ex).
      destruct (ey ?= ex) eqn:E; simpl; [| destruct Hc; discriminate | exact I].
      intros E'. change (Pos.compare_cont Eq mx my) with (mx ?= my)%positive in E'.
      change (Pos.compare_cont Eq my mx) with (my ?= mx)%positive in Hc.
      rewrite (Pos.compare_antisym mx my), E' in Hc. destruct Hc; discriminate. }
    lia.
Qed.

(** ** Rounding to a binary64 float, step by step *)

(** The number of binary digits, from bounds. *)
Lemma Zdigits2_unique (m k : Z) :
  2 ^ (k - 1) <= m < 2 ^ k -> 0 < k -> Zdigits2 m = k.
Proof.
  intros [Hlo Hhi] Hk.
  assert (Hm : 0 < m) by (pose proof (Z.pow_pos_nonneg 2 (k - 1)); lia).
  destruct m as [|p|p]; try lia. simpl.
  pose proof (digits2_pos_bounds p) as [Hlo' Hhi'].
  set (d := Z.pos (digits2_pos p)) in *.
  assert (Hd : 0 < d) by (unfold d; lia).
  destruct (Z.lt_trichotomy d k) as [H|[H|H]]; [|exact H|].
  - assert (2 ^ d <= 2 ^ (k - 1)) by (apply Z.pow_le_mono_r; lia). lia.
  - assert (2 ^ k <= 2 ^ (d - 1)) by (apply Z.pow_le_mono_r; lia). lia.
Qed.

Lemma Zdigits2_bounds (m : Z) :
  0 < m -> 2 ^ (Zdigits2 m - 1) <= m < 2 ^ Zdigits2 m /\ 0 < Zdigits2 m.
Proof.
  destruct m as [|p|p]; try lia. intros _. simpl.
  split; [apply digits2_pos_bounds|lia].
Qed.

Lemma mod_mul_zero (a b c : Z) :
  0 < b -> 0 < c -> (a mod (b * c) = 0 <-> a mod b = 0 /\ (a / b) mod c = 0).
Proof.
  intros Hb Hc.
  pose proof (Z.div_mod a b ltac:(lia)) as Ha.
  pose proof (Z.mod_pos_bound a b Hb) as Hr.
  pose proof (Z.div_mod (a / b) c ltac:(lia)) as Hq.
  pose proof (Z.mod_pos_bound (a / b) c Hc) as Hr'.
  assert (H : b * ((a / b) mod c) + a mod b = a mod (b * c)).
  { apply (Z.mod_unique a (b * c) (a / b / c)); [left; nia|].
    rewrite Ha at 1. rewrite Hq at 1. ring. }
  rewrite <- H. nia.
Qed.

(** Part of the mantissa was lost in the shifts. *)
Definition inexact (mrs : shr_record) : bool := shr_r mrs || shr_s mrs.

Lemma shr_1_spec (mrs : shr_record) :
  0 <= shr_m mrs ->
  shr_m (shr_1 mrs) = shr_m mrs / 2
  /\ inexact (shr_1 mrs) = Z.odd (shr_m mrs) || inexact mrs.
Proof.
  destruct mrs as [m r s]. unfold inexact. simpl. intros Hm.
  destruct m as [|[p|p|]|p]; try lia; simpl; split; try reflexivity.
  - rewrite Pos2Z.inj_xI. apply (Z.div_unique _ _ _ 1); lia.
  - rewrite Pos2Z.inj_xO. apply (Z.div_unique _ _ _ 0); lia.
Qed.

(** [k] shifts: the mantissa is divided by [2 ^ k], and something was lost
    if and only if the remainder is not 0 or something was lost before. *)
Definition shifted (k : Z) (mrs mrs' : shr_record) : Prop :=
  shr_m mrs' = shr_m mrs / 2 ^ k
  /\ (inexact mrs' = false <-> shr_m mrs mod 2 ^ k = 0 /\ inexact mrs = false).

Lemma shifted_0 (mrs : shr_record) : shifted 0 mrs mrs.
Proof.
  split; [rewrite Z.div_1_r; reflexivity|]. rewrite Z.mod_1_r. tauto.
Qed.

Lemma shifted_1 (mrs : shr_record) : 0 <= shr_m mrs -> shifted 1 mrs (shr_1 mrs).
Proof.
  intros Hm. destruct (shr_1_spec mrs Hm) as [H1 H2]. split; [exact H1|].
  rewrite H2. change (2 ^ 1) with 2. rewrite Zmod_odd.
  destruct (Z.odd (shr_m mrs)); simpl; intuition (discriminate || lia).
Qed.

Lemma shifted_nonneg (k : Z) (mrs mrs' : shr_record) :
  0 <= k -> 0 <= shr_m mrs -> shifted k mrs mrs' -> 0 <= shr_m mrs'.
Proof.
  intros Hk Hm [H _]. rewrite H. apply Z.div_pos; [exact Hm|].
  apply Z.pow_pos_nonneg; lia.
Qed.

Lemma shifted_trans (a b : Z) (x y z : shr_record) :
  0 <= a -> 0 <= b -> shifted a x y -> shifted b y z -> shifted (a + b) x z.
Proof.
  intros Ha Hb [H1 H2] [H3 H4].
  pose proof (Z.pow_pos_nonneg 2 a ltac:(lia) Ha) as Hpa.
  pose proof (Z.pow_pos_nonneg 2 b ltac:(lia) Hb) as Hpb.
  unfold shifted. rewrite Z.pow_add_r by assumption. split.
  - rewrite H3, H1. apply Z.div_div; lia.
  - rewrite H4, H2, H1. rewrite (mod_mul_zero (shr_m x) (2 ^ a) (2 ^ b)) by assumption.
    tauto.
Qed.

Lemma iter_shr_1_shifted (p : positive) (mrs : shr_record) :
  0 <= shr_m mrs -> shifted (Z.pos p) mrs (SpecFloat.iter_pos shr_1 p mrs).
Proof.
  assert (Hp : forall q : positive, 0 <= Z.pos q) by (intros q; lia).
  revert mrs. induction p as [p IH|p IH|]; intros mrs Hm; simpl SpecFloat.iter_pos.
  - pose proof (shifted_1 mrs Hm) as H1.
    pose proof (shifted_nonneg 1 _ _ Z.le_0_1 Hm H1) as Hm1.
    pose proof (IH _ Hm1) as H2.
    pose proof (shifted_nonneg _ _ _ (Hp p) Hm1 H2) as Hm2.
    pose proof (IH _ Hm2) as H3.
    replace (Z.pos p~1) with (1 + Z.pos p + Z.pos p) by lia.
    eapply (shifted_trans (1 + Z.pos p) (Z.pos p)); [lia|lia| |exact H3].
    eapply (shifted_trans 1 (Z.pos p)); [lia|lia|exact H1|exact H2].
  - pose proof (IH _ Hm) as H2.
    pose proof (shifted_nonneg _ _ _ (Hp p) Hm H2) as Hm2.
    pose proof (IH _ Hm2) as H3.
    replace (Z.pos p~0) with (Z.pos p + Z.pos p) by lia.
    eapply (shifted_trans (Z.pos p) (Z.pos p)); [lia|lia|exact H2|exact H3].
  - apply shifted_1, Hm.
Qed.

Lemma shr_shifted (mrs : shr_record) (e n : Z) :
  0 <= shr_m mrs -> 0 <= n ->
  exists mrs', shr mrs e n = (mrs', e + n) /\ shifted n mrs mrs'.
Proof.
  intros Hm Hn. destruct n as [|p|p]; try lia; simpl.
  - exists mrs. rewrite Z.add_0_r. split; [reflexivity|apply shifted_0].
  - eexists. split; [reflexivity|]. apply iter_shr_1_shifted, Hm.
Qed.

Lemma inexact_of_loc (m : Z) (l : location) :
  shr_m (shr_record_of_loc m l) = m
  /\ (inexact (shr_record_of_loc m l) = false <-> l = loc_Exact).
Proof.
  destruct l as [|[]]; simpl; unfold inexact; simpl; split; try reflexivity;
    split; intros; congruence.
Qed.

Lemma round_nearest_even_spec (mrs : shr_record) :
  let m2 := round_nearest_even (shr_m mrs) (loc_of_shr_record mrs) in
  shr_m mrs <= m2 <= shr_m mrs + 1 /\ (inexact mrs = false -> m2 = shr_m mrs).
Proof.
  destruct mrs as [m [] []]; unfold inexact; simpl;
    try destruct (Z.even m); split; try lia; intros; congruence.
Qed.

(** A mantissa of at least 53 digits in the normal range: the rounding keeps
    the 53 leading digits, adds at most one unit in the last place, and adds
    none when the digits dropped are zeros. *)
Lemma binary_round_aux_normal (sx : bool) (mx ex : Z) (lx : location) :
  let n := Zdigits2 mx - 53 in
  0 < mx -> 0 <= n -> -1074 <= ex + n ->
  exists (mf : positive) (ef m2 : Z),
    mx / 2 ^ n <= m2 <= mx / 2 ^ n + 1
    /\ (lx = loc_Exact -> mx mod 2 ^ n = 0 -> m2 = mx / 2 ^ n)
    /\ ((ef = ex + n /\ Z.pos mf = m2)
        \/ (ef = ex + n + 1 /\ m2 = 2 ^ 53 /\ Z.pos mf = 2 ^ 52))
    /\ 2 ^ 52 <= Z.pos mf < 2 ^ 53
    /\ binary_round_aux prec emax sx mx ex lx
       = if ef <=? 971 then S754_finite sx mf ef else S754_infinity sx.
Proof.
  intros n Hmx Hn He.
  destruct (Zdigits2_bounds mx Hmx) as [[Hlo Hhi] Hd].
  unfold binary_round_aux, shr_fexp.
  replace (fexp prec emax (Zdigits2 mx + ex) - ex) with n
    by (unfold fexp, SpecFloat.emin, prec, emax, n; lia).
  destruct (inexact_of_loc mx lx) as [Hrm Hrl].
  assert (Hrm0 : 0 <= shr_m (shr_record_of_loc mx lx)) by (destruct lx as [|[]]; simpl; lia).
  destruct (shr_shifted (shr_record_of_loc mx lx) ex n Hrm0 Hn)
    as (mrs' & -> & [Hm1 Hi1]).
  rewrite Hrm in Hm1. rewrite Hrm, Hrl in Hi1.
  destruct (round_nearest_even_spec mrs') as [Hm2 Hex].
  set (m2 := round_nearest_even (shr_m mrs') (loc_of_shr_record mrs')) in *.
  clearbody m2.
  rewrite Hm1 in Hm2, Hex.
  pose proof (Z.pow_pos_nonneg 2 n ltac:(lia) Hn) as Hpn.
  assert (Hb1 : 2 ^ 52 <= mx / 2 ^ n < 2 ^ 53).
  { replace (Zdigits2 mx) with (53 + n) in Hlo, Hhi by (unfold n; lia).
    replace (53 + n - 1) with (n + 52) in Hlo by lia.
    rewrite Z.pow_add_r in Hlo, Hhi by lia. split.
    - apply Z.div_le_lower_bound; lia.
    - apply Z.div_lt_upper_bound; lia. }
  assert (Hexact : lx = loc_Exact -> mx mod 2 ^ n = 0 -> m2 = mx / 2 ^ n).
  { intros Hl Hmod. apply Hex, Hi1. split; assumption. }
  destruct (Z.eq_dec m2 (2 ^ 53)) as [Htop|Htop].
  - (* the carry reaches a 54th digit *)
    assert (Hd2 : Zdigits2 m2 = 54) by (apply Zdigits2_unique; [rewrite Htop; simpl; lia|lia]).
    rewrite Hd2.
    replace (fexp prec emax (54 + (ex + n)) - (ex + n)) with 1
      by (unfold fexp, SpecFloat.emin, prec, emax; lia).
    rewrite Htop. simpl shr. simpl shr_m.
    exists 4503599627370496%positive, (ex + n + 1), m2.
    repeat split; try lia; try assumption.
  - assert (Hd2 : Zdigits2 m2 = 53) by (apply Zdigits2_unique; simpl; lia).
    rewrite Hd2.
    replace (fexp prec emax (53 + (ex + n)) - (ex + n)) with 0
      by (unfold fexp, SpecFloat.emin, prec, emax; lia).
    simpl shr. simpl shr_m.
    destruct m2 as [|mf|mf] eqn:Em; try lia.
    exists mf, (ex + n), (Z.pos mf).
    repeat split; try lia; try assumption.
Qed.

Lemma valid_of_bounds (s : bool) (m : positive) (e : Z) :
  2 ^ 52 <= Z.pos m < 2 ^ 53 -> -1074 <= e <= 971 ->
  valid_binary (S754_finite s m e) = true.
Proof.
  intros Hm He. simpl. unfold bounded, canonical_mantissa.
  assert (Hd : Z.pos (digits2_pos m) = 53)
    by (apply (Zdigits2_unique (Z.pos m) 53); [exact Hm|lia]).
  rewrite Hd. unfold fexp, SpecFloat.emin, prec, emax.
  apply andb_true_intro. split; [apply Z.eqb_eq|apply Z.leb_le]; lia.
Qed.

(** The value of a finite float in units of [2 ^ -1074], an integer. *)
Definition SF_scaled (x : spec_float) : Z :=
  match x with
  | S754_finite s m e => cond_Zopp s (Z.pos m) * 2 ^ (e + 1074)
  | _ => 0
  end.

Definition SF_finite (x : spec_float) : Prop :=
  match x with
  | S754_zero _ | S754_finite _ _ _ => True
  | _ => False
  end.

(** [float(n)] for [n > 0], with the sign [s]: the float has the value [V],
    an integer next to [n] among the multiples of [2 ^ k], where [k] is the
    number of digits of [n] beyond 53. *)
Lemma binary_round_int (s : bool) (p : positive) :
  let k := Z.max 0 (Z.pos (digits2_pos p) - 53) in
  exists (mf : positive) (ef V : Z),
    binary_round prec emax s p 0
    = (if ef <=? 971 then S754_finite s mf ef else S754_infinity s)
    /\ 2 ^ 52 <= Z.pos mf < 2 ^ 53
    /\ Z.pos (digits2_pos p) - 53 <= ef <= Z.pos (digits2_pos p) - 52
    /\ Z.pos mf * 2 ^ (ef + 1074) = V * 2 ^ 1074
    /\ 2 ^ k * (Z.pos p / 2 ^ k) <= V <= 2 ^ k * (Z.pos p / 2 ^ k + 1)
    /\ (Z.pos p mod 2 ^ k = 0 -> V = Z.pos p).
Proof.
  intros k. pose proof (digits2_pos_bounds p) as [Hlo Hhi].
  set (d := Z.pos (digits2_pos p)) in *.
  assert (Hd : 0 < d) by (unfold d; lia).
  unfold binary_round. fold d.
  replace (fexp prec emax (d + 0)) with (d - 53)
    by (unfold fexp, SpecFloat.emin, prec, emax; lia).
  destruct (Z.le_gt_cases 53 d) as [Hbig|Hsmall].
  - (* at least 53 digits: nothing to align *)
    assert (Hal : shl_align p 0 (d - 53) = (p, 0)).
    { unfold shl_align. destruct (d - 53 - 0) eqn:E; try reflexivity. lia. }
    rewrite Hal.
    destruct (binary_round_aux_normal s (Z.pos p) 0 loc_Exact) as
      (mf & ef & m2 & Hm2 & Hex & Hef & Hmf & Heq);
      [lia|simpl Zdigits2; fold d; lia|simpl Zdigits2; fold d; lia|].
    simpl Zdigits2 in *. fold d in Hm2, Hex, Hef.
    replace (d - 53) with k in * by (unfold k; lia).
    assert (Hk : 0 <= k) by (unfold k; lia).
    pose proof (Z.pow_pos_nonneg 2 k ltac:(lia) Hk) as Hpk.
    exists mf, ef, (m2 * 2 ^ k). rewrite Heq.
    repeat split; try lia.
    + destruct Hef as [[-> ->]|(-> & -> & ->)].
      * replace (0 + k + 1074) with (k + 1074) by lia.
        rewrite Z.pow_add_r by lia. ring.
      * replace (0 + k + 1 + 1074) with (1 + (k + 1074)) by lia.
        rewrite !Z.pow_add_r by lia. change (2 ^ 53) with (2 ^ 52 * 2 ^ 1). ring.
    + nia.
    + nia.
    + intros Hmod. rewrite (Hex eq_refl Hmod).
      pose proof (Z.div_mod (Z.pos p) (2 ^ k) ltac:(lia)). lia.
  - (* fewer than 53 digits: the mantissa is shifted left, and kept *)
    pose proof (shl_align_value p 0 (d - 53) ltac:(lia)) as Hv.
    destruct (shl_align p 0 (d - 53)) as [mz ez] eqn:Hal. simpl fst in Hv.
    assert (Hez : ez = d - 53).
    { unfold shl_align in Hal. destruct (d - 53 - 0) eqn:E; try lia.
      injection Hal as _ <-. reflexivity. }
    replace (0 - (d - 53)) with (53 - d) in Hv by lia.
    assert (Hk : k = 0) by (unfold k; lia).
    assert (Hmz : 2 ^ 52 <= Z.pos mz < 2 ^ 53).
    { assert (H52 : 2 ^ 52 = 2 ^ (d - 1) * 2 ^ (53 - d))
        by (rewrite <- Z.pow_add_r by lia; f_equal; lia).
      assert (H53 : 2 ^ 53 = 2 ^ d * 2 ^ (53 - d))
        by (rewrite <- Z.pow_add_r by lia; f_equal; lia).
      assert (Hp : 0 < 2 ^ (53 - d)) by (apply Z.pow_pos_nonneg; lia).
      rewrite Hv, H52, H53. nia. }
    assert (Hdz : Zdigits2 (Z.pos mz) = 53) by (apply Zdigits2_unique; [exact Hmz|lia]).
    destruct (binary_round_aux_normal s (Z.pos mz) ez loc_Exact) as
      (mf & ef & m2 & Hm2 & Hex & Hef & Hmf & Heq); [lia|lia|lia|].
    rewrite Hdz in Hm2, Hex, Hef. change (53 - 53) with 0 in *.
    rewrite Z.pow_0_r, Z.div_1_r, Z.mod_1_r in *.
    specialize (Hex eq_refl eq_refl). subst m2.
    destruct Hef as [[Hef Hmf']|(_ & Htop & _)]; [|lia].
    exists mf, ef, (Z.pos p). rewrite Heq, Hk, Z.pow_0_r, Z.div_1_r.
    repeat split; try lia.
    rewrite Hmf', Hv, Hef, Hez.
    replace 1074 with ((53 - d) + (d - 53 + 0 + 1074)) at 2 by lia.
    rewrite (Z.pow_add_r 2 (53 - d)) by lia. ring.
Qed.

(** No float lies strictly between a positive integer and the value of its
    rounding: [u] is the float with the mantissa [mu] and the exponent [eu]. *)
Lemma nearest_between (p d V mu eu : Z) :
  let k := Z.max 0 (d - 53) in
  2 ^ (d - 1) <= p < 2 ^ d -> 0 < d ->
  2 ^ k * (p / 2 ^ k) <= V <= 2 ^ k * (p / 2 ^ k + 1) ->
  (p mod 2 ^ k = 0 -> V = p) ->
  0 < mu < 2 ^ 53 -> -1074 <= eu ->
  (p * 2 ^ 1074 <= mu * 2 ^ (eu + 1074) -> V * 2 ^ 1074 <= mu * 2 ^ (eu + 1074))
  /\ (mu * 2 ^ (eu + 1074) <= p * 2 ^ 1074 -> mu * 2 ^ (eu + 1074) <= V * 2 ^ 1074).
Proof.
  intros k [Hlo Hhi] Hd HV Hex Hmu Heu.
  assert (HP : 0 < 2 ^ 1074) by (apply Z.pow_pos_nonneg; lia).
  destruct (Z.eq_dec k 0) as [Hk0|Hk0].
  { rewrite Hk0, Z.pow_0_r, Z.mod_1_r in Hex. rewrite (Hex eq_refl). tauto. }
  assert (Hk : 0 < k) by (unfold k in *; lia).
  assert (Hdk : d - 1 = 52 + k) by (unfold k in *; lia).
  rewrite Hdk in Hlo. clear Hhi Hdk.
  assert (HT : 0 < 2 ^ k) by (apply Z.pow_pos_nonneg; lia).
  pose proof (Z.div_mod p (2 ^ k) ltac:(lia)) as Hp.
  pose proof (Z.mod_pos_bound p (2 ^ k) HT) as Hr.
  assert (Hq : 2 ^ 52 <= p / 2 ^ k).
  { apply Z.div_le_lower_bound; [exact HT|]. rewrite Z.pow_add_r in Hlo by lia. lia. }
  destruct (Z.le_gt_cases k eu) as [Hbig|Hsmall].
  - (* [u] is a multiple of [2 ^ k] *)
    assert (HU : mu * 2 ^ (eu + 1074) = mu * 2 ^ (eu - k) * 2 ^ k * 2 ^ 1074).
    { replace (eu + 1074) with ((eu - k) + k + 1074) at 1 by lia.
      rewrite !Z.pow_add_r by lia. ring. }
    rewrite HU.
    assert (HK : 0 < 2 ^ (eu - k)) by (apply Z.pow_pos_nonneg; lia).
    set (K := mu * 2 ^ (eu - k)) in *.
    set (T := 2 ^ k) in *. set (P := 2 ^ 1074) in *.
    set (q := p / T) in *. set (r := p mod T) in *.
    clearbody K T P q r. split; intros H.
    + assert (H1 : p <= K * T) by nia.
      destruct (Z.eq_dec r 0) as [Hr0|Hr0].
      * rewrite (Hex Hr0). nia.
      * assert (q + 1 <= K).
        { destruct (Z.le_gt_cases (q + 1) K) as [Hle|Hgt]; [exact Hle|].
          assert (K * T <= q * T) by (apply Z.mul_le_mono_nonneg_r; lia). lia. }
        assert ((q + 1) * T <= K * T) by (apply Z.mul_le_mono_nonneg_r; lia).
        assert (V * P <= K * T * P) by (apply Z.mul_le_mono_nonneg_r; lia).
        lia.
    + assert (H1 : K * T <= p) by nia.
      assert (K <= q).
      { destruct (Z.le_gt_cases K q) as [Hle|Hgt]; [exact Hle|].
        assert ((q + 1) * T <= K * T) by (apply Z.mul_le_mono_nonneg_r; lia). lia. }
      assert (K * T <= q * T) by (apply Z.mul_le_mono_nonneg_r; lia).
      assert (K * T * P <= V * P) by (apply Z.mul_le_mono_nonneg_r; lia).
      lia.
  - (* [u] is below [2 ^ (52 + k)] *)
    assert (HU : mu * 2 ^ (eu + 1074) < 2 ^ (52 + k) * 2 ^ 1074).
    { assert (H1 : 2 ^ (eu + 1074) <= 2 ^ (k - 1 + 1074))
        by (apply Z.pow_le_mono_r; lia).
      assert (H2 : 2 ^ (52 + k) * 2 ^ 1074 = 2 ^ 53 * 2 ^ (k - 1 + 1074)).
      { rewrite <- !Z.pow_add_r by lia. f_equal. lia. }
      rewrite H2.
      assert (H3 : 0 < 2 ^ (eu + 1074)) by (apply Z.pow_pos_nonneg; lia).
      assert (H4 : mu * 2 ^ (eu + 1074) < 2 ^ 53 * 2 ^ (eu + 1074))
        by (apply Z.mul_lt_mono_pos_r; lia).
      assert (H5 : 2 ^ 53 * 2 ^ (eu + 1074) <= 2 ^ 53 * 2 ^ (k - 1 + 1074))
        by (apply Z.mul_le_mono_nonneg_l; lia).
      lia. }
    rewrite (Z.pow_add_r 2 52 k) in Hlo, HU by lia.
    set (U := mu * 2 ^ (eu + 1074)) in *.
    set (T := 2 ^ k) in *. set (P := 2 ^ 1074) in *.
    set (q := p / T) in *. set (r := p mod T) in *. set (B := 2 ^ 52) in *.
    clearbody U T P q r B.
    assert (HB : B * T <= T * q) by (rewrite (Z.mul_comm B T); apply Z.mul_le_mono_nonneg_l; lia).
    split; intros H.
    + assert (B * T * P <= p * P) by (apply Z.mul_le_mono_nonneg_r; lia). lia.
    + assert (B * T * P <= V * P) by (apply Z.mul_le_mono_nonneg_r; lia). lia.
Qed.

Lemma Zdigits2_le (p : positive) (k : Z) :
  Z.pos p < 2 ^ k -> 0 <= k -> Z.pos (digits2_pos p) <= k.
Proof.
  intros Hp Hk. pose proof (digits2_pos_bounds p) as [Hlo _].
  destruct (Z.le_gt_cases (Z.pos (digits2_pos p)) k) as [H|H]; [exact H|].
  assert (2 ^ k <= 2 ^ (Z.pos (digits2_pos p) - 1)) by (apply Z.pow_le_mono_r; lia).
  lia.
Qed.

(** [float(z)] for [z] other than 0. *)
Lemma float_of_Z_shape (z : Z) :
  z <> 0 ->
  let k := Z.max 0 (Zdigits2 (Z.abs z) - 53) in
  exists (mf : positive) (ef V : Z),
    Py.float_of_Z z
    = (if ef <=? 971 then Ok (SF2Prim (S754_finite (z <? 0) mf ef))
       else Raise OverflowError)
    /\ (ef <= 971 ->
        Prim2SF (SF2Prim (S754_finite (z <? 0) mf ef)) = S754_finite (z <? 0) mf ef)
    /\ Zdigits2 (Z.abs z) - 53 <= ef <= Zdigits2 (Z.abs z) - 52
    /\ Z.pos mf * 2 ^ (ef + 1074) = V * 2 ^ 1074
    /\ 2 ^ k * (Z.abs z / 2 ^ k) <= V <= 2 ^ k * (Z.abs z / 2 ^ k + 1)
    /\ (Z.abs z mod 2 ^ k = 0 -> V = Z.abs z).
Proof.
  intros Hz k.
  assert (H : exists p, Z.abs z = Z.pos p
                        /\ binary_normalize prec emax z 0 false
                           = binary_round prec emax (z <? 0) p 0).
  { destruct z as [|p|p]; [contradiction| |]; exists p; split; reflexivity. }
  destruct H as (p & Hp & Hn). unfold k. rewrite Hp. simpl Zdigits2.
  destruct (binary_round_int (z <? 0) p) as (mf & ef & V & Hr & Hmf & Hef & HV & Hs & Hex).
  exists mf, ef, V. unfold Py.float_of_Z. rewrite Hn, Hr.
  pose proof (Pos2Z.is_pos (digits2_pos p)).
  repeat split; try assumption; try lia.
  - destruct (ef <=? 971); reflexivity.
  - intros He. apply FloatAxioms.Prim2SF_SF2Prim, valid_of_bounds; [exact Hmf|lia].
Qed.

Lemma float_of_Z_returns (z : Z) : Z.abs z < 2 ^ 1023 -> returns (Py.float_of_Z z).
Proof.
  intros Hz. destruct (Z.eq_dec z 0) as [->|Hne]; [eexists; reflexivity|].
  destruct (float_of_Z_shape z Hne) as (mf & ef & V & Hf & _ & Hef & _).
  assert (Hd : Zdigits2 (Z.abs z) <= 1023).
  { destruct (Z.abs z) as [|p|p] eqn:E; try lia. simpl. apply Zdigits2_le; lia. }
  rewrite Hf. replace (ef <=? 971) with true by (symmetry; apply Z.leb_le; lia).
  eexists; reflexivity.
Qed.

(** [float(z)] has the sign of [z]. *)
Lemma float_of_Z_sign (z : Z) (f : float) :
  z <> 0 -> Py.float_of_Z z = Ok f ->
  exists mf ef, Prim2SF f = S754_finite (z <? 0) mf ef.
Proof.
  intros Hz Hf.
  destruct (float_of_Z_shape z Hz) as (mf & ef & V & Hf' & Hp & _).
  rewrite Hf' in Hf. destruct (ef <=? 971) eqn:He; [|discriminate].
  injection Hf as <-. exists mf, ef. apply Hp, Z.leb_le, He.
Qed.

(** No finite float lies strictly between an integer and its conversion. *)
Lemma float_of_Z_between (z : Z) (f : float) (u : spec_float) :
  Py.float_of_Z z = Ok f -> valid_binary u = true -> SF_finite u ->
  SF_finite (Prim2SF f) /\ valid_binary (Prim2SF f) = true
  /\ (z * 2 ^ 1074 <= SF_scaled u -> SF_scaled (Prim2SF f) <= SF_scaled u)
  /\ (SF_scaled u <= z * 2 ^ 1074 -> SF_scaled u <= SF_scaled (Prim2SF f)).
Proof.
  intros Hf Vu Fu.
  split; [|split; [apply FloatAxioms.Prim2SF_valid|]].
  { destruct (Z.eq_dec z 0) as [->|Hz].
    - assert (f = 0%float) as -> by (vm_compute in Hf; congruence). exact I.
    - destruct (float_of_Z_sign z f Hz Hf) as (mf & ef & ->). exact I. }
  destruct (Z.eq_dec z 0) as [->|Hz].
  { assert (f = 0%float) as -> by (vm_compute in Hf; congruence).
    change (Prim2SF 0) with (S754_zero false). simpl. lia. }
  destruct (float_of_Z_shape z Hz) as (mf & ef & V & Hf' & Hp & Hef & HV & Hs & Hex).
  rewrite Hf' in Hf. destruct (ef <=? 971) eqn:He; [|discriminate].
  assert (Ef : SF2Prim (S754_finite (z <? 0) mf ef) = f) by congruence.
  rewrite <- Ef, (Hp ltac:(apply Z.leb_le, He)). clear Hp Hf' Ef Hf.
  assert (HP : 0 < 2 ^ 1074) by (apply Z.pow_pos_nonneg; lia).
  assert (Hd : 0 < Z.abs z) by lia.
  destruct (Zdigits2_bounds (Z.abs z) Hd) as [Hb Hdp].
  assert (HV0 : 0 < V * 2 ^ 1074).
  { rewrite <- HV. apply Z.mul_pos_pos; [lia|]. apply Z.pow_pos_nonneg; lia. }
  assert (Hval : SF_scaled (S754_finite (z <? 0) mf ef)
                 = if z <? 0 then - (V * 2 ^ 1074) else V * 2 ^ 1074).
  { simpl. destruct (z <? 0); simpl; [|exact HV].
    change (Z.neg mf) with (- Z.pos mf). rewrite Z.mul_opp_l, HV. reflexivity. }
  rewrite Hval. clear Hval.
  destruct u as [su| | |su mu eu]; try contradiction.
  - simpl SF_scaled. set (P := 2 ^ 1074) in *. clearbody P.
    destruct (Z.ltb_spec z 0); split; intros; nia.
  - destruct (valid_binary_finite su mu eu Vu) as (Hmu & Heu & _).
    destruct (nearest_between (Z.abs z) (Zdigits2 (Z.abs z)) V (Z.pos mu) eu
                Hb Hdp Hs Hex ltac:(lia) Heu) as [Ha Hc].
    assert (HU : 0 < Z.pos mu * 2 ^ (eu + 1074))
      by (apply Z.mul_pos_pos; [lia|apply Z.pow_pos_nonneg; lia]).
    simpl SF_scaled.
    assert (Hneg : Z.neg mu * 2 ^ (eu + 1074) = - (Z.pos mu * 2 ^ (eu + 1074)))
      by (change (Z.neg mu) with (- Z.pos mu); ring).
    destruct su; simpl cond_Zopp; rewrite ?Hneg;
      set (U := Z.pos mu * 2 ^ (eu + 1074)) in *; set (P := 2 ^ 1074) in *;
      clearbody U P; destruct (Z.ltb_spec z 0) as [Hlt|Hge].
    + rewrite Z.abs_neq in Ha, Hc by lia. split; intros; nia.
    + split; intros; nia.
    + split; intros; nia.
    + rewrite Z.abs_eq in Ha, Hc by lia. split; intros; nia.
Qed.

Lemma mul_compare_r (n m p : Z) : 0 < p -> (n * p ?= m * p) = (n ?= m).
Proof.
  intros Hp. destruct (Z.compare_spec n m) as [->|H|H].
  - apply Z.compare_refl.
  - apply Z.compare_lt_iff. apply Z.mul_lt_mono_pos_r; assumption.
  - apply Z.compare_gt_iff. apply Z.mul_lt_mono_pos_r; assumption.
Qed.

Lemma scaled_lt (m1 m2 : positive) (e1 e2 : Z) :
  valid_binary (S754_finite false m1 e1) = true ->
  valid_binary (S754_finite false m2 e2) = true ->
  e1 < e2 -> Z.pos m1 * 2 ^ (e1 + 1074) < Z.pos m2 * 2 ^ (e2 + 1074).
Proof.
  intros V1 V2 He.
  destruct (valid_binary_finite _ _ _ V1) as (H1 & He1 & _).
  destruct (valid_binary_finite _ _ _ V2) as (_ & _ & H2).
  specialize (H2 ltac:(lia)).
  assert (HQ : 0 < 2 ^ (e1 + 1074)) by (apply Z.pow_pos_nonneg; lia).
  assert (HE : 2 ^ (e2 + 1074) = 2 ^ (e2 - e1) * 2 ^ (e1 + 1074))
    by (rewrite <- Z.pow_add_r by lia; f_equal; lia).
  assert (HD : 2 ^ 1 <= 2 ^ (e2 - e1)) by (apply Z.pow_le_mono_r; lia).
  rewrite HE. change (2 ^ 1) with 2 in HD. change (2 ^ 53) with (2 * 2 ^ 52) in H1.
  set (Q := 2 ^ (e1 + 1074)) in *. set (D := 2 ^ (e2 - e1)) in *.
  set (B := 2 ^ 52) in *. clearbody Q D B.
  assert (Z.pos m1 * Q < 2 * B * Q) by (apply Z.mul_lt_mono_pos_r; lia).
  assert (2 * B * Q <= D * B * Q) by (apply Z.mul_le_mono_nonneg_r; nia).
  assert (D * B * Q <= D * Z.pos m2 * Q).
  { apply Z.mul_le_mono_nonneg_r; [lia|]. apply Z.mul_le_mono_nonneg_l; lia. }
  lia.
Qed.

Lemma scaled_magnitude (m1 m2 : positive) (e1 e2 : Z) :
  valid_binary (S754_finite false m1 e1) = true ->
  valid_binary (S754_finite false m2 e2) = true ->
  match e1 ?= e2 with
  | Eq => Pos.compare_cont Eq m1 m2
  | Lt => Lt
  | Gt => Gt
  end = (Z.pos m1 * 2 ^ (e1 + 1074) ?= Z.pos m2 * 2 ^ (e2 + 1074)).
Proof.
  intros V1 V2. destruct (Z.compare_spec e1 e2) as [->|He|He].
  - destruct (valid_binary_finite _ _ _ V2) as (_ & He2 & _).
    rewrite mul_compare_r by (apply Z.pow_pos_nonneg; lia). reflexivity.
  - symmetry. apply Z.compare_lt_iff, scaled_lt; assumption.
  - symmetry. apply Z.compare_gt_iff, scaled_lt; assumption.
Qed.

(** Valid finite floats compare as their values do. *)
Lemma SFcompare_scaled (x y : spec_float) :
  valid_binary x = true -> valid_binary y = true -> SF_finite x -> SF_finite y ->
  SFcompare x y = Some (SF_scaled x ?= SF_scaled y).
Proof.
  intros Vx Vy Fx Fy.
  assert (Hpos : forall s m e, valid_binary (S754_finite s m e) = true ->
                               0 < Z.pos m * 2 ^ (e + 1074)).
  { intros s m e V. destruct (valid_binary_finite _ _ _ V) as (_ & He & _).
    apply Z.mul_pos_pos; [lia|apply Z.pow_pos_nonneg; lia]. }
  destruct x as [sx| | |sx mx ex], y as [sy| | |sy my ey]; try contradiction;
    simpl SFcompare; simpl SF_scaled.
  - reflexivity.
  - pose proof (Hpos _ _ _ Vy) as Hy. f_equal. symmetry.
    destruct sy; simpl cond_Zopp; rewrite ?Z.mul_opp_l;
      [apply Z.compare_gt_iff|apply Z.compare_lt_iff]; lia.
  - pose proof (Hpos _ _ _ Vx) as Hx. f_equal. symmetry.
    destruct sx; simpl cond_Zopp; rewrite ?Z.mul_opp_l;
      [apply Z.compare_lt_iff|apply Z.compare_gt_iff]; lia.
  - pose proof (Hpos _ _ _ Vx) as Hx. pose proof (Hpos _ _ _ Vy) as Hy.
    pose proof (scaled_magnitude mx my ex ey Vx Vy) as Hm.
    f_equal. destruct sx, sy; simpl cond_Zopp; rewrite ?Z.mul_opp_l.
    + rewrite Z.compare_opp, <- (scaled_magnitude my mx ey ex Vy Vx).
      rewrite (Z.compare_antisym ey ex).
      destruct (ey ?= ex); simpl; try reflexivity.
      change (Pos.compare_cont Eq mx my) with (mx ?= my)%positive.
      change (Pos.compare_cont Eq my mx) with (my ?= mx)%positive.
      rewrite (Pos.compare_antisym my mx). destruct (my ?= mx)%positive; reflexivity.
    + symmetry. apply Z.compare_lt_iff. lia.
    + symmetry. apply Z.compare_gt_iff. lia.
    + exact Hm.
Qed.

(** A valid finite float compares with an integer as its value does. *)
Lemma SF_compare_Z_scaled (x : spec_float) (z : Z) :
  valid_binary x = true -> SF_finite x ->
  Py.SF_compare_Z x z = Some (SF_scaled x ?= z * 2 ^ 1074).
Proof.
  intros Vx Fx.
  assert (HP : 0 < 2 ^ 1074) by (apply Z.pow_pos_nonneg; lia).
  destruct x as [sx| | |sx mx ex]; try contradiction;
    cbv beta iota zeta delta [Py.SF_compare_Z SF_scaled].
  - f_equal. rewrite <- (mul_compare_r 0 z (2 ^ 1074) HP). reflexivity.
  - destruct (valid_binary_finite _ _ _ Vx) as (_ & He & _). f_equal.
    destruct (Z.leb_spec 0 ex) as [H|H].
    + rewrite Z.pow_add_r, Z.mul_assoc by lia.
      rewrite mul_compare_r by exact HP. reflexivity.
    + assert (H1 : 2 ^ 1074 = 2 ^ (- ex) * 2 ^ (ex + 1074))
        by (rewrite <- Z.pow_add_r by lia; f_equal; lia).
      rewrite H1, Z.mul_assoc.
      rewrite mul_compare_r by (apply Z.pow_pos_nonneg; lia). reflexivity.
Qed.

Lemma scaled_ge (x y : spec_float) :
  valid_binary x = true -> valid_binary y = true -> SF_finite x -> SF_finite y ->
  SF_scaled y <= SF_scaled x ->
  SFcompare x y = Some Gt \/ SFcompare x y = Some Eq.
Proof.
  intros Vx Vy Fx Fy H. rewrite (SFcompare_scaled x y Vx Vy Fx Fy).
  destruct (Z.compare_spec (SF_scaled x) (SF_scaled y)); auto. lia.
Qed.

(** [float(g) <= u] whenever [g <= u], for an integer [g] and a float [u]. *)
Lemma float_of_Z_le (g : Z) (g' u : float) :
  Py.float_of_Z g = Ok g' ->
  Py.SF_compare_Z (Prim2SF u) g = Some Gt \/ Py.SF_compare_Z (Prim2SF u) g = Some Eq ->
  SFcompare (Prim2SF u) (Prim2SF g') = Some Gt
  \/ SFcompare (Prim2SF u) (Prim2SF g') = Some Eq.
Proof.
  intros Hg Hc. pose proof (FloatAxioms.Prim2SF_valid u) as Vu.
  pose proof (FloatAxioms.Prim2SF_valid g') as Vg.
  destruct (Prim2SF u) as [su|su| |su mu eu] eqn:Eu.
  - destruct (float_of_Z_between g g' (S754_zero su) Hg Vu I) as (Fg & _ & Hle & _).
    rewrite (SF_compare_Z_scaled _ g Vu I) in Hc.
    apply scaled_ge; try assumption; try exact I. apply Hle.
    destruct (Z.compare_spec (SF_scaled (S754_zero su)) (g * 2 ^ 1074));
      destruct Hc; try discriminate; lia.
  - destruct (float_of_Z_between g g' (S754_zero false) Hg eq_refl I) as (Fg & _).
    destruct su; simpl in Hc; [destruct Hc; discriminate|].
    destruct (Prim2SF g'); try contradiction; simpl; auto.
  - destruct Hc; discriminate.
  - destruct (float_of_Z_between g g' (S754_finite su mu eu) Hg Vu I) as (Fg & _ & Hle & _).
    rewrite (SF_compare_Z_scaled _ g Vu I) in Hc.
    apply scaled_ge; try assumption; try exact I. apply Hle.
    destruct (Z.compare_spec (SF_scaled (S754_finite su mu eu)) (g * 2 ^ 1074));
      destruct Hc; try discriminate; lia.
Qed.

(** [g <= float(u)] whenever [g <= u], for a float [g] and an integer [u]. *)
Lemma float_of_Z_ge (g u' : float) (u : Z) :
  Py.float_of_Z u = Ok u' ->
  Py.SF_compare_Z (Prim2SF g) u = Some Lt \/ Py.SF_compare_Z (Prim2SF g) u = Some Eq ->
  SFcompare (Prim2SF u') (Prim2SF g) = Some Gt
  \/ SFcompare (Prim2SF u') (Prim2SF g) = Some Eq.
Proof.
  intros Hu Hc. pose proof (FloatAxioms.Prim2SF_valid g) as Vg.
  pose proof (FloatAxioms.Prim2SF_valid u') as Vu.
  destruct (Prim2SF g) as [sg|sg| |sg mg eg] eqn:Eg.
  - destruct (float_of_Z_between u u' (S754_zero sg) Hu Vg I) as (Fu & _ & _ & Hle).
    rewrite (SF_compare_Z_scaled _ u Vg I) in Hc.
    apply scaled_ge; try assumption; try exact I. apply Hle.
    destruct (Z.compare_spec (SF_scaled (S754_zero sg)) (u * 2 ^ 1074));
      destruct Hc; try discriminate; lia.
  - destruct (float_of_Z_between u u' (S754_zero false) Hu eq_refl I) as (Fu & _).
    destruct sg; simpl in Hc; [|destruct Hc; discriminate].
    destruct (Prim2SF u') as [s|s| |s m e]; try contradiction; simpl; destruct s; auto.
  - destruct Hc; discriminate.
  - destruct (float_of_Z_between u u' (S754_finite sg mg eg) Hu Vg I) as (Fu & _ & _ & Hle).
    rewrite (SF_compare_Z_scaled _ u Vg I) in Hc.
    apply scaled_ge; try assumption; try exact I. apply Hle.
    destruct (Z.compare_spec (SF_scaled (S754_finite sg mg eg)) (u * 2 ^ 1074));
      destruct Hc; try discriminate; lia.
Qed.

Lemma Zdigits2_ge (m k : Z) : 2 ^ k <= m -> 0 <= k -> k + 1 <= Zdigits2 m.
Proof.
  intros Hm Hk.
  assert (H0 : 0 < m) by (pose proof (Z.pow_pos_nonneg 2 k); lia).
  destruct (Zdigits2_bounds m H0) as [[_ Hhi] Hd].
  destruct (Z.le_gt_cases (k + 1) (Zdigits2 m)) as [H|H]; [exact H|].
  assert (2 ^ Zdigits2 m <= 2 ^ k) by (apply Z.pow_le_mono_r; lia). lia.
Qed.

Lemma Zdigits2_lt (m k : Z) : 0 < m < 2 ^ k -> 0 <= k -> Zdigits2 m <= k.
Proof.
  intros [H0 Hm] Hk. destruct m as [|p|p]; try lia. apply Zdigits2_le; assumption.
Qed.

(** The quotient of two integers below [2 ^ 500] is within the doubles. *)
Lemma SF_quot_finite (neg : bool) (a b : Z) :
  0 <= a < 2 ^ 500 -> 0 < b < 2 ^ 500 -> SF_finite (Py.SF_quot neg a b).
Proof.
  intros Ha Hb. destruct a as [|pa|pa]; [exact I| |lia].
  destruct b as [|pb|pb]; try lia. unfold Py.SF_quot, SFdiv, SFdiv_core_binary.
  simpl Zdigits2.
  pose proof (digits2_pos_bounds pa) as [Hlo1 Hhi1].
  pose proof (digits2_pos_bounds pb) as [Hlo2 Hhi2].
  pose proof (Zdigits2_le pa 500 ltac:(lia) ltac:(lia)) as Hd1.
  pose proof (Zdigits2_le pb 500 ltac:(lia) ltac:(lia)) as Hd2.
  set (d1 := Z.pos (digits2_pos pa)) in *. set (d2 := Z.pos (digits2_pos pb)) in *.
  assert (Hp1 : 0 < d1) by (unfold d1; lia).
  assert (Hp2 : 0 < d2) by (unfold d2; lia).
  replace (fexp prec emax (d1 + 0 - (d2 + 0))) with (d1 - d2 - 53)
    by (unfold fexp, SpecFloat.emin, prec, emax; lia).
  set (e' := Z.min (d1 - d2 - 53) (0 - 0)).
  set (m' := match 0 - 0 - e' with
             | 0 => Z.pos pa
             | Z.pos _ => Z.shiftl (Z.pos pa) (0 - 0 - e')
             | Z.neg _ => 0
             end).
  assert (Hm' : m' = Z.pos pa * 2 ^ (- e')).
  { unfold m'. assert (He' : e' <= 0) by (unfold e'; lia).
    replace (0 - 0 - e') with (- e') by lia.
    destruct (- e') as [|s|s] eqn:Es; try lia.
    rewrite Z.shiftl_mul_pow2 by lia. reflexivity. }
  clearbody m'.
  destruct (Z.div_eucl m' (Z.pos pb)) as [q r] eqn:Ediv.
  assert (Hq : q = m' / Z.pos pb) by (unfold Z.div; rewrite Ediv; reflexivity).
  assert (Hbounds : 2 ^ 52 <= q /\ -1074 <= e' + (Zdigits2 q - 53)
                    /\ e' + (Zdigits2 q - 53) + 1 <= 971).
  { destruct (Z.le_gt_cases (d1 - d2 - 53) 0) as [Hc|Hc].
    - assert (He' : e' = d1 - d2 - 53) by (unfold e'; lia).
      assert (H1 : 2 ^ (52 + d2) <= m').
      { rewrite Hm', He'. replace (52 + d2) with ((d1 - 1) + - (d1 - d2 - 53)) by lia.
        rewrite Z.pow_add_r by lia.
        apply Z.mul_le_mono_nonneg_r; [apply Z.pow_nonneg; lia|exact Hlo1]. }
      assert (H2 : m' < 2 ^ (53 + d2)).
      { rewrite Hm', He'. replace (53 + d2) with (d1 + - (d1 - d2 - 53)) by lia.
        rewrite Z.pow_add_r by lia.
        apply Z.mul_lt_mono_pos_r; [apply Z.pow_pos_nonneg; lia|exact Hhi1]. }
      assert (Hq1 : 2 ^ 52 <= q).
      { rewrite Hq. apply Z.div_le_lower_bound; [lia|].
        rewrite Z.pow_add_r in H1 by lia.
        assert (Z.pos pb * 2 ^ 52 <= 2 ^ d2 * 2 ^ 52)
          by (apply Z.mul_le_mono_nonneg_r; lia).
        lia. }
      assert (Hq2 : q < 2 ^ 54).
      { rewrite Hq. apply Z.div_lt_upper_bound; [lia|].
        replace (53 + d2) with ((d2 - 1) + 54) in H2 by lia.
        rewrite Z.pow_add_r in H2 by lia.
        assert (2 ^ (d2 - 1) * 2 ^ 54 <= Z.pos pb * 2 ^ 54)
          by (apply Z.mul_le_mono_nonneg_r; lia).
        lia. }
      pose proof (Zdigits2_ge q 52 Hq1 ltac:(lia)).
      pose proof (Zdigits2_lt q 54 ltac:(lia) ltac:(lia)).
      lia.
    - assert (He' : e' = 0) by (unfold e'; lia).
      rewrite He', Z.pow_0_r, Z.mul_1_r in Hm'.
      assert (Hq1 : 2 ^ (d1 - 1 - d2) <= q).
      { rewrite Hq, Hm'. apply Z.div_le_lower_bound; [lia|].
        replace (d1 - 1) with (d2 + (d1 - 1 - d2)) in Hlo1 by lia.
        rewrite Z.pow_add_r in Hlo1 by lia.
        assert (Z.pos pb * 2 ^ (d1 - 1 - d2) <= 2 ^ d2 * 2 ^ (d1 - 1 - d2))
          by (apply Z.mul_le_mono_nonneg_r; [apply Z.pow_nonneg|]; lia).
        lia. }
      assert (Hq2 : q < 2 ^ d1).
      { rewrite Hq, Hm'. apply Z.div_lt_upper_bound; [lia|].
        assert (0 < 2 ^ d1) by (apply Z.pow_pos_nonneg; lia). nia. }
      assert (H53 : 2 ^ 53 <= q).
      { assert (2 ^ 53 <= 2 ^ (d1 - 1 - d2)) by (apply Z.pow_le_mono_r; lia). lia. }
      pose proof (Zdigits2_ge q 53 H53 ltac:(lia)).
      pose proof (Zdigits2_lt q d1 ltac:(lia) ltac:(lia)).
      split; [|lia]. assert (2 ^ 52 <= 2 ^ 53) by (apply Z.pow_le_mono_r; lia). lia. }
  destruct Hbounds as (Hq1 & Hlo & Hhi).
  pose proof (Zdigits2_ge q 52 Hq1 ltac:(lia)) as Hdq.
  destruct (binary_round_aux_normal (xorb neg false) q e' (new_location (Z.pos pb) r))
    as (mf & ef & m2 & _ & _ & Hef & _ & ->); [lia|lia|lia|].
  replace (ef <=? 971) with true by (symmetry; apply Z.leb_le; lia).
  exact I.
Qed.

Lemma Z_truediv_returns (a b : Z) :
  Z.abs a < 2 ^ 500 -> Z.abs b < 2 ^ 500 -> b <> 0 -> returns (Py.Z_truediv a b).
Proof.
  intros Ha Hb Hb0. unfold Py.Z_truediv.
  replace (b =? 0) with false by (symmetry; apply Z.eqb_neq; exact Hb0).
  pose proof (SF_quot_finite (xorb (a <? 0) (b <? 0)) (Z.abs a) (Z.abs b)
                ltac:(lia) ltac:(lia)) as H.
  destruct (Py.SF_quot _ _ _); try contradiction; eexists; reflexivity.
Qed.

(** ** When the engine returns *)

(** A float, or an integer below [2 ^ k] in absolute value. *)
Definition number_below (k : Z) (v : value) : Prop :=
  match v with
  | VInt z => Z.abs z < 2 ^ k
  | VFloat _ => True
  | _ => False
  end.

(** A number the engine computes with: a float, or an integer below
    [2 ^ 500] in absolute value.  An integer is converted when it meets a
    float, and the conversion raises [OverflowError] beyond the largest
    double, which is below [2 ^ 1024]. *)
Definition small_number (v : value) : Prop := number_below 500 v.

(** A numeric field of a dictionary that holds such a number, or is left out. *)
Definition small_or_absent (d : dict) (key : string) : Prop :=
  match d !! key with
  | Some v => small_number v
  | None => True
  end.

(** A wage specification whose three numeric fields are such numbers. *)
Definition wage_of_numbers (wage : dict) : Prop :=
  small_or_absent wage "wage_amount" /\ small_or_absent wage "hours_per_day"
  /\ small_or_absent wage "monthly_work_days".

(** A number that an f-string prints. *)
Definition printable_number (v : value) : Prop := number v /\ printable v.

(** A service summary whose three fields are such numbers. *)
Definition summary_of_numbers (svc : dict) : Prop :=
  printable_number (Py.get svc "full_years" (VInt 0))
  /\ printable_number (Py.get svc "attendance_rate" (VInt 0))
  /\ printable_number (Py.get svc "full_months" (VInt 0)).

Lemma number_below_mono (k k' : Z) (v : value) :
  k <= k' -> number_below k v -> number_below k' v.
Proof.
  intros Hk. destruct v as [|z|f|s]; simpl; try tauto.
  intros H. apply (Z.lt_le_trans _ _ _ H). apply Z.pow_le_mono_r; lia.
Qed.

Lemma number_below_number (k : Z) (v : value) : number_below k v -> number v.
Proof. destruct v; simpl; tauto. Qed.

Lemma small_literal (z : Z) : Z.abs z < 1024 -> small_number (VInt z).
Proof.
  intros H. unfold small_number, number_below.
  apply (Z.lt_le_trans _ (2 ^ 10)); [exact H|]. apply Z.pow_le_mono_r; lia.
Qed.

Lemma get_small (d : dict) (key : string) (z : Z) :
  small_or_absent d key -> Z.abs z < 1024 -> small_number (Py.get d key (VInt z)).
Proof.
  unfold small_or_absent, Py.get. intros H Hz.
  destruct (d !! key); simpl; [exact H|apply small_literal, Hz].
Qed.

Lemma float_of_Z_below (k z : Z) :
  k <= 1023 -> Z.abs z < 2 ^ k -> returns (Py.float_of_Z z).
Proof.
  intros Hk Hz. apply float_of_Z_returns.
  apply (Z.lt_le_trans _ _ _ Hz). apply Z.pow_le_mono_r; lia.
Qed.

Lemma sub_below (k : Z) (a b : value) :
  0 <= k <= 1023 -> number_below k a -> number_below k b ->
  exists v, Py.sub a b = Ok v /\ number_below (k + 1) v.
Proof.
  intros Hk. destruct a as [|x|x|], b as [|y|y|]; simpl; try contradiction;
    intros Ha Hb.
  - exists (VInt (x - y)). split; [reflexivity|]. simpl.
    rewrite Z.pow_add_r by lia. change (2 ^ 1) with 2. lia.
  - destruct (float_of_Z_below k x ltac:(lia) Ha) as [x' Hx].
    unfold Py.sub, Py.arith. rewrite Hx, bind_Ok_l. eexists. split; [reflexivity|exact I].
  - destruct (float_of_Z_below k y ltac:(lia) Hb) as [y' Hy].
    unfold Py.sub, Py.arith. rewrite Hy, bind_Ok_l. eexists. split; [reflexivity|exact I].
  - eexists. split; [reflexivity|exact I].
Qed.

Lemma mul_below (ka kb : Z) (a b : value) :
  0 <= ka <= 1023 -> 0 <= kb <= 1023 -> number_below ka a -> number_below kb b ->
  exists v, Py.mul a b = Ok v /\ number_below (ka + kb) v.
Proof.
  intros Hka Hkb. destruct a as [|x|x|], b as [|y|y|]; simpl; try contradiction;
    intros Ha Hb.
  - exists (VInt (x * y)). split; [reflexivity|]. simpl.
    rewrite Z.pow_add_r, Z.abs_mul by lia.
    apply Z.mul_lt_mono_nonneg; lia.
  - destruct (float_of_Z_below ka x ltac:(lia) Ha) as [x' Hx].
    unfold Py.mul, Py.arith. rewrite Hx, bind_Ok_l. eexists. split; [reflexivity|exact I].
  - destruct (float_of_Z_below kb y ltac:(lia) Hb) as [y' Hy].
    unfold Py.mul, Py.arith. rewrite Hy, bind_Ok_l. eexists. split; [reflexivity|exact I].
  - eexists. split; [reflexivity|exact I].
Qed.

Lemma max_either (a b v : value) : Py.max a b = Ok v -> v = a \/ v = b.
Proof.
  unfold Py.max. destruct (Py.gt b a) as [[]|]; simpl; intros [= <-]; auto.
Qed.

Lemma min_either (a b v : value) : Py.min a b = Ok v -> v = a \/ v = b.
Proof.
  unfold Py.min. destruct (Py.lt b a) as [[]|]; simpl; intros [= <-]; auto.
Qed.

Lemma lt_number (a b : value) : number a -> number b -> returns (Py.lt a b).
Proof.
  intros Ha Hb. destruct (compare_number a b Ha Hb) as [c Hc].
  unfold Py.lt. rewrite Hc. eexists; reflexivity.
Qed.

Lemma gt_number (a b : value) : number a -> number b -> returns (Py.gt a b).
Proof.
  intros Ha Hb. destruct (compare_number a b Ha Hb) as [c Hc].
  unfold Py.gt. rewrite Hc. eexists; reflexivity.
Qed.

Lemma ge_number (a b : value) : number a -> number b -> returns (Py.ge a b).
Proof.
  intros Ha Hb. destruct (compare_number a b Ha Hb) as [c Hc].
  unfold Py.ge. rewrite Hc. eexists; reflexivity.
Qed.

Lemma min_number (a b : value) :
  number a -> number b -> exists v, Py.min a b = Ok v /\ (v = a \/ v = b).
Proof.
  intros Ha Hb. destruct (lt_number b a Hb Ha) as [c Hc].
  unfold Py.min. rewrite Hc, bind_Ok_l. destruct c; eauto.
Qed.

Lemma max_number (a b : value) :
  number a -> number b -> exists v, Py.max a b = Ok v /\ (v = a \/ v = b).
Proof.
  intros Ha Hb. destruct (gt_number b a Hb Ha) as [c Hc].
  unfold Py.max. rewrite Hc, bind_Ok_l. destruct c; eauto.
Qed.

Lemma max_zero_below (k : Z) (d : value) :
  0 <= k -> number_below k d ->
  exists v, Py.max d (VInt 0) = Ok v /\ number_below k v.
Proof.
  intros Hk Hd.
  destruct (max_number d (VInt 0) (number_below_number k d Hd) I) as (v & Hv & [->| ->]).
  - exists d. auto.
  - exists (VInt 0). split; [exact Hv|]. simpl. apply Z.pow_pos_nonneg; lia.
Qed.

Lemma floordiv_float_2 (d : float) :
  exists x, Py.floordiv (VFloat d) (VInt 2) = Ok (VFloat x).
Proof.
  unfold Py.floordiv, Py.arith.
  change (Py.float_of_Z 2) with (Ok 2%float). rewrite bind_Ok_l.
  unfold Py.float_floordiv. change (2 =? 0)%float with false. cbv iota.
  destruct (negb _); eexists; reflexivity.
Qed.

(** The seniority bonus of the statutory rule and the days with it. *)
Lemma seniority_days (fy : value) :
  number fy ->
  exists d q m extra days,
    Py.sub fy (VInt 1) = Ok d /\ Py.floordiv d (VInt 2) = Ok q
    /\ Py.min (VInt 10) q = Ok m /\ Py.max (VInt 0) m = Ok extra
    /\ Py.add (VInt 15) extra = Ok days
    /\ printable extra /\ printable days.
Proof.
  pose proof str_limit_above as Hlim.
  destruct fy as [|z|f|]; try contradiction; intros _.
  - exists (VInt (z - 1)), (VInt ((z - 1) / 2)), (VInt (Z.min 10 ((z - 1) / 2))),
      (VInt (Z.max 0 (Z.min 10 ((z - 1) / 2)))),
      (VInt (15 + Z.max 0 (Z.min 10 ((z - 1) / 2)))).
    rewrite sub_int, floordiv_int, min_int, max_int, add_int by lia.
    repeat split; simpl; lia.
  - destruct (floordiv_float_2 (f - 1)%float) as [x Hx].
    destruct (min_number (VInt 10) (VFloat x) I I) as (m & Hm & Hmc).
    assert (Hnm : number m) by (destruct Hmc as [-> | ->]; exact I).
    destruct (max_number (VInt 0) m I Hnm) as (extra & Hex & Hec).
    assert (He : extra = VInt 0 \/ extra = VInt 10 \/ extra = VFloat x).
    { destruct Hec as [-> | ->]; [auto|]. destruct Hmc as [-> | ->]; auto. }
    exists (VFloat (f - 1)%float), (VFloat x), m, extra.
    destruct He as [-> | [-> | ->]]; eexists;
      repeat split; try eassumption; try reflexivity; simpl; try lia; try exact I.
Qed.

Lemma printable_min_11 (fm : value) :
  printable_number fm ->
  exists days, Py.min fm (VInt 11) = Ok days /\ printable days.
Proof.
  intros [Hn Hp]. destruct (min_number fm (VInt 11) Hn I) as (v & Hv & [-> | ->]).
  - exists fm. auto.
  - exists (VInt 11). split; [exact Hv|]. simpl. pose proof str_limit_above. lia.
Qed.

Lemma suggest_annual_days_returns (repr_float : float -> string) (rid : string)
    (svc : dict) :
  summary_of_numbers svc -> returns (suggest_annual_days repr_float rid svc).
Proof.
  intros ([Hfy Pfy] & [Hrate Prate] & [Hfm Pfm]). unfold suggest_annual_days.
  cbv zeta.
  set (fy := Py.get svc "full_years" (VInt 0)) in *.
  set (rate := Py.get svc "attendance_rate" (VInt 0)) in *.
  set (fm := Py.get svc "full_months" (VInt 0)) in *.
  destruct (lt_number fy (VInt 1) Hfy I) as [c1 H1].
  destruct (lt_number rate (VInt 80) Hrate I) as [c2 H2].
  destruct (ge_number rate (VInt 80) Hrate I) as [c3 H3].
  destruct (printable_min_11 fm (conj Hfm Pfm)) as (m & Hm & Pm).
  destruct (seniority_days fy Hfy)
    as (d & q & m' & extra & days & E1 & E2 & E3 & E4 & E5 & Pextra & Pdays).
  destruct (str_printable repr_float fy Pfy) as [sfy Sfy].
  destruct (str_printable repr_float rate Prate) as [srate Srate].
  destruct (str_printable repr_float fm Pfm) as [sfm Sfm].
  destruct (str_printable repr_float m Pm) as [sm Sm].
  destruct (str_printable repr_float extra Pextra) as [sextra Sextra].
  destruct (str_printable repr_float days Pdays) as [sdays Sdays].
  pose proof (str_small repr_float 26 ltac:(lia)) as S26.
  pose proof (str_small repr_float 25 ltac:(lia)) as S25.
  repeat match goal with
         | |- context [String.eqb rid ?s] => destruct (String.eqb rid s)
         end;
    rewrite ?H1, ?bind_Ok_l; destruct c1;
    rewrite ?Hm, ?bind_Ok_l, ?H2, ?H3, ?bind_Ok_l;
    try destruct c2; try destruct c3;
    rewrite ?E1, ?bind_Ok_l, ?E2, ?bind_Ok_l, ?E3, ?bind_Ok_l, ?E4, ?bind_Ok_l,
      ?E5, ?bind_Ok_l;
    rewrite ?Sfy, ?Srate, ?Sfm, ?Sm, ?Sextra, ?Sdays, ?S26, ?S25, ?bind_Ok_l;
    rewrite ?Sfy, ?Srate, ?Sfm, ?Sm, ?Sextra, ?Sdays, ?S26, ?S25, ?bind_Ok_l;
    rewrite ?Sfy, ?Srate, ?Sfm, ?Sm, ?Sextra, ?Sdays, ?S26, ?S25, ?bind_Ok_l;
    eexists; reflexivity.
Qed.

Lemma gt_zero_not_eqb (m : float) :
  Py.gt (VFloat m) (VInt 0) = Ok true -> (m =? 0)%float = false.
Proof.
  unfold Py.gt, Py.compare. rewrite FloatAxioms.eqb_spec.
  change (Prim2SF 0) with (S754_zero false).
  destruct (Prim2SF m) as [s|s| |s mm e]; simpl; try discriminate; try reflexivity;
    destruct s; reflexivity.
Qed.

Lemma gt_zero_int (m : Z) : Py.gt (VInt m) (VInt 0) = Ok true -> 0 < m.
Proof.
  unfold Py.gt, Py.compare. simpl.
  destruct (Z.compare_spec m 0); simpl; intros [= ]; lia.
Qed.

(** The conversion of an integer other than 0 is not 0. *)
Lemma float_of_Z_not_zero (z : Z) (f : float) :
  z <> 0 -> Py.float_of_Z z = Ok f -> (f =? 0)%float = false.
Proof.
  intros Hz Hf. destruct (float_of_Z_sign z f Hz Hf) as (mf & ef & E).
  rewrite FloatAxioms.eqb_spec, E. change (Prim2SF 0) with (S754_zero false).
  simpl. destruct (z <? 0); reflexivity.
Qed.

(** The guard [mwd > 0] keeps the division from raising. *)
Lemma truediv_by_positive (a b : value) :
  small_number a -> small_number b -> Py.gt b (VInt 0) = Ok true ->
  exists x, Py.truediv a b = Ok (VFloat x).
Proof.
  destruct a as [|x|x|], b as [|y|y|]; simpl; try contradiction; intros Ha Hb Hgt.
  - apply gt_zero_int in Hgt.
    destruct (Z_truediv_returns x y Ha Hb ltac:(lia)) as [r Hr].
    unfold Py.truediv, Py.arith. rewrite Hr. eexists; reflexivity.
  - destruct (float_of_Z_below 500 x ltac:(lia) Ha) as [x' Hx].
    unfold Py.truediv, Py.arith. rewrite Hx, bind_Ok_l, (gt_zero_not_eqb y Hgt).
    eexists; reflexivity.
  - apply gt_zero_int in Hgt.
    destruct (float_of_Z_below 500 y ltac:(lia) Hb) as [y' Hy].
    unfold Py.truediv, Py.arith.
    rewrite Hy, bind_Ok_l, (float_of_Z_not_zero y y' ltac:(lia) Hy).
    eexists; reflexivity.
  - unfold Py.truediv, Py.arith. rewrite (gt_zero_not_eqb y Hgt).
    eexists; reflexivity.
Qed.

Lemma calc_daily_wage_returns (wage : dict) :
  wage_of_numbers wage ->
  exists v, calc_daily_wage wage = Ok v /\ number_below 1000 v.
Proof.
  intros (Hamt & Hhpd & Hmwd). unfold calc_daily_wage.
  pose proof (get_small wage "wage_amount" 0 Hamt ltac:(lia)) as Ha.
  pose proof (get_small wage "hours_per_day" 8 Hhpd ltac:(lia)) as Hh.
  pose proof (get_small wage "monthly_work_days" 20 Hmwd ltac:(lia)) as Hm.
  assert (H0 : number_below 1000 (VInt 0)) by (simpl; apply Z.pow_pos_nonneg; lia).
  destruct (Py.eq _ (VStr "hourly")).
  { exact (mul_below 500 500 _ _ ltac:(lia) ltac:(lia) Ha Hh). }
  destruct (Py.eq _ (VStr "daily")).
  { eexists. split; [reflexivity|]. apply (number_below_mono 500); [lia|exact Ha]. }
  destruct (Py.eq _ (VStr "monthly")); [|eexists; split; [reflexivity|exact H0]].
  destruct (gt_number _ (VInt 0) (number_below_number _ _ Hm) I) as [[] Hgt];
    rewrite Hgt, bind_Ok_l.
  - destruct (truediv_by_positive _ _ Ha Hm Hgt) as [x ->].
    eexists. split; [reflexivity|exact I].
  - eexists. split; [reflexivity|exact H0].
Qed.

Lemma full_pipeline_returns (repr_float : float -> string) (rid : string)
    (svc wage : dict) (granted used : value) :
  summary_of_numbers svc -> wage_of_numbers wage ->
  small_number granted -> small_number used ->
  returns (full_pipeline repr_float rid svc wage granted used).
Proof.
  intros Hsvc Hwage Hg Hu.
  destruct (suggest_annual_days_returns repr_float rid svc Hsvc) as [sug Hsug].
  destruct (calc_daily_wage_returns wage Hwage) as (daily & Hdaily & Hzd).
  destruct (sub_below 500 granted used ltac:(lia) Hg Hu) as (diff & Hdiff & Hzdiff).
  destruct (max_zero_below (500 + 1) diff ltac:(lia) Hzdiff) as (unused & Hun & Hzu).
  destruct (mul_below (500 + 1) 1000 unused daily ltac:(lia) ltac:(lia) Hzu Hzd)
    as (praw & Hpraw & _).
  destruct (drop_to_10won_returns daily) as [dcut Hdcut].
  destruct (drop_to_10won_returns praw) as [pcut Hpcut].
  eexists. apply full_pipeline_Ok.
  exists sug, diff, unused, daily, praw, dcut, pcut.
  repeat split; auto.
Qed.

(** ** The pipeline leaves its arguments alone *)

(** C10: whatever the rule, the service summary and the wage specification
    are, the payout the pipeline returns carries [granted_days] and
    [used_days] as they were passed; and the pipeline does return, with them,
    when the day counts and the numbers of the wage are floats or integers
    below [2 ^ 500] in absolute value and the service summary holds numbers
    whose integers have at most 4300 digits. *)
Theorem full_pipeline_keeps_day_counts (repr_float : float -> string) (rid : string)
    (svc wage : dict) :
  (forall (granted used : value) (res : PipelineResult),
      full_pipeline repr_float rid svc wage granted used = Ok res ->
      granted_days (payout res) = granted /\ used_days (payout res) = used)
  /\ (forall granted used : value,
         summary_of_numbers svc -> wage_of_numbers wage ->
         small_number granted -> small_number used ->
         exists res,
           full_pipeline repr_float rid svc wage granted used = Ok res
           /\ granted_days (payout res) = granted
           /\ used_days (payout res) = used).
Proof.
  assert (H : forall (granted used : value) (res : PipelineResult),
             full_pipeline repr_float rid svc wage granted used = Ok res ->
             granted_days (payout res) = granted /\ used_days (payout res) = used).
  { intros granted used res Hres. apply full_pipeline_Ok in Hres.
    destruct Hres as (sug & diff & unused & daily & praw & dcut & pcut
                      & _ & _ & _ & _ & _ & _ & _ & ->).
    split; reflexivity. }
  split; [exact H|].
  intros granted used Hsvc Hwage Hg Hu.
  destruct (full_pipeline_returns repr_float rid svc wage granted used Hsvc Hwage Hg Hu)
    as [res Hres].
  exists res. split; [exact Hres|]. exact (H _ _ _ Hres).
Qed.

Lemma full_pipeline_keeps_day_counts_witness :
  exists res,
    full_pipeline (fun _ => "") "law_basic" (service_summary 3 (VInt 95) 0)
      {[ "wage_type" := VStr "monthly"; "wage_amount" := VInt 2000000;
         "monthly_work_days" := VInt 20 ]} (VInt 15) (VFloat 3.5) = Ok res
    /\ granted_days (payout res) = VInt 15 /\ used_days (payout res) = VFloat 3.5.
Proof.
  apply (proj2 (full_pipeline_keeps_day_counts (fun _ => "") "law_basic"
                  (service_summary 3 (VInt 95) 0)
                  {[ "wage_type" := VStr "monthly"; "wage_amount" := VInt 2000000;
                     "monthly_work_days" := VInt 20 ]}) (VInt 15) (VFloat 3.5)).
  - repeat split; vm_compute; reflexivity.
  - repeat split; vm_compute; reflexivity.
  - vm_compute. reflexivity.
  - exact I.
Defined.

(** ** What raises and what does not *)

(** C8 as the code has it: the duration parser and the rounding never raise,
    whatever they are given, and a fault inside them gives 0; the daily wage
    and the pipeline have no handler of their own, and return when the
    numbers of the wage and the day counts are floats or integers below
    [2 ^ 500] in absolute value and the service summary holds numbers whose
    integers have at most 4300 digits, a [monthly_work_days] that is not
    positive giving the wage 0. *)
Theorem engine_returns (repr_float : float -> string) :
  (forall self : NiceRecord, returns (parse_duration self))
  /\ (forall amount : value,
         returns (drop_to_10won amount)
         /\ (forall e, Py.int amount = Raise e -> drop_to_10won amount = Ok (VInt 0)))
  /\ (forall wage : dict, wage_of_numbers wage -> returns (calc_daily_wage wage))
  /\ (forall (wage : dict) (mwd : value),
         Py.get wage "wage_type" VNone = VStr "monthly" ->
         Py.get wage "monthly_work_days" (VInt 20) = mwd ->
         Py.gt mwd (VInt 0) = Ok false ->
         calc_daily_wage wage = Ok (VInt 0))
  /\ (forall (rid : string) (svc wage : dict) (granted used : value),
         summary_of_numbers svc -> wage_of_numbers wage ->
         small_number granted -> small_number used ->
         returns (full_pipeline repr_float rid svc wage granted used)).
Proof.
  split; [|split; [|split; [|split]]].
  - intros self. destruct (parse_duration_returns self) as (d & Hd & _).
    exists d. exact Hd.
  - intros amount. split; [apply drop_to_10won_returns|].
    intros e He. unfold drop_to_10won. rewrite He. reflexivity.
  - intros wage Hwage. destruct (calc_daily_wage_returns wage Hwage) as (v & Hv & _).
    exists v. exact Hv.
  - intros wage mwd Htype Hmwd Hgt. unfold calc_daily_wage.
    rewrite Htype, Hmwd, Hgt. reflexivity.
  - intros rid svc wage granted used. apply full_pipeline_returns.
Qed.

Lemma engine_returns_witness :
  returns (calc_daily_wage {[ "wage_type" := VStr "monthly";
                              "wage_amount" := VInt 2000000;
                              "monthly_work_days" := VInt 20 ]})
  /\ calc_daily_wage {[ "wage_type" := VStr "monthly";
                        "wage_amount" := VInt 2000000;
                        "monthly_work_days" := VFloat 0 ]} = Ok (VInt 0)
  /\ returns (full_pipeline (fun _ => "") "gw_school_cba"
                (service_summary 2 (VFloat 79.5) 7)
                {[ "wage_type" := VStr "hourly"; "wage_amount" := VInt 9860 ]}
                (VInt 15) (VFloat 20.5)).
Proof.
  split; [|split].
  - apply (proj1 (proj2 (proj2 (engine_returns (fun _ => ""))))).
    repeat split; vm_compute; reflexivity.
  - apply (proj1 (proj2 (proj2 (proj2 (engine_returns (fun _ => "")))))
             _ (VFloat 0)); reflexivity.
  - apply (proj2 (proj2 (proj2 (proj2 (engine_returns (fun _ => ""))))));
      try (repeat split; vm_compute; reflexivity); exact I.
Defined.

(** The claim as the specification states it fails: a wage amount that is not
    a number makes the monthly daily wage raise a [TypeError], and the
    pipeline with it. *)
Lemma calc_daily_wage_raises :
  calc_daily_wage {[ "wage_type" := VStr "monthly"; "wage_amount" := VStr "abc" ]}
  = Raise TypeError
  /\ full_pipeline (fun _ => "") "law_basic" (service_summary 3 (VInt 95) 0)
       {[ "wage_type" := VStr "monthly"; "wage_amount" := VStr "abc" ]}
       (VInt 15) (VInt 3)
     = Raise TypeError.
Proof. split; vm_compute; reflexivity. Qed.

(** Beyond the largest double an integer wage amount cannot meet a float:
    the hourly daily wage raises [OverflowError]; and a service summary whose
    [full_years] has 4301 digits makes the pipeline raise [ValueError]. *)
Lemma engine_raises_on_long_integers :
  calc_daily_wage {[ "wage_type" := VStr "hourly"; "wage_amount" := VInt (2 ^ 1024);
                     "hours_per_day" := VFloat 8 ]}
  = Raise OverflowError
  /\ full_pipeline (fun _ => "") "law_basic" (service_summary Py.str_limit (VInt 95) 0)
       ∅ (VInt 15) (VInt 3)
     = Raise ValueError.
Proof. split; vm_compute; reflexivity. Qed.

(** ** The unused days *)

(** Not a NaN (every integer is not). *)
Definition not_nan (v : value) : Prop :=
  match v with
  | VFloat f => Py.is_nan f = false
  | _ => True
  end.

Lemma max_zero_ge (d unused : value) :
  Py.max d (VInt 0) = Ok unused -> not_nan unused ->
  Py.ge unused (VInt 0) = Ok true.
Proof.
  destruct d as [|z|f|s]; try discriminate.
  - rewrite max_int. intros [= <-] _. unfold Py.ge, Py.compare. simpl.
    destruct (Z.compare_spec (Z.max z 0) 0); simpl; first [reflexivity | lia].
  - unfold Py.max, Py.gt, Py.ge, Py.compare. simpl.
    destruct (Py.SF_compare_Z (Prim2SF f) 0) as [[]|] eqn:E; simpl;
      intros [= <-]; simpl; try rewrite E; try reflexivity.
    intros Hn. destruct (Prim2SF f) eqn:Ef; try discriminate E.
    + destruct s; discriminate E.
    + rewrite (is_nan_spec f Ef) in Hn. discriminate.
Qed.

Lemma float_ge_compare (u g : float) :
  Py.ge (VFloat u) (VFloat g) = Ok true ->
  SFcompare (Prim2SF u) (Prim2SF g) = Some Gt
  \/ SFcompare (Prim2SF u) (Prim2SF g) = Some Eq.
Proof.
  unfold Py.ge, Py.compare, Py.float_compare. simpl.
  rewrite FloatAxioms.compare_spec.
  destruct (SFcompare (Prim2SF u) (Prim2SF g)) as [[]|]; simpl;
    first [discriminate | auto].
Qed.

(** A float at least an integer is at least its conversion. *)
Lemma float_int_ge_compare (u g' : float) (g : Z) :
  Py.float_of_Z g = Ok g' -> Py.ge (VFloat u) (VInt g) = Ok true ->
  SFcompare (Prim2SF u) (Prim2SF g') = Some Gt
  \/ SFcompare (Prim2SF u) (Prim2SF g') = Some Eq.
Proof.
  intros Hg. unfold Py.ge, Py.compare. simpl. intros Hge.
  apply (float_of_Z_le g g' u Hg).
  destruct (Py.SF_compare_Z (Prim2SF u) g) as [[]|]; simpl in Hge;
    first [discriminate | auto].
Qed.

(** The conversion of an integer at least a float is at least the float. *)
Lemma int_float_ge_compare (u' g : float) (u : Z) :
  Py.float_of_Z u = Ok u' -> Py.ge (VInt u) (VFloat g) = Ok true ->
  SFcompare (Prim2SF u') (Prim2SF g) = Some Gt
  \/ SFcompare (Prim2SF u') (Prim2SF g) = Some Eq.
Proof.
  intros Hu. unfold Py.ge, Py.compare. simpl. intros Hge.
  apply (float_of_Z_ge g u' u Hu).
  destruct (Py.SF_compare_Z (Prim2SF g) u) as [[]|]; simpl in Hge;
    first [discriminate | auto].
Qed.

(** The difference of two floats, the second at least the first, and 0: the
    larger is 0, or the difference is a NaN. *)
Lemma float_sub_max_zero (g u : float) (unused : value) :
  SFcompare (Prim2SF u) (Prim2SF g) = Some Gt
  \/ SFcompare (Prim2SF u) (Prim2SF g) = Some Eq ->
  Py.max (VFloat (g - u)%float) (VInt 0) = Ok unused ->
  not_nan unused -> Py.eq unused (VInt 0) = true.
Proof.
  intros Hge Hmax Hn.
  pose proof (SFsub_nonpos _ _ (FloatAxioms.Prim2SF_valid g) (FloatAxioms.Prim2SF_valid u)
                Hge) as Hs.
  change (SFsub prec emax) with SF64sub in Hs. rewrite <- FloatAxioms.sub_spec in Hs.
  revert Hmax. unfold Py.max, Py.gt, Py.eq, Py.compare. simpl.
  destruct (Prim2SF (g - u)%float) as [s|s| |s m e] eqn:E; simpl.
  + intros [= <-]. simpl. rewrite E. reflexivity.
  + destruct s; [|contradiction]. intros [= <-]. reflexivity.
  + intros [= <-]. simpl in Hn. rewrite (is_nan_spec _ E) in Hn. discriminate.
  + destruct s; [|contradiction].
    assert (Hc : (if 0 <=? e then cond_Zopp true (Z.pos m) * 2 ^ e ?= 0
                  else cond_Zopp true (Z.pos m) ?= 0 * 2 ^ (- e)) = Lt).
    { destruct (0 <=? e) eqn:He; [|reflexivity].
      apply Z.leb_le in He. apply Z.compare_lt_iff.
      pose proof (Z.pow_pos_nonneg 2 e ltac:(lia) He).
      pose proof (Pos2Z.neg_is_neg m). simpl. nia. }
    rewrite Hc. intros [= <-]. reflexivity.
Qed.

Lemma sub_max_zero (granted used unused : value) :
  Py.sub granted used ≫= (fun d => Py.max d (VInt 0)) = Ok unused ->
  not_nan unused -> Py.ge used granted = Ok true ->
  Py.eq unused (VInt 0) = true.
Proof.
  destruct granted as [|g|g|], used as [|u|u|]; try discriminate.
  - rewrite sub_int, bind_Ok_l, max_int. intros [= <-] _.
    unfold Py.ge, Py.compare. simpl.
    destruct (Z.compare_spec u g); simpl; try discriminate; intros _;
      rewrite Z.max_r by lia; reflexivity.
  - unfold Py.sub, Py.arith. destruct (Py.float_of_Z g) as [g'|] eqn:Hg; [|discriminate].
    rewrite !bind_Ok_l. intros Hmax Hn Hge.
    exact (float_sub_max_zero g' u unused (float_int_ge_compare u g' g Hg Hge) Hmax Hn).
  - unfold Py.sub, Py.arith. destruct (Py.float_of_Z u) as [u'|] eqn:Hu; [|discriminate].
    rewrite !bind_Ok_l. intros Hmax Hn Hge.
    exact (float_sub_max_zero g u' unused (int_float_ge_compare u' g u Hu Hge) Hmax Hn).
  - change (Py.sub (VFloat g) (VFloat u)) with (Ok (VFloat (g - u)%float)).
    rewrite bind_Ok_l. intros Hmax Hn Hge.
    exact (float_sub_max_zero g u unused (float_ge_compare u g Hge) Hmax Hn).
Qed.

(** C2 as the code has it: in the result of the pipeline, [unused_days] is
    [max(granted_days - used_days, 0)] and [payout_raw] is [unused_days] times
    the daily wage; unless it is a NaN, [unused_days] is [>= 0], and it is 0
    whenever [used_days >= granted_days], the day counts being integers,
    floats or one of each. *)
Theorem payout_unused_days (repr_float : float -> string) (rid : string)
    (svc wage : dict) (granted used : value) (res : PipelineResult) :
  full_pipeline repr_float rid svc wage granted used = Ok res ->
  Py.sub granted used ≫= (fun d => Py.max d (VInt 0)) = Ok (unused_days (payout res))
  /\ calc_daily_wage wage = Ok (daily_wage_raw (payout res))
  /\ Py.mul (unused_days (payout res)) (daily_wage_raw (payout res))
     = Ok (payout_raw (payout res))
  /\ (not_nan (unused_days (payout res)) ->
      Py.ge (unused_days (payout res)) (VInt 0) = Ok true)
  /\ (not_nan (unused_days (payout res)) ->
      Py.ge used granted = Ok true ->
      Py.eq (unused_days (payout res)) (VInt 0) = true).
Proof.
  intros Hres. apply full_pipeline_Ok in Hres.
  destruct Hres as (sug & diff & unused & daily & praw & dcut & pcut
                    & _ & Hdiff & Hmax & Hdaily & Hmul & _ & _ & ->).
  simpl.
  assert (Hun : Py.sub granted used ≫= (fun d => Py.max d (VInt 0)) = Ok unused).
  { rewrite Hdiff, bind_Ok_l. exact Hmax. }
  repeat split; try assumption.
  - apply (max_zero_ge diff unused Hmax).
  - apply (sub_max_zero granted used unused Hun).
Qed.

Lemma payout_unused_days_witness :
  exists res,
    full_pipeline (fun _ => "") "law_basic" (service_summary 3 (VInt 95) 0)
      {[ "wage_type" := VStr "daily"; "wage_amount" := VFloat 80000 ]}
      (VInt 15) (VFloat 15.5) = Ok res
    /\ Py.eq (unused_days (payout res)) (VInt 0) = true.
Proof.
  destruct (full_pipeline (fun _ => "") "law_basic" (service_summary 3 (VInt 95) 0)
              {[ "wage_type" := VStr "daily"; "wage_amount" := VFloat 80000 ]}
              (VInt 15) (VFloat 15.5)) as [res|e] eqn:E.
  - exists res. split; [reflexivity|].
    pose proof (payout_unused_days _ _ _ _ _ _ _ E) as (_ & _ & _ & _ & H).
    vm_compute in E. injection E as <-. apply H; reflexivity.
  - vm_compute in E. discriminate E.
Defined.

(** The claim as the specification states it fails: with [granted_days] a
    NaN the unused days are a NaN, which is not [>= 0]; and with both day
    counts the same infinity, [used_days >= granted_days] holds and the unused
    days are a NaN, not 0. *)
Lemma unused_days_nan :
  (exists res,
      full_pipeline (fun _ => "") "custom" ∅ ∅ (VFloat nan) (VFloat 3) = Ok res
      /\ Py.ge (unused_days (payout res)) (VInt 0) = Ok false)
  /\ (exists res,
         full_pipeline (fun _ => "") "custom" ∅ ∅ (VFloat infinity) (VFloat infinity)
         = Ok res
         /\ Py.ge (VFloat infinity) (VFloat infinity) = Ok true
         /\ Py.eq (unused_days (payout res)) (VInt 0) = false).
Proof.
  split; eexists; (split; [vm_compute; reflexivity|]); vm_compute; auto.
Qed.

(** ** The summary of a group *)




(** ** Grouping of the records by leave type *)

(** The records of [records] whose leave type is [k], in their order. *)
Definition of_leave_type (k : string) (records : list NiceRecord) : list NiceRecord :=
  List.filter (fun r => String.eqb (leave_type r) k) records.

(** [grouped] is the grouping of [records]: no key twice, under each key the
    records of that leave type in their order, at least one, and every leave
    type met is a key. *)
Definition grouping_of (records : list NiceRecord) (grouped : groups) : Prop :=
  NoDup grouped.*1
  /\ (forall k recs, (k, recs) ∈ grouped ->
        recs = of_leave_type k records /\ recs <> [])
  /\ (forall r, r ∈ records -> leave_type r ∈ grouped.*1).

Lemma setdefault_append_keys (grouped : groups) (lt : string) (r : NiceRecord) :
  (setdefault_append grouped lt r).*1
  = if bool_decide (lt ∈ grouped.*1) then grouped.*1
    else (grouped.*1 ++ [lt])%list.
Proof.
  induction grouped as [|[k recs] g IH]; [reflexivity|].
  cbn [setdefault_append].
  destruct (String.eqb_spec k lt) as [->|Hne]; rewrite !fmap_cons; cbn [fst].
  - rewrite bool_decide_eq_true_2 by apply list_elem_of_here. reflexivity.
  - rewrite IH. destruct (bool_decide (lt ∈ g.*1)) eqn:E.
    + apply bool_decide_eq_true_1 in E.
      rewrite bool_decide_eq_true_2 by (apply list_elem_of_further, E). reflexivity.
    + apply bool_decide_eq_false_1 in E.
      rewrite bool_decide_eq_false_2; [reflexivity|].
      intros [?|?]%elem_of_cons; [congruence|tauto].
Qed.

Lemma setdefault_append_elem (grouped : groups) (lt : string) (r : NiceRecord)
    (k : string) (recs : list NiceRecord) :
  NoDup grouped.*1 ->
  (k, recs) ∈ setdefault_append grouped lt r ->
  (k <> lt /\ (k, recs) ∈ grouped)
  \/ (k = lt /\ exists old, (lt, old) ∈ grouped /\ recs = (old ++ [r])%list)
  \/ (k = lt /\ (lt ∉ grouped.*1) /\ recs = [r]).
Proof.
  induction grouped as [|[k' recs'] g IH]; cbn [setdefault_append];
    rewrite ?fmap_cons; cbn [fst]; intros Hnd H.
  - apply list_elem_of_singleton in H. injection H as -> ->.
    right. right. repeat split. apply not_elem_of_nil.
  - apply NoDup_cons in Hnd. destruct Hnd as [Hk' Hg].
    destruct (String.eqb_spec k' lt) as [->|Hne];
      apply elem_of_cons in H; destruct H as [[= -> ->]|H].
    + right. left. split; [reflexivity|]. exists recs'. split; [left|reflexivity].
    + left. split; [|right; exact H].
      intros ->. apply Hk'. apply list_elem_of_fmap.
      exists (lt, recs). split; [reflexivity|exact H].
    + left. split; [exact Hne|left].
    + destruct (IH Hg H) as [[Hk Hin]|[[-> (old & Hold & ->)]|[-> [Hnot ->]]]].
      * left. split; [exact Hk|right; exact Hin].
      * right. left. split; [reflexivity|]. exists old. split; [right; exact Hold|reflexivity].
      * right. right. repeat split; try reflexivity.
        intros [?|?]%elem_of_cons; [congruence|tauto].
Qed.

Lemma of_leave_type_app (k : string) (l : list NiceRecord) (r : NiceRecord) :
  of_leave_type k (l ++ [r])
  = (of_leave_type k l ++ if String.eqb (leave_type r) k then [r] else [])%list.
Proof. unfold of_leave_type. rewrite List.filter_app. reflexivity. Qed.

Lemma of_leave_type_nil (k : string) (l : list NiceRecord) :
  (forall r, r ∈ l -> leave_type r <> k) -> of_leave_type k l = [].
Proof.
  induction l as [|x l IH]; simpl; intros H; [reflexivity|].
  destruct (String.eqb_spec (leave_type x) k) as [E|_].
  - destruct (H x (list_elem_of_here _ _) E).
  - apply IH. intros r Hr. apply H. right. exact Hr.
Qed.

Lemma grouping_of_step (records : list NiceRecord) (grouped : groups) (r : NiceRecord) :
  grouping_of records grouped ->
  grouping_of (records ++ [r]) (setdefault_append grouped (leave_type r) r).
Proof.
  intros (Hnd & Hrecs & Hkeys). split; [|split].
  - rewrite setdefault_append_keys.
    destruct (bool_decide (leave_type r ∈ grouped.*1)) eqn:E; [exact Hnd|].
    apply bool_decide_eq_false_1 in E.
    apply NoDup_app. repeat split; [exact Hnd| |apply NoDup_singleton].
    intros x Hx ->%list_elem_of_singleton. exact (E Hx).
  - intros k recs H.
    destruct (setdefault_append_elem _ _ _ _ _ Hnd H)
      as [[Hk Hin]|[[-> (old & Hold & ->)]|[-> [Hnot ->]]]];
      rewrite of_leave_type_app.
    + destruct (String.eqb_spec (leave_type r) k) as [E|_]; [congruence|].
      rewrite app_nil_r. apply (Hrecs _ _ Hin).
    + rewrite String.eqb_refl. split; [|destruct old; discriminate].
      f_equal. apply (Hrecs _ _ Hold).
    + rewrite String.eqb_refl. split; [|discriminate].
      rewrite of_leave_type_nil; [reflexivity|].
      intros x Hx E. apply Hnot. rewrite <- E. apply Hkeys, Hx.
  - intros x Hx. rewrite setdefault_append_keys.
    apply elem_of_app in Hx. destruct Hx as [Hx|Hx];
      [|apply list_elem_of_singleton in Hx; subst x].
    + destruct (bool_decide _); [|apply elem_of_app; left]; apply Hkeys, Hx.
    + destruct (bool_decide (leave_type r ∈ grouped.*1)) eqn:E.
      * apply bool_decide_eq_true_1 in E. exact E.
      * apply elem_of_app. right. left.
Qed.

Lemma group_records_app (records : list NiceRecord) (r : NiceRecord) :
  group_records (records ++ [r])
  = setdefault_append (group_records records) (leave_type r) r.
Proof. unfold group_records. rewrite fold_left_app. reflexivity. Qed.

Lemma group_records_grouping (records : list NiceRecord) :
  grouping_of records (group_records records).
Proof.
  induction records as [|r records IH] using rev_ind.
  - split; [apply NoDup_nil_2|split].
    + intros k recs H. apply elem_of_nil in H. contradiction.
    + intros r H. apply elem_of_nil in H. contradiction.
  - rewrite group_records_app. apply grouping_of_step, IH.
Qed.

Lemma elem_of_of_leave_type (k : string) (records : list NiceRecord) (r : NiceRecord) :
  r ∈ of_leave_type k records <-> r ∈ records /\ leave_type r = k.
Proof.
  unfold of_leave_type. rewrite !list_elem_of_In, List.filter_In.
  destruct (String.eqb_spec (leave_type r) k); intuition congruence.
Qed.

(** X1: [grouped] holds every leave type once; under a leave type are the
    records of that type, in the order of the input and at least one; and
    every record is in the group of its leave type. *)
Theorem group_records_partition (records : list NiceRecord) :
  NoDup (group_records records).*1
  /\ (forall k recs, (k, recs) ∈ group_records records ->
        recs = of_leave_type k records /\ recs <> [])
  /\ (forall r, r ∈ records ->
        exists recs, (leave_type r, recs) ∈ group_records records /\ r ∈ recs).
Proof.
  destruct (group_records_grouping records) as (Hnd & Hrecs & Hkeys).
  split; [exact Hnd|split; [exact Hrecs|]].
  intros r Hr. destruct (proj1 (list_elem_of_fmap _ _ _) (Hkeys r Hr))
    as ([k recs] & Hk & Hin). simpl in Hk. subst k.
  exists recs. split; [exact Hin|].
  rewrite (proj1 (Hrecs _ _ Hin)). apply elem_of_of_leave_type. auto.
Qed.

(** X2: the groups come in the order in which their leave types are first
    met: more records leave the keys so far where they are and add the new
    ones behind them; in particular the first group is the one of the first
    record. *)
Theorem group_records_order (records more : list NiceRecord) :
  (exists new, (group_records (records ++ more)).*1
               = ((group_records records).*1 ++ new)%list)
  /\ (forall r, head (group_records (r :: more)).*1 = Some (leave_type r)).
Proof.
  assert (H : forall l m : list NiceRecord,
             exists new, (group_records (l ++ m)).*1
                         = ((group_records l).*1 ++ new)%list).
  { intros l m. induction m as [|x m IH] using rev_ind.
    - exists []. rewrite !app_nil_r. reflexivity.
    - destruct IH as (new & IH).
      rewrite app_assoc, group_records_app, setdefault_append_keys, IH.
      destruct (bool_decide _).
      + exists new. reflexivity.
      + exists (new ++ [leave_type x])%list. rewrite app_assoc. reflexivity. }
  split; [apply H|].
  intros r. destruct (H [r] more) as (new & E).
  change ([r] ++ more)%list with (r :: more) in E. rewrite E. reflexivity.
Qed.

(** ** The entries of the summary *)

Lemma summarize_group_entry (repr_float : float -> string) (lt : string)
    (recs : list NiceRecord) (s : Summary) :
  summarize_group repr_float lt recs = Ok s ->
  summary_leave_type s = lt /\ count s = Z.of_nat (length recs).
Proof.
  unfold summarize_group. intros H. inv_bind H. inv_bind H. cbv zeta in H.
  inv_bind H. destruct a1 as [[[days remain] hours] minutes].
  do 7 inv_bind H. injection H as <-. split; reflexivity.
Qed.

Lemma summarize_groups_entries (repr_float : float -> string) (grouped : groups)
    (output : list Summary) :
  summarize_groups repr_float grouped = Ok output ->
  Forall2 (fun g s => summary_leave_type s = g.1
                      /\ count s = Z.of_nat (length g.2)) grouped output.
Proof.
  revert output. induction grouped as [|[lt recs] g IH]; simpl; intros output H.
  - injection H as <-. constructor.
  - inv_bind H. inv_bind H. injection H as <-.
    constructor; [apply (summarize_group_entry _ _ _ _ Ha)|apply IH, Ha0].
Qed.

(** The number of records in all the groups. *)
Definition total_count (grouped : groups) : nat :=
  foldr (fun g n => (length g.2 + n)%nat) O grouped.

Lemma setdefault_append_total_count (grouped : groups) (lt : string) (r : NiceRecord) :
  total_count (setdefault_append grouped lt r) = S (total_count grouped).
Proof.
  induction grouped as [|[k recs] g IH]; simpl; [reflexivity|].
  destruct (String.eqb k lt); simpl.
  - rewrite length_app. simpl. lia.
  - rewrite IH. lia.
Qed.

Lemma group_records_total_count (records : list NiceRecord) :
  total_count (group_records records) = length records.
Proof.
  induction records as [|r records IH] using rev_ind; [reflexivity|].
  rewrite group_records_app, setdefault_append_total_count, IH, length_app.
  simpl. lia.
Qed.

Lemma entries_of_groups (all : list NiceRecord) (grouped : groups)
    (output : list Summary) :
  Forall2 (fun g s => summary_leave_type s = g.1
                      /\ count s = Z.of_nat (length g.2)) grouped output ->
  (forall k recs, (k, recs) ∈ grouped -> recs = of_leave_type k all /\ recs <> []) ->
  summary_leave_type <$> output = grouped.*1
  /\ (forall s, s ∈ output ->
        count s = Z.of_nat (length (of_leave_type (summary_leave_type s) all))
        /\ 1 <= count s)
  /\ foldr (fun s n => count s + n) 0 output = Z.of_nat (total_count grouped).
Proof.
  induction 1 as [|[k recs] s g out [Hk Hc] _ IH]; intros Hrecs.
  - split; [reflexivity|split; [|reflexivity]].
    intros x Hx. apply elem_of_nil in Hx. contradiction.
  - simpl in Hk, Hc.
    destruct IH as (IH1 & IH2 & IH3).
    { intros k' recs' Hin. apply Hrecs. right. exact Hin. }
    destruct (Hrecs k recs) as [Hf Hne]; [left|].
    split; [|split].
    + rewrite !fmap_cons, IH1, Hk. reflexivity.
    + intros s' [->|H]%elem_of_cons; [|apply IH2, H].
      rewrite Hk, Hc, <- Hf. split; [reflexivity|].
      destruct recs; [congruence|simpl; lia].
    + simpl. rewrite Hc, IH3. lia.
Qed.

(** X3: when the summary is produced it has one entry for each leave type of
    the input, no leave type twice; the [count] of an entry is the number of
    records of its leave type, at least 1; and the counts add up to the
    number of records. *)
Theorem summarize_nice_records_counts (repr_float : float -> string)
    (records : list NiceRecord) (output : list Summary) :
  summarize_nice_records repr_float records = Ok output ->
  NoDup (summary_leave_type <$> output)
  /\ (forall s, s ∈ output ->
        count s = Z.of_nat (length (of_leave_type (summary_leave_type s) records))
        /\ 1 <= count s)
  /\ (forall r, r ∈ records ->
        exists s, s ∈ output /\ summary_leave_type s = leave_type r)
  /\ foldr (fun s n => count s + n) 0 output = Z.of_nat (length records).
Proof.
  intros H.
  assert (Hout : summarize_groups repr_float (group_records records) = Ok output).
  { destruct records; [injection H as <-; reflexivity|exact H]. }
  clear H. apply summarize_groups_entries in Hout.
  destruct (group_records_grouping records) as (Hnd & Hrecs & Hkeys).
  destruct (entries_of_groups records _ _ Hout Hrecs) as (Hfst & Hcount & Hsum).
  split; [|split; [|split]].
  - rewrite Hfst. exact Hnd.
  - exact Hcount.
  - intros r Hr. specialize (Hkeys r Hr). rewrite <- Hfst in Hkeys.
    apply list_elem_of_fmap in Hkeys. destruct Hkeys as (s & Hs & Hin).
    exists s. auto.
  - rewrite Hsum, group_records_total_count. reflexivity.
Qed.

Lemma summarize_nice_records_counts_witness :
  exists output,
    summarize_nice_records (fun _ => "")
      [ {| leave_type := "병가"; duration_raw := "1일"; hours_per_day := 8 |};
        {| leave_type := "연가"; duration_raw := "2시간"; hours_per_day := 8 |};
        {| leave_type := "병가"; duration_raw := "30분"; hours_per_day := 8 |} ]
    = Ok output
    /\ NoDup (summary_leave_type <$> output)
    /\ foldr (fun s n => count s + n) 0 output = 3.
Proof.
  destruct (summarize_nice_records (fun _ => "")
      [ {| leave_type := "병가"; duration_raw := "1일"; hours_per_day := 8 |};
        {| leave_type := "연가"; duration_raw := "2시간"; hours_per_day := 8 |};
        {| leave_type := "병가"; duration_raw := "30분"; hours_per_day := 8 |} ])
    as [output|e] eqn:E.
  - exists output. split; [reflexivity|].
    destruct (summarize_nice_records_counts _ _ _ E) as (H1 & _ & _ & H4).
    split; [exact H1|exact H4].
  - vm_compute in E. discriminate E.
Defined.

(** ** Faults of the summary *)

Lemma to_total_hours_float (self : NiceRecord) :
  exists f, to_total_hours self = Ok (VFloat f).
Proof.
  destruct (parse_duration_returns self) as (d & Hd & Hdays & Hhours & Hminutes).
  unfold to_total_hours. rewrite Hd, bind_Ok_l.
  rewrite (mul_component _ _ Hdays), bind_Ok_l.
  rewrite (add_component _ _ Hhours), bind_Ok_l.
  rewrite (div_component _ Hminutes), bind_Ok_l.
  eexists. reflexivity.
Qed.

Lemma sum_total_hours_float (recs : list NiceRecord) (t : float) :
  exists t', sum_total_hours (VFloat t) recs = Ok (VFloat t').
Proof.
  revert t. induction recs as [|r recs IH]; intros t; simpl.
  - exists t. reflexivity.
  - destruct (to_total_hours_float r) as (f & ->). rewrite bind_Ok_l.
    change (Py.add (VFloat t) (VFloat f)) with (Ok (VFloat (t + f)%float)).
    rewrite bind_Ok_l. apply IH.
Qed.

Lemma fold_setdefault_head (more : list NiceRecord) (k : string) (r : NiceRecord)
    (recs : list NiceRecord) (g : groups) :
  exists recs' g',
    fold_left (fun grouped x => setdefault_append grouped (leave_type x) x) more
      ((k, r :: recs) :: g)
    = (k, r :: recs') :: g'.
Proof.
  revert recs g. induction more as [|x more IH]; intros recs g; simpl.
  - exists recs, g. reflexivity.
  - destruct (String.eqb k (leave_type x)); apply IH.
Qed.

(** X4: a first record with [hours_per_day] zero makes the summary raise
    [ZeroDivisionError], whatever the records hold: the total of its group is
    divided by it. *)
Theorem summarize_zero_hours_per_day (repr_float : float -> string)
    (r : NiceRecord) (more : list NiceRecord) :
  (hours_per_day r =? 0)%float = true ->
  summarize_nice_records repr_float (r :: more) = Raise ZeroDivisionError.
Proof.
  intros Hz. unfold summarize_nice_records, group_records. simpl fold_left.
  destruct (fold_setdefault_head more (leave_type r) r [] []) as (recs & g & ->).
  simpl summarize_groups. unfold summarize_group.
  destruct (sum_total_hours_float (r :: recs) 0) as (t & ->).
  rewrite bind_Ok_l. change (Py.item (r :: recs) 0) with (Ok r).
  rewrite bind_Ok_l. cbv zeta. unfold expand_hours.
  unfold Py.floordiv. simpl Py.arith. unfold Py.float_floordiv.
  rewrite Hz. reflexivity.
Qed.

Lemma summarize_zero_hours_per_day_witness :
  summarize_nice_records (fun _ => "")
    [ {| leave_type := "연가"; duration_raw := "1일"; hours_per_day := 0 |} ]
  = Raise ZeroDivisionError.
Proof. apply summarize_zero_hours_per_day. reflexivity. Defined.

Lemma Prim2SF_nan (f : float) : Prim2SF f = S754_nan -> f = nan.
Proof. intros H. rewrite <- (SF2Prim_Prim2SF f), H. reflexivity. Qed.

Lemma sub_nan_r (x : float) : (x - nan)%float = nan.
Proof.
  apply Prim2SF_nan. rewrite FloatAxioms.sub_spec.
  change (Prim2SF nan) with S754_nan. destruct (Prim2SF x) as [[]|[]| |[] m e]; reflexivity.
Qed.

Lemma div_nan_l (y : float) : (nan / y)%float = nan.
Proof. apply Prim2SF_nan. rewrite FloatAxioms.div_spec. reflexivity. Qed.

Lemma float_fmod_not_finite (t w : float) :
  Py.is_finite t = false -> Py.float_fmod t w = nan.
Proof.
  unfold Py.is_finite, Py.float_fmod.
  destruct (Prim2SF t) as [s|s| |s m e]; try discriminate; intros _; [|reflexivity].
  destruct (Prim2SF w) as [s'|s'| |s' m' e']; reflexivity.
Qed.

Lemma float_floordiv_not_finite (t w : float) :
  Py.is_finite t = false -> (w =? 0)%float = false ->
  Py.float_floordiv t w = Ok nan.
Proof.
  intros Ht Hw. unfold Py.float_floordiv.
  rewrite Hw, (float_fmod_not_finite t w Ht), sub_nan_r, div_nan_l.
  destruct (w <? 0)%float; reflexivity.
Qed.

(** X5: a group whose total is not finite (a duration that reads as [inf] or
    [nan]) makes the summary raise [ValueError]: the floor division gives a
    NaN, which [int] refuses. *)
Theorem summarize_group_not_finite (repr_float : float -> string) (lt : string)
    (recs : list NiceRecord) (first : NiceRecord) (t : float) :
  Py.item recs 0 = Ok first ->
  sum_total_hours (VFloat 0) recs = Ok (VFloat t) ->
  Py.is_finite t = false ->
  (hours_per_day first =? 0)%float = false ->
  summarize_group repr_float lt recs = Raise ValueError.
Proof.
  intros Hfirst Ht Hfin Hw. unfold summarize_group.
  rewrite Ht, bind_Ok_l, Hfirst, bind_Ok_l. cbv zeta. unfold expand_hours.
  unfold Py.floordiv. simpl Py.arith.
  rewrite (float_floordiv_not_finite _ _ Hfin Hw). reflexivity.
Qed.

Lemma summarize_group_not_finite_witness :
  summarize_group (fun _ => "") "연가"
    [ {| leave_type := "연가"; duration_raw := "inf일"; hours_per_day := 8 |} ]
  = Raise ValueError.
Proof.
  apply (summarize_group_not_finite _ _ _
           {| leave_type := "연가"; duration_raw := "inf일"; hours_per_day := 8 |}
           infinity); reflexivity.
Defined.

(** ** More on rounding down to 10 won *)

Lemma drop_to_10won_eq (amount : value) :
  drop_to_10won amount
  = Ok (VInt (match Py.int amount with Ok n => n / 10 * 10 | Raise _ => 0 end)).
Proof.
  unfold drop_to_10won. destruct (Py.int amount) as [n|e]; [|reflexivity].
  rewrite bind_Ok_l, floordiv_int by discriminate. reflexivity.
Qed.

(** X6: rounding down twice is rounding down once, whatever the amount is:
    the result of [drop_to_10won] is left as it is by [drop_to_10won]. *)
Theorem drop_to_10won_idempotent (amount : value) :
  drop_to_10won amount ≫= drop_to_10won = drop_to_10won amount.
Proof.
  rewrite (drop_to_10won_eq amount), bind_Ok_l, drop_to_10won_eq.
  change (Py.int (VInt ?n)) with (Ok n).
  destruct (Py.int amount) as [n|e]; [|reflexivity].
  do 2 f_equal. rewrite Z.div_mul by discriminate. reflexivity.
Qed.

(** X7: on an integer, negative ones too, [drop_to_10won] is the greatest
    multiple of 10 not above it (so [-5] gives [-10]), and it keeps the
    order of the amounts. *)
Theorem drop_to_10won_int (n m : Z) :
  exists a b,
    drop_to_10won (VInt n) = Ok (VInt (10 * a))
    /\ drop_to_10won (VInt m) = Ok (VInt (10 * b))
    /\ 10 * a <= n < 10 * a + 10
    /\ (n <= m -> 10 * a <= 10 * b).
Proof.
  exists (n / 10), (m / 10). rewrite !drop_to_10won_eq.
  change (Py.int (VInt n)) with (Ok n). change (Py.int (VInt m)) with (Ok m).
  repeat split.
  - do 2 f_equal. lia.
  - do 2 f_equal. lia.
  - pose proof (Z.mul_div_le n 10). lia.
  - pose proof (Z.mul_succ_div_gt n 10). lia.
  - intros H. pose proof (Z.div_le_mono n m 10). lia.
Qed.

(** ** The registry of rules and the rule of a result *)

Lemma rule_profiles_lookup (k : string) (p : RuleProfile) :
  RULE_PROFILES !! k = Some p ->
  k ∈ ["law_basic"; "gw_school_cba"; "gw_institute_cba"; "gw_wage_guideline"; "custom"]
  /\ profile_id p = k /\ rounding_step p = 10 /\ rounding_mode p = "floor".
Proof.
  unfold RULE_PROFILES. simpl list_to_map. intros H.
  repeat (apply lookup_insert_Some in H; destruct H as [[<- <-]|[_ H]];
          [split; [set_solver|repeat split]|]).
  rewrite lookup_empty in H. discriminate.
Qed.

(** X8: the registry holds the five rules and nothing else, each profile
    under its own identifier, with the rounding step 10 and the mode
    [floor]. *)
Theorem rule_profiles_registry (k : string) :
  (is_Some (RULE_PROFILES !! k) <->
   k ∈ ["law_basic"; "gw_school_cba"; "gw_institute_cba"; "gw_wage_guideline"; "custom"])
  /\ (forall p, RULE_PROFILES !! k = Some p ->
        profile_id p = k /\ rounding_step p = 10 /\ rounding_mode p = "floor").
Proof.
  split.
  - split.
    + intros [p Hp]. apply (rule_profiles_lookup k p Hp).
    + intros H. repeat (apply elem_of_cons in H; destruct H as [->|H];
                        [eexists; reflexivity|]).
      apply elem_of_nil in H. contradiction.
  - intros p Hp. apply (rule_profiles_lookup k p Hp).
Qed.

(** X9: the rule a result names is the rule asked for when it is one of the
    five registered ones, with the name the registry has for it, and the
    rule [custom] otherwise. *)
Theorem full_pipeline_rule (repr_float : float -> string) (rid : string)
    (svc wage : dict) (granted used : value) (res : PipelineResult) :
  full_pipeline repr_float rid svc wage granted used = Ok res ->
  (forall p, RULE_PROFILES !! rid = Some p ->
     rule_id (rule res) = rid /\ rule_name (rule res) = profile_name p)
  /\ (RULE_PROFILES !! rid = None ->
      rule_id (rule res) = "custom" /\ rule_name (rule res) = "커스텀").
Proof.
  intros Hres. apply full_pipeline_Ok in Hres.
  destruct Hres as (sug & diff & unused & daily & praw & dcut & pcut
                    & _ & _ & _ & _ & _ & _ & _ & ->).
  simpl. split.
  - intros p Hp. rewrite Hp. simpl. split; [|reflexivity].
    apply (rule_profiles_lookup rid p Hp).
  - intros ->. split; reflexivity.
Qed.

Lemma full_pipeline_rule_witness :
  exists res,
    full_pipeline (fun _ => "") "gw_school_cba" (service_summary 2 (VInt 90) 0)
      {[ "wage_type" := VStr "daily"; "wage_amount" := VFloat 80000 ]}
      (VFloat 15) (VFloat 3) = Ok res
    /\ rule_id (rule res) = "gw_school_cba"
    /\ rule_name (rule res) = "학교근무자 CBA (예시)".
Proof.
  destruct (full_pipeline (fun _ => "") "gw_school_cba" (service_summary 2 (VInt 90) 0)
      {[ "wage_type" := VStr "daily"; "wage_amount" := VFloat 80000 ]}
      (VFloat 15) (VFloat 3)) as [res|e] eqn:E.
  - exists res. split; [reflexivity|].
    apply (proj1 (full_pipeline_rule _ _ _ _ _ _ _ E)
             (make_profile "gw_school_cba" "학교근무자 CBA (예시)")).
    reflexivity.
  - vm_compute in E. discriminate E.
Defined.

(** ** The payout of a result *)

(** X10: the two rounded amounts of a result are what [drop_to_10won] gives
    for the raw daily wage and for the raw payout, each rounded on its own,
    and both are integers, multiples of 10. *)
Theorem full_pipeline_rounded (repr_float : float -> string) (rid : string)
    (svc wage : dict) (granted used : value) (res : PipelineResult) :
  full_pipeline repr_float rid svc wage granted used = Ok res ->
  drop_to_10won (daily_wage_raw (payout res)) = Ok (daily_wage_rounded (payout res))
  /\ drop_to_10won (payout_raw (payout res)) = Ok (payout_rounded (payout res))
  /\ exists a b, daily_wage_rounded (payout res) = VInt (10 * a)
                 /\ payout_rounded (payout res) = VInt (10 * b).
Proof.
  intros Hres. apply full_pipeline_Ok in Hres.
  destruct Hres as (sug & diff & unused & daily & praw & dcut & pcut
                    & _ & _ & _ & _ & _ & Hd & Hp & ->).
  simpl. split; [exact Hd|split; [exact Hp|]].
  rewrite drop_to_10won_eq in Hd, Hp. injection Hd as <-. injection Hp as <-.
  exists (match Py.int daily with Ok n => n / 10 | Raise _ => 0 end),
         (match Py.int praw with Ok n => n / 10 | Raise _ => 0 end).
  destruct (Py.int daily), (Py.int praw); split; f_equal; lia.
Qed.

Lemma full_pipeline_rounded_witness :
  exists res,
    full_pipeline (fun _ => "") "law_basic" (service_summary 3 (VInt 95) 0)
      {[ "wage_type" := VStr "hourly"; "wage_amount" := VFloat 10030.5 ]}
      (VFloat 15) (VFloat 12.5) = Ok res
    /\ exists a b, daily_wage_rounded (payout res) = VInt (10 * a)
                   /\ payout_rounded (payout res) = VInt (10 * b).
Proof.
  destruct (full_pipeline (fun _ => "") "law_basic" (service_summary 3 (VInt 95) 0)
      {[ "wage_type" := VStr "hourly"; "wage_amount" := VFloat 10030.5 ]}
      (VFloat 15) (VFloat 12.5)) as [res|e] eqn:E.
  - exists res. split; [reflexivity|].
    apply (full_pipeline_rounded _ _ _ _ _ _ _ E).
  - vm_compute in E. discriminate E.
Defined.

(** X11: the payout does not depend on the rule or on the service summary,
    and the suggestion does not depend on the wage or on the day counts: the
    suggested days are shown, never paid. *)
Theorem full_pipeline_independent (repr_float : float -> string) (rid rid' : string)
    (svc svc' wage wage' : dict) (granted used granted' used' : value)
    (res res1 res2 : PipelineResult) :
  full_pipeline repr_float rid svc wage granted used = Ok res ->
  full_pipeline repr_float rid' svc' wage granted used = Ok res1 ->
  full_pipeline repr_float rid svc wage' granted' used' = Ok res2 ->
  payout res1 = payout res
  /\ suggestion res2 = suggestion res /\ rule res2 = rule res.
Proof.
  intros H H1 H2. apply full_pipeline_Ok in H, H1, H2.
  destruct H as (sug & diff & unused & daily & praw & dcut & pcut
                 & Es & E1 & E2 & E3 & E4 & E5 & E6 & ->).
  destruct H1 as (sug1 & diff1 & unused1 & daily1 & praw1 & dcut1 & pcut1
                  & _ & F1 & F2 & F3 & F4 & F5 & F6 & ->).
  destruct H2 as (sug2 & diff2 & unused2 & daily2 & praw2 & dcut2 & pcut2
                  & Gs & _ & _ & _ & _ & _ & _ & ->).
  simpl. rewrite E1 in F1. injection F1 as <-.
  rewrite E2 in F2. injection F2 as <-.
  rewrite E3 in F3. injection F3 as <-.
  rewrite E4 in F4. injection F4 as <-.
  rewrite E5 in F5. injection F5 as <-.
  rewrite E6 in F6. injection F6 as <-.
  rewrite Es in Gs. injection Gs as <-.
  repeat split.
Qed.

Lemma full_pipeline_independent_witness :
  exists res res1 res2,
    full_pipeline (fun _ => "") "law_basic" (service_summary 3 (VInt 95) 0)
      {[ "wage_type" := VStr "daily"; "wage_amount" := VFloat 80000 ]}
      (VFloat 15) (VFloat 3) = Ok res
    /\ full_pipeline (fun _ => "") "custom" ∅
      {[ "wage_type" := VStr "daily"; "wage_amount" := VFloat 80000 ]}
      (VFloat 15) (VFloat 3) = Ok res1
    /\ full_pipeline (fun _ => "") "law_basic" (service_summary 3 (VInt 95) 0)
      ∅ (VFloat 1) (VFloat 2) = Ok res2
    /\ payout res1 = payout res
    /\ suggestion res2 = suggestion res /\ rule res2 = rule res.
Proof.
  destruct (full_pipeline (fun _ => "") "law_basic" (service_summary 3 (VInt 95) 0)
      {[ "wage_type" := VStr "daily"; "wage_amount" := VFloat 80000 ]}
      (VFloat 15) (VFloat 3)) as [res|e] eqn:E;
    [|vm_compute in E; discriminate E].
  destruct (full_pipeline (fun _ => "") "custom" ∅
      {[ "wage_type" := VStr "daily"; "wage_amount" := VFloat 80000 ]}
      (VFloat 15) (VFloat 3)) as [res1|e] eqn:E1;
    [|vm_compute in E1; discriminate E1].
  destruct (full_pipeline (fun _ => "") "law_basic" (service_summary 3 (VInt 95) 0)
      ∅ (VFloat 1) (VFloat 2)) as [res2|e] eqn:E2;
    [|vm_compute in E2; discriminate E2].
  exists res, res1, res2. repeat split; try reflexivity;
    apply (full_pipeline_independent _ _ _ _ _ _ _ _ _ _ _ _ _ _ E E1 E2).
Defined.

(** ** No unused days, no payout *)

Lemma float_eq_zero (x : float) :
  Py.eq (VFloat x) (VInt 0) = true -> exists s, Prim2SF x = S754_zero s.
Proof.
  unfold Py.eq, Py.compare, Py.SF_compare_Z.
  destruct (Prim2SF x) as [s|[]| |s m e]; try (simpl; discriminate).
  - intros _. exists s. reflexivity.
  - cbv zeta. intros H. exfalso.
    assert (Hn : cond_Zopp s (Z.pos m) <> 0) by (destruct s; discriminate).
    destruct (Z.leb_spec 0 e) as [He|He]; simpl in H.
    + pose proof (Z.pow_pos_nonneg 2 e ltac:(lia) He).
      destruct (Z.compare_spec (cond_Zopp s (Z.pos m) * 2 ^ e) 0); try discriminate.
      nia.
    + change (0 * 2 ^ (- e)) with 0 in H.
      destruct (Z.compare_spec (cond_Zopp s (Z.pos m)) 0);
        first [discriminate | contradiction].
Qed.

Lemma zero_mul_int (x y : float) (s : bool) :
  Prim2SF x = S754_zero s ->
  Py.int (VFloat (x * y)) = Ok 0 \/ Py.int (VFloat (x * y)) = Raise ValueError.
Proof.
  intros Hx. change (Py.int (VFloat (x * y))) with (Py.Z_of_float (x * y)).
  unfold Py.Z_of_float. rewrite FloatAxioms.mul_spec, Hx.
  destruct (Prim2SF y) as [s'|s'| |s' m e]; simpl; auto.
Qed.

Lemma drop_to_10won_zero (v : value) :
  Py.int v = Ok 0 \/ (exists e, Py.int v = Raise e) -> drop_to_10won v = Ok (VInt 0).
Proof.
  intros H. rewrite drop_to_10won_eq. destruct H as [->|[e ->]]; reflexivity.
Qed.

(** X12: when the unused days of a result are zero, the rounded payout is 0,
    whatever the daily wage is. *)
Theorem full_pipeline_nothing_unused (repr_float : float -> string) (rid : string)
    (svc wage : dict) (granted used : value) (res : PipelineResult) :
  full_pipeline repr_float rid svc wage granted used = Ok res ->
  Py.eq (unused_days (payout res)) (VInt 0) = true ->
  payout_rounded (payout res) = VInt 0.
Proof.
  intros Hres. apply full_pipeline_Ok in Hres.
  destruct Hres as (sug & diff & unused & daily & praw & dcut & pcut
                    & _ & _ & _ & _ & Hmul & _ & Hp & ->).
  simpl. intros H0.
  enough (E : drop_to_10won praw = Ok (VInt 0)) by congruence.
  apply drop_to_10won_zero. clear Hp.
  destruct unused as [|z|x|s]; try discriminate H0.
  - assert (z = 0) as ->.
    { unfold Py.eq, Py.compare in H0. simpl in H0.
      destruct (Z.compare_spec z 0); first [assumption | discriminate]. }
    destruct daily as [|d|f|s]; try discriminate Hmul.
    + injection Hmul as <-. left. reflexivity.
    + change (Py.mul (VInt 0) (VFloat f)) with (Ok (VFloat (0 * f)%float)) in Hmul.
      injection Hmul as <-.
      destruct (zero_mul_int 0 f false eq_refl) as [->| ->]; eauto.
    + injection Hmul as <-. right. eexists. reflexivity.
  - destruct (float_eq_zero x H0) as (s & Hx).
    destruct daily as [|d|f|s']; try discriminate Hmul.
    + unfold Py.mul in Hmul. simpl in Hmul.
      destruct (Py.float_of_Z d) as [d'|e]; try discriminate Hmul.
      injection Hmul as <-.
      destruct (zero_mul_int x d' s Hx) as [->| ->]; eauto.
    + change (Py.mul (VFloat x) (VFloat f)) with (Ok (VFloat (x * f)%float)) in Hmul.
      injection Hmul as <-.
      destruct (zero_mul_int x f s Hx) as [->| ->]; eauto.
Qed.

Lemma full_pipeline_nothing_unused_witness :
  exists res,
    full_pipeline (fun _ => "") "law_basic" (service_summary 3 (VInt 95) 0)
      {[ "wage_type" := VStr "daily"; "wage_amount" := VFloat 80000 ]}
      (VInt 15) (VFloat 15.5) = Ok res
    /\ payout_rounded (payout res) = VInt 0.
Proof.
  destruct (full_pipeline (fun _ => "") "law_basic" (service_summary 3 (VInt 95) 0)
      {[ "wage_type" := VStr "daily"; "wage_amount" := VFloat 80000 ]}
      (VInt 15) (VFloat 15.5)) as [res|e] eqn:E.
  - exists res. split; [reflexivity|].
    pose proof (full_pipeline_nothing_unused _ _ _ _ _ _ _ E) as H.
    vm_compute in E. injection E as <-. apply H. reflexivity.
  - vm_compute in E. discriminate E.
Defined.

(** ** The four rules with a formula *)

(** The rules for which [suggest_annual_days] computes a number. *)
Definition formula_rules : list string :=
  ["law_basic"; "gw_school_cba"; "gw_institute_cba"; "gw_wage_guideline"].

Ltac each_formula_rule H :=
  unfold formula_rules in H;
  repeat (apply elem_of_cons in H; destruct H as [->|H]);
  [ .. | apply elem_of_nil in H; contradiction ].

(** X13: below one full year the four rules agree: the suggestion is
    [min(full_months, 11)], whatever the attendance rate is, as long as
    [full_months], which the description prints, is not an integer of more
    than 4300 digits; a summary without [full_years] counts as below one
    year, and one without [full_months] either gets 0 days. *)
Theorem suggest_annual_days_first_year (repr_float : float -> string) (rid : string)
    (svc : dict) :
  rid ∈ formula_rules ->
  (forall days,
      Py.lt (Py.get svc "full_years" (VInt 0)) (VInt 1) = Ok true ->
      Py.min (Py.get svc "full_months" (VInt 0)) (VInt 11) = Ok days ->
      printable (Py.get svc "full_months" (VInt 0)) ->
      suggested_days <$> suggest_annual_days repr_float rid svc = Ok days)
  /\ (svc !! "full_years" = None -> svc !! "full_months" = None ->
      suggested_days <$> suggest_annual_days repr_float rid svc = Ok (VInt 0)).
Proof.
  intros Hrid.
  assert (H : forall days,
      Py.lt (Py.get svc "full_years" (VInt 0)) (VInt 1) = Ok true ->
      Py.min (Py.get svc "full_months" (VInt 0)) (VInt 11) = Ok days ->
      printable (Py.get svc "full_months" (VInt 0)) ->
      suggested_days <$> suggest_annual_days repr_float rid svc = Ok days).
  { intros days Hfy Hfm Hp.
    assert (Hpd : printable days).
    { destruct (min_either _ _ _ Hfm) as [-> | ->]; [exact Hp|].
      simpl. pose proof str_limit_above. lia. }
    destruct (str_printable repr_float _ Hp) as [s1 Hs1].
    destruct (str_printable repr_float _ Hpd) as [s2 Hs2].
    each_formula_rule Hrid;
      unfold suggest_annual_days; simpl String.eqb; cbv iota zeta;
      rewrite Hfy, bind_Ok_l, Hfm, bind_Ok_l, Hs1, bind_Ok_l, Hs2, bind_Ok_l;
      reflexivity. }
  split; [exact H|].
  intros Hy Hm. apply H; unfold Py.get; rewrite ?Hy, ?Hm; try reflexivity.
Qed.

Lemma suggest_annual_days_first_year_witness :
  suggested_days <$> suggest_annual_days (fun _ => "") "gw_institute_cba"
                       {[ "full_years" := VFloat 0.5; "full_months" := VInt 14 ]}
  = Ok (VInt 11).
Proof.
  apply (proj1 (suggest_annual_days_first_year (fun _ => "") "gw_institute_cba"
                  {[ "full_years" := VFloat 0.5; "full_months" := VInt 14 ]}
                  ltac:(set_solver))); reflexivity.
Defined.

(** X14: from one full year on, the two collective agreements give a fixed
    number of days, 26 for the school staff and 25 for the institute staff,
    when the attendance rate is at least 80, and [full_months] itself when it
    is not, as long as what the description prints, the rate and in the
    second case [full_months], is not an integer of more than 4300 digits. *)
Theorem suggest_annual_days_cba (repr_float : float -> string) (svc : dict) :
  Py.lt (Py.get svc "full_years" (VInt 0)) (VInt 1) = Ok false ->
  printable (Py.get svc "attendance_rate" (VInt 0)) ->
  (Py.ge (Py.get svc "attendance_rate" (VInt 0)) (VInt 80) = Ok true ->
   suggested_days <$> suggest_annual_days repr_float "gw_school_cba" svc = Ok (VInt 26)
   /\ suggested_days <$> suggest_annual_days repr_float "gw_institute_cba" svc
      = Ok (VInt 25))
  /\ (Py.ge (Py.get svc "attendance_rate" (VInt 0)) (VInt 80) = Ok false ->
      printable (Py.get svc "full_months" (VInt 0)) ->
      suggested_days <$> suggest_annual_days repr_float "gw_school_cba" svc
      = Ok (Py.get svc "full_months" (VInt 0))
      /\ suggested_days <$> suggest_annual_days repr_float "gw_institute_cba" svc
         = Ok (Py.get svc "full_months" (VInt 0))).
Proof.
  intros Hfy Hp. destruct (str_printable repr_float _ Hp) as [s1 Hs1].
  split.
  - intros Hrate; split;
      unfold suggest_annual_days; simpl String.eqb; cbv iota zeta;
      rewrite Hfy, bind_Ok_l, Hrate, bind_Ok_l, Hs1, bind_Ok_l, str_small, bind_Ok_l
        by lia; reflexivity.
  - intros Hrate Hpm. destruct (str_printable repr_float _ Hpm) as [s2 Hs2]. split;
      unfold suggest_annual_days; simpl String.eqb; cbv iota zeta;
      rewrite Hfy, bind_Ok_l, Hrate, bind_Ok_l, Hs1, bind_Ok_l, Hs2, bind_Ok_l;
      reflexivity.
Qed.

Lemma suggest_annual_days_cba_witness :
  suggested_days <$> suggest_annual_days (fun _ => "") "gw_school_cba"
                       (service_summary 4 (VFloat 79.5) 7)
  = Ok (VInt 7).
Proof.
  apply (proj2 (suggest_annual_days_cba (fun _ => "") (service_summary 4 (VFloat 79.5) 7)
                  eq_refl I)); reflexivity.
Defined.

(** X15: the wage guideline rule never reads the attendance rate: changing
    it leaves the outcome as it is, be it the suggestion with its description
    or an exception; from one full year on the rule gives 26 days, as long as
    [full_years], which the description prints, is not an integer of more
    than 4300 digits. *)
Theorem suggest_annual_days_guideline (repr_float : float -> string) (svc : dict)
    (rate : value) :
  suggest_annual_days repr_float "gw_wage_guideline" (<["attendance_rate" := rate]> svc)
  = suggest_annual_days repr_float "gw_wage_guideline" svc
  /\ (Py.lt (Py.get svc "full_years" (VInt 0)) (VInt 1) = Ok false ->
      printable (Py.get svc "full_years" (VInt 0)) ->
      suggested_days <$> suggest_annual_days repr_float "gw_wage_guideline" svc
      = Ok (VInt 26)).
Proof.
  split.
  - unfold suggest_annual_days, Py.get. simpl String.eqb. cbv iota zeta.
    rewrite !lookup_insert_ne by discriminate. reflexivity.
  - intros Hfy Hp. destruct (str_printable repr_float _ Hp) as [s1 Hs1].
    unfold suggest_annual_days. simpl String.eqb. cbv iota zeta.
    rewrite Hfy, bind_Ok_l, Hs1, bind_Ok_l, str_small, bind_Ok_l by lia. reflexivity.
Qed.

Lemma suggest_annual_days_guideline_witness :
  suggested_days <$> suggest_annual_days (fun _ => "") "gw_wage_guideline"
                       (service_summary 2 (VInt 50) 3)
  = Ok (VInt 26).
Proof.
  apply (proj2 (suggest_annual_days_guideline (fun _ => "")
                  (service_summary 2 (VInt 50) 3) VNone)); [reflexivity|].
  vm_compute. reflexivity.
Defined.

(** [full_years] is not a number. *)
Definition not_a_number (v : value) : Prop :=
  match v with
  | VNone | VStr _ => True
  | _ => False
  end.

(** X16: with a [full_years] that is not a number ([None] or a string) the
    four rules with a formula raise [TypeError]: the comparison with 1 is
    not guarded. *)
Theorem suggest_annual_days_type_error (repr_float : float -> string) (rid : string)
    (svc : dict) :
  rid ∈ formula_rules ->
  not_a_number (Py.get svc "full_years" (VInt 0)) ->
  suggest_annual_days repr_float rid svc = Raise TypeError.
Proof.
  intros Hrid Hfy. each_formula_rule Hrid;
    unfold suggest_annual_days; simpl String.eqb; cbv iota zeta;
    destruct (Py.get svc "full_years" (VInt 0)); try contradiction; reflexivity.
Qed.

Lemma suggest_annual_days_type_error_witness :
  suggest_annual_days (fun _ => "") "law_basic" {[ "full_years" := VStr "3" ]}
  = Raise TypeError.
Proof.
  apply suggest_annual_days_type_error; [set_solver|exact I].
Defined.

Lemma law_basic_senior (repr_float : float -> string) (svc : dict) (fy : Z) :
  Py.get svc "full_years" (VInt 0) = VInt fy -> 1 <= fy < Py.str_limit ->
  Py.lt (Py.get svc "attendance_rate" (VInt 0)) (VInt 80) = Ok false ->
  suggested_days <$> suggest_annual_days repr_float "law_basic" svc
  = Ok (VInt (15 + clamp ((fy - 1) / 2) 0 10)).
Proof.
  intros Hfy H1 Hrate. unfold suggest_annual_days. simpl String.eqb. cbv iota zeta.
  rewrite Hfy, lt_int, bind_Ok_l.
  destruct (Z.ltb_spec fy 1); [lia|].
  rewrite Hrate, bind_Ok_l, sub_int, bind_Ok_l, floordiv_int, bind_Ok_l by lia.
  rewrite min_int, bind_Ok_l, max_int, bind_Ok_l, add_int, bind_Ok_l.
  rewrite (str_int _ fy), bind_Ok_l, !str_small, !bind_Ok_l by lia.
  reflexivity.
Qed.

(** X17: under the rule [law_basic], from one full year on and with an
    attendance rate not below 80, the suggestion lies between 15 and 25 days,
    never falls when the years grow, and stays at 25 from 21 years on, for
    years of at most 4300 digits, which the description prints. *)
Theorem law_basic_seniority (repr_float : float -> string) (svc svc' : dict)
    (fy fy' : Z) :
  Py.get svc "full_years" (VInt 0) = VInt fy ->
  Py.get svc' "full_years" (VInt 0) = VInt fy' ->
  Py.lt (Py.get svc "attendance_rate" (VInt 0)) (VInt 80) = Ok false ->
  Py.lt (Py.get svc' "attendance_rate" (VInt 0)) (VInt 80) = Ok false ->
  1 <= fy <= fy' -> fy' < Py.str_limit ->
  exists d d',
    suggested_days <$> suggest_annual_days repr_float "law_basic" svc = Ok (VInt d)
    /\ suggested_days <$> suggest_annual_days repr_float "law_basic" svc' = Ok (VInt d')
    /\ 15 <= d <= d' /\ d' <= 25
    /\ (21 <= fy -> d = 25).
Proof.
  intros Hfy Hfy' Hrate Hrate' Hle Hlim.
  exists (15 + clamp ((fy - 1) / 2) 0 10), (15 + clamp ((fy' - 1) / 2) 0 10).
  split; [apply law_basic_senior; [assumption|lia|assumption]|].
  split; [apply law_basic_senior; [assumption|lia|assumption]|].
  unfold clamp.
  pose proof (Z.div_le_mono (fy - 1) (fy' - 1) 2 ltac:(lia) ltac:(lia)).
  repeat split; try lia.
  intros H21. pose proof (Z.div_le_mono 20 (fy - 1) 2 ltac:(lia) ltac:(lia)).
  change (20 / 2) with 10 in *. lia.
Qed.

Lemma law_basic_seniority_witness :
  exists d d',
    suggested_days <$> suggest_annual_days (fun _ => "") "law_basic"
                         (service_summary 5 (VInt 80) 0) = Ok (VInt d)
    /\ suggested_days <$> suggest_annual_days (fun _ => "") "law_basic"
                            (service_summary 30 (VFloat 99.5) 0) = Ok (VInt d')
    /\ 15 <= d <= d' /\ d' <= 25.
Proof.
  destruct (law_basic_seniority (fun _ => "") (service_summary 5 (VInt 80) 0)
              (service_summary 30 (VFloat 99.5) 0) 5 30
              eq_refl eq_refl eq_refl eq_refl ltac:(lia) eq_refl)
    as (d & d' & H1 & H2 & H3 & H4 & _).
  exists d, d'. auto.
Defined.

(** ** Splitting a text at a marker *)

Lemma append_cons (x : ascii) (a b : string) : String x a ++ b = String x (a ++ b).
Proof. reflexivity. Qed.

Lemma append_assoc (a b c : string) : (a ++ b) ++ c = a ++ (b ++ c).
Proof.
  induction a as [|x a IH]; [reflexivity|].
  rewrite !append_cons, IH. reflexivity.
Qed.

Lemma append_nil_r (a : string) : a ++ "" = a.
Proof.
  induction a as [|x a IH]; [reflexivity|].
  rewrite append_cons, IH. reflexivity.
Qed.

Lemma prefix_append (sep s : string) : String.prefix sep (sep ++ s) = true.
Proof.
  induction sep as [|c sep IH]; simpl; [destruct s; reflexivity|].
  destruct (ascii_dec c c); [exact IH|contradiction].
Qed.

Lemma prefix_other (c0 x : ascii) (sep' s : string) :
  Ascii.eqb x c0 = false -> String.prefix (String c0 sep') (String x s) = false.
Proof.
  intros H. simpl. destruct (ascii_dec c0 x) as [->|_]; [|reflexivity].
  rewrite Ascii.eqb_refl in H. discriminate.
Qed.

(** The bytes of a matched separator are passed over. *)
Lemma split_from_skip (sep u piece s : string) :
  Py.split_from sep (String.length u) piece (u ++ s) = Py.split_from sep 0 piece s.
Proof.
  induction u as [|c u IH]; simpl; [destruct s; reflexivity|exact IH].
Qed.

Lemma split_from_sep (c0 : ascii) (sep' piece s : string) :
  Py.split_from (String c0 sep') 0 piece (String c0 sep' ++ s)
  = piece :: Py.split_from (String c0 sep') 0 "" s.
Proof.
  change (String c0 sep' ++ s) with (String c0 (sep' ++ s)).
  cbn [Py.split_from].
  change (String c0 (sep' ++ s)) with (String c0 sep' ++ s).
  rewrite prefix_append. f_equal.
  cbn [String.length]. rewrite Nat.sub_succ, Nat.sub_0_r. apply split_from_skip.
Qed.

(** A text without the first byte of the separator goes to the piece. *)
Lemma split_from_pass (c0 : ascii) (sep' a piece s : string) :
  occurs c0 a = false ->
  Py.split_from (String c0 sep') 0 piece (a ++ s)
  = Py.split_from (String c0 sep') 0 (piece ++ a) s.
Proof.
  revert piece. induction a as [|x a IH]; intros piece H.
  - rewrite append_nil_r. reflexivity.
  - simpl in H. apply orb_false_elim in H. destruct H as [Hx Ha].
    change (String x a ++ s) with (String x (a ++ s)). cbn [Py.split_from].
    rewrite (prefix_other c0 x sep' _ Hx), (IH _ Ha), append_assoc. reflexivity.
Qed.

Lemma contains_pass (c0 : ascii) (sep' a s : string) :
  occurs c0 a = false ->
  Py.contains (String c0 sep') (a ++ s) = Py.contains (String c0 sep') s.
Proof.
  induction a as [|x a IH]; intros H; [reflexivity|].
  simpl in H. apply orb_false_elim in H. destruct H as [Hx Ha].
  change (String x a ++ s) with (String x (a ++ s)). cbn [Py.contains].
  rewrite (prefix_other c0 x sep' _ Hx), (IH Ha). reflexivity.
Qed.

Lemma contains_sep (sep s : string) : Py.contains sep (sep ++ s) = true.
Proof.
  destruct sep as [|c sep]; [destruct s; reflexivity|].
  change (String c sep ++ s) with (String c (sep ++ s)). cbn [Py.contains].
  change (String c (sep ++ s)) with (String c sep ++ s).
  rewrite prefix_append. reflexivity.
Qed.

(** A text without the separator is one piece. *)
Lemma split_from_none (sep piece s : string) :
  Py.contains sep s = false -> Py.split_from sep 0 piece s = [piece ++ s].
Proof.
  revert piece. induction s as [|c s IH]; intros piece H.
  - rewrite append_nil_r. reflexivity.
  - cbn [Py.contains] in H. apply orb_false_elim in H. destruct H as [Hp Hs].
    cbn [Py.split_from]. rewrite Hp, (IH _ Hs), append_assoc. reflexivity.
Qed.

(** The pieces of [p ++ sep ++ rest] when [p] has nothing of the separator
    and [rest] does not hold it. *)
Lemma split_at_marker (c0 : ascii) (sep' p rest : string) :
  occurs c0 p = false -> Py.contains (String c0 sep') rest = false ->
  Py.split (p ++ String c0 sep' ++ rest) (String c0 sep') = [p; rest].
Proof.
  intros Hp Hrest. unfold Py.split.
  rewrite (split_from_pass c0 sep' p "" _ Hp), split_from_sep.
  rewrite (split_from_none _ "" rest Hrest). reflexivity.
Qed.

Lemma split_head (c0 : ascii) (sep' p rest : string) :
  occurs c0 p = false ->
  Py.item (Py.split (p ++ String c0 sep' ++ rest) (String c0 sep')) 0 = Ok p.
Proof.
  intros Hp. unfold Py.split.
  rewrite (split_from_pass c0 sep' p "" _ Hp), split_from_sep. reflexivity.
Qed.

Lemma contains_at_marker (c0 : ascii) (sep' p rest : string) :
  occurs c0 p = false ->
  Py.contains (String c0 sep') (p ++ String c0 sep' ++ rest) = true.
Proof. intros Hp. rewrite (contains_pass c0 sep' p _ Hp). apply contains_sep. Qed.

(** ** A text with a marker is not a number *)

(** The first byte of a marker: [236] starts ["일"] and ["시간"], [235] starts
    ["분"]. *)
Definition marker_byte (c : ascii) : Prop := c = "236"%char \/ c = "235"%char.

Lemma space_prefix_marker_1 (c : ascii) (sep : bool) (r1 : string) :
  marker_byte c -> Py.space_prefix sep (String c r1) = None.
Proof.
  intros [-> | ->]; destruct sep, r1 as [|c2 [|c3 r3]]; reflexivity.
Qed.

Lemma space_prefix_marker_2 (c c1 : ascii) (sep : bool) (r2 r : string) :
  marker_byte c ->
  Py.space_prefix sep (String c1 (String c r2)) = Some r -> r = String c r2.
Proof.
  intros Hc. unfold Py.space_prefix. cbv zeta. generalize (Py.byte_of c1) as z.
  intros z.
  match goal with |- (if ?b then _ else _) = _ -> _ => destruct b end;
    [intros [= <-]; reflexivity|].
  destruct Hc as [-> | ->];
    destruct (z =? 194), (z =? 225), (z =? 226), (z =? 227), r2 as [|c3 r3];
    simpl; discriminate.
Qed.

Lemma space_prefix_marker_3 (c c1 c2 : ascii) (sep : bool) (r3 r : string) :
  marker_byte c ->
  Py.space_prefix sep (String c1 (String c2 (String c r3))) = Some r ->
  occurs c r = true.
Proof.
  intros Hc. unfold Py.space_prefix. cbv zeta.
  generalize (Py.byte_of c1) as z1. generalize (Py.byte_of c2) as z2. intros z2 z1.
  match goal with |- (if ?b then _ else _) = _ -> _ => destruct b end;
    [intros [= <-]; simpl; rewrite Ascii.eqb_refl, !orb_true_r; reflexivity|].
  match goal with |- (if ?b then _ else _) = _ -> _ => destruct b end;
    [intros [= <-]; simpl; rewrite Ascii.eqb_refl; reflexivity|].
  destruct Hc as [-> | ->];
    destruct (z1 =? 225), (z2 =? 154), (z1 =? 226), (z2 =? 128), (z2 =? 129),
      (z1 =? 227); simpl; discriminate.
Qed.

Lemma space_prefix_tail (c c1 c2 c3 : ascii) (sep : bool) (r3 r : string) :
  Py.space_prefix sep (String c1 (String c2 (String c3 r3))) = Some r ->
  occurs c r3 = true -> occurs c r = true.
Proof.
  unfold Py.space_prefix. cbv zeta. intros E H.
  repeat match type of E with
    | (if ?b then _ else _) = _ => destruct b
    end;
    try discriminate E; injection E as <-; simpl; rewrite H, ?orb_true_r; reflexivity.
Qed.

Lemma space_prefix_keeps (c : ascii) (sep : bool) (s r : string) :
  marker_byte c ->
  Py.space_prefix sep s = Some r -> occurs c s = true -> occurs c r = true.
Proof.
  intros Hc E H.
  destruct s as [|c1 r1]; [discriminate H|]. simpl in H.
  destruct (Ascii.eqb_spec c1 c) as [->|_].
  { rewrite (space_prefix_marker_1 c sep r1 Hc) in E. discriminate E. }
  destruct r1 as [|c2 r2]; [discriminate H|]. simpl in H.
  destruct (Ascii.eqb_spec c2 c) as [->|_].
  { rewrite (space_prefix_marker_2 c c1 sep r2 r Hc E). simpl.
    rewrite Ascii.eqb_refl. reflexivity. }
  destruct r2 as [|c3 r3]; [discriminate H|]. simpl in H.
  destruct (Ascii.eqb_spec c3 c) as [->|_].
  { apply (space_prefix_marker_3 c c1 c2 sep r3 r Hc E). }
  apply (space_prefix_tail c c1 c2 c3 sep r3 r E H).
Qed.

Lemma lstrip_fuel_keeps (c : ascii) (sep : bool) (n : nat) (s : string) :
  marker_byte c -> occurs c s = true -> occurs c (Py.lstrip_fuel sep n s) = true.
Proof.
  intros Hc. revert s. induction n as [|n IH]; intros s H; simpl; [exact H|].
  destruct (Py.space_prefix sep s) as [r|] eqn:E; [|exact H].
  apply IH, (space_prefix_keeps c sep s r Hc E H).
Qed.

Lemma occurs_not_empty (c : ascii) (s : string) :
  occurs c s = true -> String.eqb s "" = false.
Proof. destruct s; [discriminate|reflexivity]. Qed.

Lemma rstrip_keeps (c : ascii) (sep : bool) (s : string) :
  marker_byte c -> occurs c s = true -> occurs c (Py.rstrip sep s) = true.
Proof.
  intros Hc. induction s as [|a s IH]; intros H; [discriminate H|].
  cbn [Py.rstrip].
  rewrite (occurs_not_empty c (Py.lstrip sep (String a s)))
    by (apply lstrip_fuel_keeps; assumption).
  simpl in *. destruct (Ascii.eqb a c); [reflexivity|]. apply IH, H.
Qed.

Lemma remove_underscores_keeps (c : ascii) (s u : string) (prev : option ascii) :
  marker_byte c ->
  Py.remove_underscores prev s = Some u -> occurs c s = true -> occurs c u = true.
Proof.
  intros Hc. revert prev u. induction s as [|a s IH]; intros prev u; simpl.
  - intros _ H. discriminate H.
  - assert (Hkeep : String a <$> Py.remove_underscores (Some a) s = Some u ->
                    Ascii.eqb a c || occurs c s = true -> occurs c u = true).
    { destruct (Py.remove_underscores (Some a) s) as [u'|] eqn:E; [|discriminate].
      intros [= <-] H. simpl. destruct (Ascii.eqb a c); [reflexivity|].
      apply (IH _ _ E H). }
    destruct (Ascii.eqb_spec a "_") as [->|_].
    + assert (Ascii.eqb "_" c = false) as -> by (destruct Hc as [-> | ->]; reflexivity).
      destruct prev as [p|]; [|discriminate].
      destruct (Py.is_digit p); [|discriminate].
      intros E H. apply (IH _ _ E H).
    + destruct prev as [p|]; [|exact Hkeep].
      destruct p as [[] [] [] [] [] [] [] []]; try exact Hkeep.
      destruct (Py.is_digit a); [exact Hkeep|discriminate].
Qed.

Lemma parse_sign_keeps (c : ascii) (u r : string) (neg : bool) :
  marker_byte c ->
  Py.parse_sign u = (neg, r) -> occurs c u = true -> occurs c r = true.
Proof.
  intros Hc. unfold Py.parse_sign. destruct u as [|a u]; [intros _ H; discriminate H|].
  destruct Hc as [-> | ->]; destruct a as [[] [] [] [] [] [] [] []];
    intros [= _ <-] H; exact H.
Qed.

Lemma lower_marker (c : ascii) : marker_byte c -> Py.lower c = c.
Proof. intros [-> | ->]; reflexivity. Qed.

Lemma lower_str_keeps (c : ascii) (r : string) :
  marker_byte c -> occurs c r = true -> occurs c (Py.lower_str r) = true.
Proof.
  intros Hc. induction r as [|a r IH]; simpl; [auto|].
  destruct (Ascii.eqb_spec a c) as [->|_].
  - rewrite (lower_marker c Hc), Ascii.eqb_refl. reflexivity.
  - intros H. rewrite (IH H). apply orb_true_r.
Qed.

Lemma is_digit_marker (c : ascii) : marker_byte c -> Py.is_digit c = false.
Proof. intros [-> | ->]; reflexivity. Qed.

Lemma take_digits_keeps (c : ascii) (s rest : string) (acc v : Z) (cnt n : nat) :
  marker_byte c ->
  Py.take_digits s acc cnt = (v, n, rest) -> occurs c s = true -> occurs c rest = true.
Proof.
  intros Hc. revert acc cnt. induction s as [|a s IH]; intros acc cnt; simpl.
  - intros _ H. discriminate H.
  - destruct (Py.is_digit a) eqn:Ea; [|intros [= _ _ <-] H; exact H].
    intros E H. destruct (Ascii.eqb_spec a c) as [->|_].
    + rewrite (is_digit_marker c Hc) in Ea. discriminate Ea.
    + apply (IH _ _ E H).
Qed.

Lemma parse_exponent_marker (c : ascii) (s : string) :
  marker_byte c -> occurs c s = true -> Py.parse_exponent s = None.
Proof.
  intros Hc. unfold Py.parse_exponent. destruct s as [|x r0]; [discriminate|].
  simpl. destruct (Ascii.eqb_spec (Py.lower x) "e") as [Hx|_]; [|reflexivity].
  destruct (Ascii.eqb_spec x c) as [->|_].
  { rewrite (lower_marker c Hc) in Hx. destruct Hc as [-> | ->]; discriminate Hx. }
  simpl. intros H.
  destruct (Py.parse_sign r0) as [neg r1] eqn:Es.
  destruct (Py.take_digits r1 0 0) as [[v n] rest] eqn:Et.
  pose proof (take_digits_keeps c _ _ _ _ _ _ Hc Et
                (parse_sign_keeps c _ _ _ Hc Es H)) as Hrest.
  rewrite (occurs_not_empty c rest Hrest), andb_false_r. reflexivity.
Qed.

Lemma parse_decimal_marker (c : ascii) (s : string) :
  marker_byte c -> occurs c s = true -> Py.parse_decimal s = None.
Proof.
  intros Hc H. unfold Py.parse_decimal.
  destruct (Py.take_digits s 0 0) as [[i ni] r] eqn:Ei.
  pose proof (take_digits_keeps c _ _ _ _ _ _ Hc Ei H) as Hr.
  assert (Hm : forall m nf r',
             match r with
             | String "." r1 => Py.take_digits r1 i 0
             | _ => (i, O, r)
             end = (m, nf, r') -> occurs c r' = true).
  { intros m nf r'. destruct r as [|a r1]; [discriminate Hr|].
    assert (Hdot : Py.take_digits r1 i 0 = (m, nf, r') -> a = "."%char ->
                   occurs c r' = true).
    { intros E ->. apply (take_digits_keeps c _ _ _ _ _ _ Hc E).
      destruct Hc as [-> | ->]; exact Hr. }
    destruct a as [[] [] [] [] [] [] [] []];
      first [intros [= _ _ <-]; exact Hr | intros E; apply (Hdot E); reflexivity]. }
  destruct (match r with String "." r1 => _ | _ => _ end) as [[m nf] r'].
  rewrite (parse_exponent_marker c r' Hc (Hm _ _ _ eq_refl)).
  destruct (ni + nf =? 0)%nat; reflexivity.
Qed.

(** [float] refuses a text that holds a marker. *)
Lemma float_of_string_marker (c : ascii) (s : string) :
  marker_byte c -> occurs c s = true -> Py.float_of_string s = Raise ValueError.
Proof.
  intros Hc H. unfold Py.float_of_string.
  destruct (Py.remove_underscores None _) as [u|] eqn:Eu; [|reflexivity].
  assert (Hu : occurs c u = true).
  { apply (remove_underscores_keeps c _ u None Hc Eu).
    apply rstrip_keeps, lstrip_fuel_keeps; assumption. }
  destruct (Py.parse_sign u) as [neg r] eqn:Es.
  pose proof (parse_sign_keeps c u r neg Hc Es Hu) as Hr.
  pose proof (lower_str_keeps c r Hc Hr) as Hl.
  assert (Hne : forall t, occurs c t = false -> String.eqb (Py.lower_str r) t = false).
  { intros t Ht. destruct (String.eqb_spec (Py.lower_str r) t) as [E|_]; [|reflexivity].
    rewrite E in Hl. congruence. }
  rewrite !Hne by (destruct Hc as [-> | ->]; reflexivity).
  simpl. rewrite (parse_decimal_marker c r Hc Hr). reflexivity.
Qed.

(** ** The blocks of the parser *)

(** A text that holds neither of the two bytes a marker starts with; a text
    of ASCII characters is one. *)
Definition plain (p : string) : Prop :=
  occurs "236" p = false /\ occurs "235" p = false.

Lemma il_eq : "일" = String "236" (String "157" (String "188" "")).
Proof. reflexivity. Qed.

Lemma after_block_miss (marker : string) (set : value -> locals -> locals)
    (rest : bool) (l : locals) :
  Py.contains marker (txt l) = false -> after_block marker set rest l = l.
Proof. intros H. unfold after_block. rewrite H. reflexivity. Qed.

Lemma after_block_hit (c0 : ascii) (sep' : string) (set : value -> locals -> locals)
    (l : locals) (p t : string) (x : float) :
  txt l = p ++ String c0 sep' ++ t ->
  occurs c0 p = false -> Py.contains (String c0 sep') t = false ->
  Py.float (VStr p) = Ok x ->
  after_block (String c0 sep') set true l = set_txt t (set (VFloat x) l).
Proof.
  intros Ht Hp Hrest Hx. unfold after_block.
  rewrite Ht, (contains_at_marker c0 sep' p t Hp), (split_at_marker c0 sep' p t Hp Hrest).
  change (Py.item [p; t] 0) with (Ok p). change (Py.item [p; t] 1) with (Ok t).
  cbv iota beta. rewrite Hx. reflexivity.
Qed.

Lemma after_block_last (c0 : ascii) (sep' : string) (set : value -> locals -> locals)
    (l : locals) (p t : string) (x : float) :
  txt l = p ++ String c0 sep' ++ t ->
  occurs c0 p = false -> Py.float (VStr p) = Ok x ->
  after_block (String c0 sep') set false l = set (VFloat x) l.
Proof.
  intros Ht Hp Hx. unfold after_block.
  rewrite Ht, (contains_at_marker c0 sep' p t Hp), (split_head c0 sep' p t Hp).
  cbv iota beta. rewrite Hx. reflexivity.
Qed.

Lemma after_block_fail (marker : string) (set : value -> locals -> locals)
    (rest : bool) (l : locals) (p : string) (e : exn) :
  Py.item (Py.split (txt l) marker) 0 = Ok p ->
  Py.float (VStr p) = Raise e ->
  after_block marker set rest l = l.
Proof.
  intros Hp He. unfold after_block. rewrite Hp. cbv iota beta. rewrite He.
  destruct (Py.contains marker (txt l)); reflexivity.
Qed.

Lemma after_bare_number_marker (self : NiceRecord) (l : locals) (c : ascii) :
  marker_byte c -> occurs c (duration_raw self) = true ->
  after_bare_number self l = l.
Proof.
  intros Hc H. unfold after_bare_number.
  change (Py.float (VStr (duration_raw self)))
    with (Py.float_of_string (duration_raw self)).
  rewrite (float_of_string_marker c _ Hc H).
  destruct (_ && _); reflexivity.
Qed.

(** One marker inside the text read for another. *)
Lemma il_pass_sigan (s : string) : Py.contains "일" ("시간" ++ s) = Py.contains "일" s.
Proof. reflexivity. Qed.

Lemma il_pass_bun (s : string) : Py.contains "일" ("분" ++ s) = Py.contains "일" s.
Proof. reflexivity. Qed.

Lemma sigan_pass_bun (s : string) : Py.contains "시간" ("분" ++ s) = Py.contains "시간" s.
Proof. reflexivity. Qed.

Lemma sigan_pass_il (s : string) : Py.contains "시간" ("일" ++ s) = Py.contains "시간" s.
Proof. reflexivity. Qed.

Lemma split_sigan_pass_il (piece s : string) :
  Py.split_from "시간" 0 piece ("일" ++ s) = Py.split_from "시간" 0 (piece ++ "일") s.
Proof.
  change ("일" ++ s) with (String "236" (String "157" (String "188" s))).
  cbn [Py.split_from]. simpl String.prefix. cbv iota.
  rewrite !append_assoc. reflexivity.
Qed.

(** ** Durations in the written form *)

(** A part of a duration text: a piece followed by its marker, or nothing. *)
Definition part (o : option string) (marker : string) : string :=
  match o with
  | Some p => p ++ marker
  | None => ""
  end.

(** What the parser keeps for a piece: the float it reads as, or the 0 it
    started with. *)
Definition component (o : option string) : value :=
  match o with
  | Some p =>
      match Py.float (VStr p) with
      | Ok x => VFloat x
      | Raise _ => VInt 0
      end
  | None => VInt 0
  end.

(** The piece, if there is one, is plain and reads as a float. *)
Definition readable (o : option string) : Prop :=
  match o with
  | Some p => plain p /\ returns (Py.float (VStr p))
  | None => True
  end.

(** The piece, if there is one, is plain. *)
Definition plain_piece (o : option string) : Prop :=
  match o with
  | Some p => plain p
  | None => True
  end.

Lemma readable_plain (o : option string) : readable o -> plain_piece o.
Proof. destruct o; simpl; tauto. Qed.

Lemma plain_marker (c : ascii) (p : string) :
  marker_byte c -> plain p -> occurs c p = false.
Proof. intros [-> | ->] [H1 H2]; assumption. Qed.

Lemma append_nil_l (s : string) : "" ++ s = s.
Proof. reflexivity. Qed.

Lemma contains_il_rest (oh om : option string) :
  plain_piece oh -> plain_piece om ->
  Py.contains "일" (part oh "시간" ++ part om "분") = false.
Proof.
  destruct oh as [h|], om as [m|]; cbn [part plain_piece]; intros Hh Hm;
    rewrite ?append_assoc, ?append_nil_l;
    repeat first [ rewrite (contains_pass "236" _ h) by apply Hh
                 | rewrite (contains_pass "236" _ m) by apply Hm
                 | rewrite il_pass_sigan ];
    reflexivity.
Qed.

Lemma contains_sigan_rest (om : option string) :
  plain_piece om -> Py.contains "시간" (part om "분" ++ "") = false.
Proof.
  destruct om as [m|]; cbn [part plain_piece]; intros Hm; [|reflexivity].
  rewrite append_assoc, (contains_pass "236" _ m) by apply Hm. reflexivity.
Qed.

Lemma block_ok (c0 : ascii) (sep' : string) (set : value -> locals -> locals)
    (o : option string) (rest : string) (l : locals) :
  marker_byte c0 ->
  txt l = part o (String c0 sep') ++ rest ->
  readable o -> Py.contains (String c0 sep') rest = false ->
  after_block (String c0 sep') set true l
  = set_txt rest (match o with Some _ => set (component o) l | None => l end).
Proof.
  intros Hc Ht Ho Hrest. destruct o as [p|]; cbn [part] in Ht.
  - destruct Ho as [Hp [x Hx]]. rewrite append_assoc in Ht.
    rewrite (after_block_hit c0 sep' set l p rest x Ht (plain_marker c0 p Hc Hp) Hrest Hx).
    unfold component. rewrite Hx. reflexivity.
  - rewrite append_nil_l in Ht.
    rewrite after_block_miss by (rewrite Ht; exact Hrest).
    destruct l as [t d]. simpl in Ht. subst t. reflexivity.
Qed.

Lemma last_block_ok (c0 : ascii) (sep' : string) (set : value -> locals -> locals)
    (o : option string) (l : locals) :
  marker_byte c0 ->
  txt l = part o (String c0 sep') ++ "" ->
  readable o -> Py.contains (String c0 sep') "" = false ->
  after_block (String c0 sep') set false l
  = match o with Some _ => set (component o) l | None => l end.
Proof.
  intros Hc Ht Ho Hrest. destruct o as [p|]; cbn [part] in Ht.
  - destruct Ho as [Hp [x Hx]]. rewrite append_assoc in Ht.
    rewrite (after_block_last c0 sep' set l p "" x Ht (plain_marker c0 p Hc Hp) Hx).
    unfold component. rewrite Hx. reflexivity.
  - rewrite after_block_miss by (rewrite Ht; exact Hrest). reflexivity.
Qed.

(** A text with a part holds a marker byte. *)
Lemma shape_marker (od oh om : option string) :
  part od "일" ++ part oh "시간" ++ part om "분" <> "" ->
  exists c, marker_byte c
            /\ occurs c (part od "일" ++ part oh "시간" ++ part om "분") = true.
Proof.
  destruct od as [d|]; [|destruct oh as [h|]; [|destruct om as [m|]]];
    cbn [part]; intros H.
  - exists "236"%char. split; [left; reflexivity|].
    rewrite !occurs_app. change (occurs "236" "일") with true.
    rewrite orb_true_r. reflexivity.
  - exists "236"%char. split; [left; reflexivity|].
    rewrite !append_nil_l, !occurs_app. change (occurs "236" "시간") with true.
    rewrite orb_true_r. reflexivity.
  - exists "235"%char. split; [right; reflexivity|].
    rewrite !append_nil_l, !occurs_app. change (occurs "235" "분") with true.
    rewrite orb_true_r. reflexivity.
  - contradiction H. reflexivity.
Qed.

Lemma length_append (a b : string) :
  String.length (a ++ b) = (String.length a + String.length b)%nat.
Proof.
  induction a as [|x a IH]; [reflexivity|].
  rewrite append_cons. simpl. rewrite IH. reflexivity.
Qed.

(** X18: for a text written as an optional days piece with ["일"], an
    optional hours piece with ["시간"] and an optional minutes piece with
    ["분"], in this order, where each piece is plain and reads as a float,
    the parser gives the float of each piece and 0 for a piece left out. *)
Theorem parse_duration_shape (self : NiceRecord) (od oh om : option string) :
  Py.strip (duration_raw self) = part od "일" ++ part oh "시간" ++ part om "분" ->
  readable od -> readable oh -> readable om ->
  parse_duration self
  = Ok {| days := component od; hours := component oh; minutes := component om |}.
Proof.
  intros Ht Hd Hh Hm. rewrite parse_duration_eq.
  destruct (String.eqb_spec (Py.strip (duration_raw self)) "") as [E|N].
  { rewrite E in Ht. destruct od as [d|], oh as [h|], om as [m|];
      try reflexivity; exfalso; cbn [part] in Ht;
      apply (f_equal String.length) in Ht;
      rewrite ?append_nil_l, ?length_append in Ht;
      simpl in Ht; lia. }
  destruct (shape_marker od oh om) as (c & Hc & Hocc).
  { rewrite <- Ht. exact N. }
  rewrite <- Ht in Hocc. apply strip_occurs in Hocc.
  rewrite (after_bare_number_marker self _ c Hc Hocc).
  set (l0 := {| txt := Py.strip (duration_raw self); dur := no_duration |}).
  rewrite (block_ok "236" _ set_days od (part oh "시간" ++ part om "분") l0
             (or_introl eq_refl) Ht Hd
             (contains_il_rest oh om (readable_plain _ Hh) (readable_plain _ Hm))).
  rewrite (block_ok "236" _ set_hours oh (part om "분" ++ "") _
             (or_introl eq_refl))
    by first [ rewrite append_nil_r; reflexivity
             | exact Hh
             | apply contains_sigan_rest, readable_plain, Hm ].
  rewrite (last_block_ok "235" _ set_minutes om _ (or_intror eq_refl))
    by first [ reflexivity | exact Hm ].
  destruct od, oh, om; reflexivity.
Qed.

Lemma parse_duration_shape_witness :
  parse_duration {| leave_type := "연가"; duration_raw := " 3시간 30분 ";
                    hours_per_day := 8 |}
  = Ok {| days := VInt 0; hours := VFloat 3; minutes := VFloat 30 |}.
Proof.
  apply (parse_duration_shape _ None (Some "3") (Some " 30")).
  - reflexivity.
  - exact I.
  - split; [split; reflexivity|]. eexists. reflexivity.
  - split; [split; reflexivity|]. eexists. reflexivity.
Defined.

(** ** Durations the parser gives up on *)

(** A Hangul syllable, U+AC00..U+D7A3, in UTF-8. *)
Definition is_hangul (c1 c2 c3 : ascii) : bool :=
  let b1 := Py.byte_of c1 in
  let b2 := Py.byte_of c2 in
  let b3 := Py.byte_of c3 in
  let cp := (b1 - 224) * 4096 + (b2 - 128) * 64 + (b3 - 128) in
  (224 <=? b1) && (b1 <=? 239) && (128 <=? b2) && (b2 <=? 191)
  && (128 <=? b3) && (b3 <=? 191) && (44032 <=? cp) && (cp <=? 55203).

(** A text of ASCII characters and Hangul syllables.  It holds no decimal
    digit of another script, so that [Py.float_of_string] reads it, or fails
    to, as [float] does. *)
Fixpoint hangul_or_ascii (s : string) : bool :=
  match s with
  | "" => true
  | String c1 r1 =>
      if Py.byte_of c1 <? 128 then hangul_or_ascii r1
      else
        match r1 with
        | String c2 (String c3 r3) => is_hangul c1 c2 c3 && hangul_or_ascii r3
        | _ => false
        end
  end.

(** X19: a text of ASCII characters and Hangul syllables without any of the
    three markers is read as a bare number of days: the float of the whole
    input when it reads as one, and 0 days otherwise; hours and minutes are
    0. *)
Theorem parse_duration_no_marker (self : NiceRecord) :
  hangul_or_ascii (duration_raw self) = true ->
  Py.contains "일" (Py.strip (duration_raw self)) = false ->
  Py.contains "시간" (Py.strip (duration_raw self)) = false ->
  Py.contains "분" (Py.strip (duration_raw self)) = false ->
  parse_duration self
  = Ok {| days := match Py.float (VStr (duration_raw self)) with
                  | Ok x => if String.eqb (Py.strip (duration_raw self)) ""
                            then VInt 0 else VFloat x
                  | Raise _ => VInt 0
                  end;
          hours := VInt 0; minutes := VInt 0 |}.
Proof.
  intros _ H1 H2 H3. rewrite parse_duration_eq.
  destruct (String.eqb (Py.strip (duration_raw self)) "").
  - destruct (Py.float _); reflexivity.
  - rewrite (after_block_miss "일") by exact H1.
    rewrite (after_block_miss "시간") by exact H2.
    rewrite (after_block_miss "분") by exact H3.
    unfold after_bare_number. simpl.
    destruct (Py.float_of_string (duration_raw self)); reflexivity.
Qed.

Lemma parse_duration_no_marker_witness :
  parse_duration {| leave_type := "연가"; duration_raw := "반나절";
                    hours_per_day := 8 |}
  = Ok {| days := VInt 0; hours := VInt 0; minutes := VInt 0 |}.
Proof. rewrite parse_duration_no_marker; reflexivity. Defined.

Lemma occurs_il : occurs "236" "일" = true /\ occurs "235" "일" = false.
Proof. split; reflexivity. Qed.

Lemma occurs_sigan : occurs "236" "시간" = true /\ occurs "235" "시간" = false.
Proof. split; reflexivity. Qed.

Lemma occurs_part (c : ascii) (o : option string) (marker : string) :
  marker_byte c -> plain_piece o ->
  occurs c (part o marker) = match o with Some _ => occurs c marker | None => false end.
Proof.
  intros Hc Ho. destruct o as [p|]; [|reflexivity]. cbn [part].
  rewrite occurs_app, (plain_marker c p Hc Ho). reflexivity.
Qed.

(** X20: when the days piece, a text of ASCII characters and Hangul
    syllables, does not read as a float, the parser gives up on the whole
    text: the hours and the minutes that follow are lost too, and the result
    is 0 days, 0 hours and 0 minutes. *)
Theorem parse_duration_bad_days (self : NiceRecord) (d : string)
    (oh om : option string) (e : exn) :
  Py.strip (duration_raw self) = d ++ "일" ++ part oh "시간" ++ part om "분" ->
  plain d -> plain_piece oh -> plain_piece om ->
  hangul_or_ascii d = true ->
  Py.float (VStr d) = Raise e ->
  parse_duration self = Ok no_duration.
Proof.
  intros Ht Hd Hh Hm _ He. rewrite parse_duration_eq.
  assert (H236 : occurs "236" (Py.strip (duration_raw self)) = true).
  { rewrite Ht, !occurs_app. change (occurs "236" "일") with true.
    rewrite orb_true_r. reflexivity. }
  rewrite (occurs_not_empty _ _ H236).
  rewrite (after_bare_number_marker self _ "236" (or_introl eq_refl)
             (strip_occurs _ _ H236)).
  set (l0 := {| txt := Py.strip (duration_raw self); dur := no_duration |}).
  assert (E1 : after_block "일" set_days true l0 = l0).
  { apply (after_block_fail _ _ _ _ d e); [|exact He].
    simpl txt. rewrite Ht. apply (split_head "236"), Hd. }
  rewrite E1.
  assert (E2 : after_block "시간" set_hours true l0 = l0).
  { destruct oh as [h|]; cbn [part] in Ht.
    - apply (after_block_fail _ _ _ _ (d ++ "일" ++ h) ValueError).
      + simpl txt. rewrite Ht. unfold Py.split.
        rewrite (split_from_pass "236" _ d) by apply Hd.
        rewrite split_sigan_pass_il, !append_assoc.
        rewrite (split_from_pass "236" _ h) by apply Hh.
        rewrite split_from_sep, !append_assoc. reflexivity.
      + apply (float_of_string_marker "236"); [left; reflexivity|].
        rewrite !occurs_app. change (occurs "236" "일") with true.
        rewrite orb_true_r. reflexivity.
    - apply after_block_miss. simpl txt. rewrite Ht, append_nil_l.
      rewrite (contains_pass "236" _ d) by apply Hd.
      rewrite sigan_pass_il. apply (contains_sigan_rest om) in Hm.
      rewrite append_nil_r in Hm. exact Hm. }
  rewrite E2.
  assert (E3 : after_block "분" set_minutes false l0 = l0).
  { destruct om as [m|]; cbn [part] in Ht.
    - apply (after_block_fail _ _ _ _ (d ++ "일" ++ part oh "시간" ++ m) ValueError).
      + simpl txt. rewrite Ht.
        rewrite <- (append_nil_r "분"), <- !append_assoc.
        rewrite !append_assoc. rewrite <- (append_assoc (part oh "시간") m).
        rewrite <- (append_assoc "일"), <- (append_assoc d).
        apply (split_head "235").
        rewrite !occurs_app, (occurs_part "235" oh) by first [right; reflexivity|exact Hh].
        rewrite (proj2 Hd), (proj2 Hm). destruct oh; reflexivity.
      + apply (float_of_string_marker "236"); [left; reflexivity|].
        rewrite !occurs_app. change (occurs "236" "일") with true.
        rewrite orb_true_r. reflexivity.
    - apply after_block_miss. simpl txt. rewrite Ht, append_nil_r.
      rewrite <- (append_nil_r (part oh "시간")), <- !append_assoc.
      rewrite (contains_pass "235"); [reflexivity|].
      rewrite !occurs_app, (occurs_part "235" oh) by first [right; reflexivity|exact Hh].
      rewrite (proj2 Hd). destruct oh; reflexivity. }
  rewrite E3. reflexivity.
Qed.

Lemma parse_duration_bad_days_witness :
  parse_duration {| leave_type := "연가"; duration_raw := "x일 5시간 30분";
                    hours_per_day := 8 |}
  = Ok no_duration.
Proof.
  apply (parse_duration_bad_days _ "x" (Some " 5") (Some " 30") ValueError);
    try reflexivity; split; reflexivity.
Defined.

(** ** Day counts that are not numbers *)

(** X21: when the suggestion is made and one of the two day counts is not a
    number ([None], or a string as a form field gives it), the pipeline
    raises [TypeError]: the subtraction is not guarded. *)
Theorem full_pipeline_type_error (repr_float : float -> string) (rid : string)
    (svc wage : dict) (granted used : value) :
  returns (suggest_annual_days repr_float rid svc) ->
  not_a_number granted \/ not_a_number used ->
  full_pipeline repr_float rid svc wage granted used = Raise TypeError.
Proof.
  intros [s Hs] H. unfold full_pipeline.
  change (subscript RULE_PROFILES "custom") with (Ok (make_profile "custom" "커스텀")).
  rewrite bind_Ok_l. cbv zeta. rewrite Hs, bind_Ok_l.
  assert (E : Py.sub granted used = Raise TypeError).
  { destruct H as [H|H]; destruct granted, used; try contradiction; reflexivity. }
  rewrite E. reflexivity.
Qed.

Lemma full_pipeline_type_error_witness :
  full_pipeline (fun _ => "") "custom" ∅
    {[ "wage_type" := VStr "daily"; "wage_amount" := VFloat 80000 ]}
    (VStr "15") (VInt 3)
  = Raise TypeError.
Proof.
  apply full_pipeline_type_error; [eexists; reflexivity|left; exact I].
Defined.

(** ** Amounts that are not negative *)

Lemma SFmul_nonneg (x y : spec_float) :
  SF_nonneg x -> SF_nonneg y -> SF_nonneg (SFmul prec emax x y).
Proof.
  destruct x as [[]|[]| |[] mx ex], y as [[]|[]| |[] my ey]; simpl;
    try contradiction; intros _ _; try exact I.
  apply sign_false_nonneg, (binary_round_aux_sign false).
Qed.

Lemma SFdiv_nonneg (x y : spec_float) :
  SF_nonneg x -> SF_nonneg y -> (forall s, y <> S754_zero s) ->
  SF_nonneg (SFdiv prec emax x y).
Proof.
  destruct x as [[]|[]| |[] mx ex], y as [sy|[]| |[] my ey]; simpl;
    try contradiction; intros _ _ Hy; try exact I;
    try (destruct (Hy sy eq_refl)).
  destruct (SFdiv_core_binary _ _ _ _ _ _) as [[mz ez] lz].
  apply sign_false_nonneg, (binary_round_aux_sign false).
Qed.

Lemma is_nan_inv (f : float) : Py.is_nan f = true -> Prim2SF f = S754_nan.
Proof.
  unfold Py.is_nan, PrimFloat.is_nan. rewrite FloatAxioms.eqb_spec.
  destruct (Prim2SF f) as [s|s| |s m e]; try reflexivity.
  - destruct s; discriminate.
  - destruct s; discriminate.
  - unfold SFeqb, SFcompare. rewrite Z.compare_refl, Pos.compare_cont_refl.
    destruct s; discriminate.
Qed.

(** The same as [not_negative], on the binary representation. *)
Definition nonneg_value (v : value) : Prop :=
  match v with
  | VInt z => 0 <= z
  | VFloat f => SF_nonneg (Prim2SF f)
  | _ => False
  end.

Lemma nonneg_value_iff (v : value) : nonneg_value v <-> not_negative v.
Proof.
  destruct v as [|z|f|s]; simpl; try tauto. split; [apply ge_zero_of_nonneg|].
  intros [H|H].
  - rewrite (is_nan_inv f H). exact I.
  - unfold Py.ge, Py.compare, Py.SF_compare_Z in H.
    destruct (Prim2SF f) as [s|s| |s m e]; try exact I.
    + destruct s; [discriminate H|exact I].
    + destruct s; [|exact I]. exfalso. cbv zeta in H.
      assert (Hc : (if 0 <=? e then cond_Zopp true (Z.pos m) * 2 ^ e ?= 0
                    else cond_Zopp true (Z.pos m) ?= 0 * 2 ^ (- e)) = Lt).
      { destruct (0 <=? e) eqn:He; [|reflexivity].
        apply Z.leb_le in He. apply Z.compare_lt_iff.
        pose proof (Z.pow_pos_nonneg 2 e ltac:(lia) He).
        pose proof (Pos2Z.neg_is_neg m). simpl. nia. }
      rewrite Hc in H. discriminate H.
Qed.

Lemma float_of_Z_nonneg (z : Z) (f : float) :
  0 <= z -> Py.float_of_Z z = Ok f -> SF_nonneg (Prim2SF f).
Proof.
  intros Hz. unfold Py.float_of_Z.
  pose proof (binary_normalize_nonneg z 0 false Hz) as H.
  destruct (binary_normalize prec emax z 0 false) as [s|s| |s m e];
    try discriminate; intros [= <-].
  - apply (SF2Prim_nonneg (S754_zero s)), H.
  - apply (SF2Prim_nonneg S754_nan), H.
  - apply (SF2Prim_nonneg (S754_finite s m e)), H.
Qed.

Lemma mul_nonneg (a b v : value) :
  nonneg_value a -> nonneg_value b -> Py.mul a b = Ok v -> nonneg_value v.
Proof.
  destruct a as [|x|x|], b as [|y|y|]; try contradiction; simpl; intros Ha Hb.
  - intros [= <-]. simpl. nia.
  - unfold Py.mul, Py.arith. destruct (Py.float_of_Z x) as [x'|] eqn:E; [|discriminate].
    intros [= <-]. simpl. rewrite FloatAxioms.mul_spec.
    apply SFmul_nonneg; [apply (float_of_Z_nonneg x x' Ha E)|exact Hb].
  - unfold Py.mul, Py.arith. destruct (Py.float_of_Z y) as [y'|] eqn:E; [|discriminate].
    intros [= <-]. simpl. rewrite FloatAxioms.mul_spec.
    apply SFmul_nonneg; [exact Ha|apply (float_of_Z_nonneg y y' Hb E)].
  - intros [= <-]. simpl. rewrite FloatAxioms.mul_spec. apply SFmul_nonneg; assumption.
Qed.

Lemma float_div_nonneg (x y : float) (v : value) :
  SF_nonneg (Prim2SF x) -> SF_nonneg (Prim2SF y) ->
  (if (y =? 0)%float then Raise ZeroDivisionError else Ok (VFloat (x / y))) = Ok v ->
  nonneg_value v.
Proof.
  intros Hx Hy. destruct (y =? 0)%float eqn:E; [discriminate|].
  intros [= <-]. simpl. rewrite FloatAxioms.div_spec.
  apply SFdiv_nonneg; try assumption.
  intros s Hs. rewrite FloatAxioms.eqb_spec, Hs in E. destruct s; discriminate E.
Qed.

Lemma truediv_nonneg (a b v : value) :
  nonneg_value a -> nonneg_value b -> Py.truediv a b = Ok v -> nonneg_value v.
Proof.
  destruct a as [|x|x|], b as [|y|y|]; try contradiction; simpl; intros Ha Hb;
    unfold Py.truediv, Py.arith.
  - unfold Py.Z_truediv. destruct (y =? 0); [discriminate|].
    assert ((x <? 0) = false) as -> by (apply Z.ltb_ge; exact Ha).
    assert ((y <? 0) = false) as -> by (apply Z.ltb_ge; exact Hb).
    simpl xorb. pose proof (SF_quot_nonneg (Z.abs x) (Z.abs y)) as H.
    destruct (Py.SF_quot false (Z.abs x) (Z.abs y)) as [s|s| |s m e];
      try discriminate; intros [= <-].
    + apply (SF2Prim_nonneg (S754_zero s)), H.
    + apply (SF2Prim_nonneg S754_nan), H.
    + apply (SF2Prim_nonneg (S754_finite s m e)), H.
  - destruct (Py.float_of_Z x) as [x'|] eqn:E; [|discriminate]. rewrite bind_Ok_l.
    apply float_div_nonneg; [apply (float_of_Z_nonneg x x' Ha E)|exact Hb].
  - destruct (Py.float_of_Z y) as [y'|] eqn:E; [|discriminate]. rewrite bind_Ok_l.
    apply float_div_nonneg; [exact Ha|apply (float_of_Z_nonneg y y' Hb E)].
  - apply float_div_nonneg; assumption.
Qed.

Lemma gt_zero_nonneg (b : value) : Py.gt b (VInt 0) = Ok true -> nonneg_value b.
Proof.
  destruct b as [|y|y|]; try discriminate; unfold Py.gt, Py.compare; simpl.
  - destruct (Z.compare_spec y 0); try discriminate. lia.
  - unfold Py.SF_compare_Z. destruct (Prim2SF y) as [s|s| |s m e]; try discriminate.
    + destruct s; [discriminate|intros _; exact I].
    + destruct s; [|intros _; exact I]. cbv zeta.
      assert (Hc : (if 0 <=? e then cond_Zopp true (Z.pos m) * 2 ^ e ?= 0
                    else cond_Zopp true (Z.pos m) ?= 0 * 2 ^ (- e)) = Lt).
      { destruct (0 <=? e) eqn:He; [|reflexivity].
        apply Z.leb_le in He. apply Z.compare_lt_iff.
        pose proof (Z.pow_pos_nonneg 2 e ltac:(lia) He).
        pose proof (Pos2Z.neg_is_neg m). simpl. nia. }
      rewrite Hc. discriminate.
Qed.

Lemma max_zero_nonneg (diff unused : value) :
  Py.max diff (VInt 0) = Ok unused -> nonneg_value unused.
Proof.
  destruct diff as [|z|f|s]; try discriminate.
  - rewrite max_int. intros [= <-]. simpl. lia.
  - unfold Py.max, Py.gt, Py.compare, Py.SF_compare_Z. simpl.
    destruct (Prim2SF f) as [s|s| |s m e] eqn:E; simpl.
    + destruct (0 ?= 0); intros [= <-]; simpl; try lia; rewrite E; exact I.
    + destruct s; intros [= <-]; simpl; [lia|rewrite E; exact I].
    + intros [= <-]. simpl. rewrite E. exact I.
    + destruct s; [|destruct (CompOpp _); intros [= <-]; simpl; try lia; rewrite E; exact I].
      assert (Hc : (if 0 <=? e then cond_Zopp true (Z.pos m) * 2 ^ e ?= 0
                    else cond_Zopp true (Z.pos m) ?= 0 * 2 ^ (- e)) = Lt).
      { destruct (0 <=? e) eqn:He; [|reflexivity].
        apply Z.leb_le in He. apply Z.compare_lt_iff.
        pose proof (Z.pow_pos_nonneg 2 e ltac:(lia) He).
        pose proof (Pos2Z.neg_is_neg m). simpl. nia. }
      rewrite Hc. intros [= <-]. simpl. lia.
Qed.

Lemma drop_to_10won_nonneg (v : value) :
  nonneg_value v -> exists k, drop_to_10won v = Ok (VInt k) /\ 0 <= k.
Proof.
  intros Hv. rewrite drop_to_10won_eq. eexists. split; [reflexivity|].
  destruct v as [|z|f|s]; try contradiction; simpl in Hv.
  - change (Py.int (VInt z)) with (Ok z). pose proof (Z.div_pos z 10 Hv). lia.
  - change (Py.int (VFloat f)) with (Py.Z_of_float f). unfold Py.Z_of_float.
    destruct (Prim2SF f) as [s|s| |s m e]; simpl in Hv |- *;
      try (vm_compute; discriminate).
    destruct s; [contradiction|]. simpl cond_Zopp.
    match goal with |- 0 <= ?n / 10 * 10 => assert (Hn : 0 <= n) end.
    { destruct (0 <=? e) eqn:He.
      - pose proof (Z.pow_nonneg 2 e). nia.
      - apply Z.leb_gt in He. apply Z.div_pos; [lia|].
        apply Z.pow_pos_nonneg; lia. }
    pose proof (Z.div_pos _ 10 Hn). lia.
Qed.

(** X22: a wage amount and hours per day that are not negative give a daily
    wage that is not negative (a number [>= 0], or a NaN), whatever the wage
    type; the guard [mwd > 0] keeps the sign of the monthly quotient. *)
Theorem calc_daily_wage_not_negative (wage : dict) (daily : value) :
  calc_daily_wage wage = Ok daily ->
  not_negative (Py.get wage "wage_amount" (VInt 0)) ->
  not_negative (Py.get wage "hours_per_day" (VInt 8)) ->
  not_negative daily.
Proof.
  intros H Ha Hh. apply nonneg_value_iff. apply nonneg_value_iff in Ha, Hh.
  unfold calc_daily_wage in H. cbv zeta in H.
  destruct (Py.eq _ (VStr "hourly")); [apply (mul_nonneg _ _ _ Ha Hh H)|].
  destruct (Py.eq _ (VStr "daily")); [injection H as <-; exact Ha|].
  destruct (Py.eq _ (VStr "monthly")); [|injection H as <-; simpl; lia].
  inv_bind H. destruct a.
  - apply (truediv_nonneg _ _ _ Ha (gt_zero_nonneg _ Ha0) H).
  - injection H as <-. simpl. lia.
Qed.

Lemma calc_daily_wage_not_negative_witness :
  exists daily,
    calc_daily_wage {[ "wage_type" := VStr "monthly"; "wage_amount" := VFloat 2000000;
                       "monthly_work_days" := VFloat 21.5 ]} = Ok daily
    /\ not_negative daily.
Proof.
  eexists. split; [reflexivity|].
  apply (calc_daily_wage_not_negative
           {[ "wage_type" := VStr "monthly"; "wage_amount" := VFloat 2000000;
              "monthly_work_days" := VFloat 21.5 ]}).
  - reflexivity.
  - right. reflexivity.
  - vm_compute. discriminate.
Defined.

(** X23: with a wage amount and hours per day that are not negative, a
    result never holds a negative amount: the unused days, the raw payout and
    the raw daily wage are not negative, and the two rounded amounts are
    integers [>= 0]. *)
Theorem full_pipeline_not_negative (repr_float : float -> string) (rid : string)
    (svc wage : dict) (granted used : value) (res : PipelineResult) :
  full_pipeline repr_float rid svc wage granted used = Ok res ->
  not_negative (Py.get wage "wage_amount" (VInt 0)) ->
  not_negative (Py.get wage "hours_per_day" (VInt 8)) ->
  not_negative (unused_days (payout res))
  /\ not_negative (daily_wage_raw (payout res))
  /\ not_negative (payout_raw (payout res))
  /\ exists a b, daily_wage_rounded (payout res) = VInt a
                 /\ payout_rounded (payout res) = VInt b /\ 0 <= a /\ 0 <= b.
Proof.
  intros Hres Ha Hh. apply full_pipeline_Ok in Hres.
  destruct Hres as (sug & diff & unused & daily & praw & dcut & pcut
                    & _ & _ & Hmax & Hdaily & Hmul & Hd & Hp & ->).
  simpl.
  pose proof (max_zero_nonneg _ _ Hmax) as Hu.
  pose proof (proj2 (nonneg_value_iff _)
                (calc_daily_wage_not_negative wage daily Hdaily Ha Hh)) as Hw.
  pose proof (mul_nonneg _ _ _ Hu Hw Hmul) as Hr.
  destruct (drop_to_10won_nonneg _ Hw) as (a & Ea & Ha0).
  destruct (drop_to_10won_nonneg _ Hr) as (b & Eb & Hb0).
  rewrite Ea in Hd. rewrite Eb in Hp. injection Hd as <-. injection Hp as <-.
  repeat split; try (apply nonneg_value_iff; assumption).
  exists a, b. auto.
Qed.

Lemma full_pipeline_not_negative_witness :
  exists res,
    full_pipeline (fun _ => "") "law_basic" (service_summary 3 (VInt 95) 0)
      {[ "wage_type" := VStr "hourly"; "wage_amount" := VFloat 10030.5 ]}
      (VFloat 15) (VFloat 12.5) = Ok res
    /\ not_negative (payout_raw (payout res)).
Proof.
  destruct (full_pipeline (fun _ => "") "law_basic" (service_summary 3 (VInt 95) 0)
      {[ "wage_type" := VStr "hourly"; "wage_amount" := VFloat 10030.5 ]}
      (VFloat 15) (VFloat 12.5)) as [res|e] eqn:E.
  - exists res. split; [reflexivity|].
    apply (full_pipeline_not_negative _ _ _ _ _ _ _ E).
    + right. reflexivity.
    + vm_compute. discriminate.
  - vm_compute in E. discriminate E.
Defined.

